(** * Time-series statistics manager: a shallow embedding of [src/lib/index.ts]

    The class [TimeSeriesStatisticsManager] keeps per-topic counters in one
    DynamoDB table, one counter cell per (topic, time partition, bucket).
    This file embeds its methods as functions over an explicit world (the
    table, the log of commands sent to the client, and a script of client
    failures) and states the properties of the specification over them.

    Numbers are integers ([Z]); JavaScript's NaN is written [None] where a
    computation can produce it.  The calendar arithmetic of [Date] and the
    token table of [moment#format] are external to the repository; they are
    modelled in [JsDate] and [Moment] to the extent the source uses them.
    Table provisioning ([createTableIfNotExists], [waitUntilTableExists])
    polls the service against the clock; it is embedded in [Provisioning]
    over a state of its own (the clock, the commands sent, the replies of
    the service), and reaches the other methods through its outcome only,
    the value that the constructor's promise chain settles with. *)

From Stdlib Require Import ZArith String Ascii List Lia.
From stdpp Require Import base option list gmap strings sorting.

Local Open Scope string_scope.
Local Open Scope list_scope.
Local Open Scope Z_scope.

(** String concatenation (JavaScript's [+] and template literals). *)
Local Infix "+:+" := String.append (at level 60, right associativity).

(** ** JavaScript values that a promise can be rejected with *)

Inductive JsValue : Type :=
| JsUndefined
| JsError (name message : string).

(** [if (error)] on a rejection value. *)
Definition truthy (v : JsValue) : bool :=
  match v with
  | JsUndefined => false
  | JsError _ _ => true
  end.

Definition errorName (v : JsValue) : option string :=
  match v with
  | JsUndefined => None
  | JsError n _ => Some n
  end.

(** ** Decimal digits *)

Module Digits.

Definition digitChar (d : Z) : ascii := ascii_of_nat (48 + Z.to_nat d).

Definition charDigit (c : ascii) : option Z :=
  let n := Z.of_nat (nat_of_ascii c) in
  if (48 <=? n) && (n <=? 57) then Some (n - 48) else None.

(** The decimal numeral of a non-negative integer, most significant digit
    first; [fuel] bounds the number of digits. *)
Fixpoint decimalFuel (fuel : nat) (n : Z) (acc : string) : string :=
  match fuel with
  | O => acc
  | S fuel' =>
      let acc' := String (digitChar (n mod 10)) acc in
      if n / 10 =? 0 then acc' else decimalFuel fuel' (n / 10) acc'
  end.

Definition decimal (n : Z) : string :=
  decimalFuel (S (Z.to_nat (Z.log2 n))) n "".

Fixpoint zeros (k : nat) : string :=
  match k with
  | O => ""
  | S k' => String "0" (zeros k')
  end.

(** moment's [zeroFill(number, targetLength)] without a forced sign: the
    absolute value padded with zeros on the left to [targetLength] digits
    (never truncated), after a minus sign for a negative number. *)
Definition zeroFill (number : Z) (targetLength : nat) : string :=
  let absNumber := decimal (Z.abs number) in
  let zerosToFill := (targetLength - String.length absNumber)%nat in
  (if 0 <=? number then "" else "-") +:+ zeros zerosToFill +:+ absNumber.

(** Reads exactly [k] decimal digits from the front of [s]. *)
Fixpoint readDigits (k : nat) (acc : Z) (s : string) : option (Z * string) :=
  match k with
  | O => Some (acc, s)
  | S k' =>
      match s with
      | String c rest =>
          match charDigit c with
          | Some d => readDigits k' (10 * acc + d) rest
          | None => None
          end
      | EmptyString => None
      end
  end.

End Digits.

(** ** The part of ECMAScript's [Date] that the source relies on *)

Module JsDate.
Import Digits.

Definition msPerDay : Z := 86400000.
Definition msPerHour : Z := 3600000.
Definition msPerMinute : Z := 60000.
Definition msPerSecond : Z := 1000.

(** A time value is valid when it is within 8.64e15 ms of the epoch. *)
Definition maxTime : Z := 8640000000000000.
Definition validTime (t : Z) : bool := (- maxTime <=? t) && (t <=? maxTime).

(** Day number to proleptic Gregorian (year, month 1..12, day 1..31). *)
Definition civilFromDays (z : Z) : Z * Z * Z :=
  let z := z + 719468 in
  let era := z / 146097 in
  let doe := z - era * 146097 in
  let yoe := (doe - doe / 1460 + doe / 36524 - doe / 146096) / 365 in
  let doy := doe - (365 * yoe + yoe / 4 - yoe / 100) in
  let mp := (5 * doy + 2) / 153 in
  let d := doy - (153 * mp + 2) / 5 + 1 in
  let m := if mp <? 10 then mp + 3 else mp - 9 in
  let y := yoe + era * 400 in
  (if m <=? 2 then y + 1 else y, m, d).

(** (year, month, day) to day number; the day of the month carries over
    linearly, as [MakeDay] does. *)
Definition daysFromCivil (y m d : Z) : Z :=
  let y := if m <=? 2 then y - 1 else y in
  let era := y / 400 in
  let yoe := y - era * 400 in
  let mp := if m <=? 2 then m + 9 else m - 3 in
  let doy := (153 * mp + 2) / 5 + d - 1 in
  let doe := yoe * 365 + yoe / 4 - yoe / 100 + doy in
  era * 146097 + doe - 719468.

Record Fields : Type := mkFields {
  fullYear : Z;
  month : Z;        (* 1..12 *)
  date : Z;         (* 1..31 *)
  hours : Z;
  minutes : Z;
  seconds : Z;
  milliseconds : Z
}.

(** The UTC fields of a time value ([getUTCFullYear] and the like). *)
Definition utcFields (t : Z) : Fields :=
  let '(y, m, d) := civilFromDays (t / msPerDay) in
  let r := t mod msPerDay in
  {| fullYear := y; month := m; date := d;
     hours := r / msPerHour;
     minutes := r / msPerMinute mod 60;
     seconds := r / msPerSecond mod 60;
     milliseconds := r mod 1000 |}.

(** [MakeDate(MakeDay(y, m, d), MakeTime(h, min, s, ms))]. *)
Definition makeTime (f : Fields) : Z :=
  daysFromCivil (fullYear f) (month f) (date f) * msPerDay
  + hours f * msPerHour + minutes f * msPerMinute
  + seconds f * msPerSecond + milliseconds f.

Definition expect (c : ascii) (s : string) : option string :=
  match s with
  | String c' rest => if Ascii.eqb c c' then Some rest else None
  | EmptyString => None
  end.

(** The UTC offset designator of a date-time string, in minutes: [Z] or
    a sign followed by [HH:mm]. *)
Definition readOffset (s : string) : option (Z * string) :=
  match s with
  | String c rest =>
      if Ascii.eqb c "Z" then Some (0, rest)
      else if Ascii.eqb c "+" || Ascii.eqb c "-" then
        '(h, s1) ← readDigits 2 0 rest;
        s2 ← expect ":" s1;
        '(m, s3) ← readDigits 2 0 s2;
        if (h <=? 23) && (m <=? 59)
        then Some ((if Ascii.eqb c "-" then -1 else 1) * (60 * h + m), s3)
        else None
      else None
  | EmptyString => None
  end.

(** [new Date(string)] on the complete date-time form
    [YYYY-MM-DDTHH:mm:ss.sssZ] of the ECMAScript date-time string format,
    with a four-digit year and the offset [Z] or [+HH:mm]; this is the
    shape the default partition formats produce.  [None] is the invalid
    date, whose time value is NaN; any other string is taken to be
    invalid. *)
Definition parse (s : string) : option Z :=
  '(y, s) ← readDigits 4 0 s;
  s ← expect "-" s;
  '(mo, s) ← readDigits 2 0 s;
  s ← expect "-" s;
  '(d, s) ← readDigits 2 0 s;
  s ← expect "T" s;
  '(h, s) ← readDigits 2 0 s;
  s ← expect ":" s;
  '(mi, s) ← readDigits 2 0 s;
  s ← expect ":" s;
  '(sec, s) ← readDigits 2 0 s;
  s ← expect "." s;
  '(ms, s) ← readDigits 3 0 s;
  '(off, s) ← readOffset s;
  if negb (String.eqb s "") then None
  else if negb ((1 <=? mo) && (mo <=? 12) && (1 <=? d) && (d <=? 31)
                && (h <=? 23) && (mi <=? 59) && (sec <=? 59)) then None
  else
    let t := makeTime (mkFields y mo d h mi sec ms) - off * msPerMinute in
    if validTime t then Some t else None.

(** [Date.prototype.toISOString] of a valid time value: four-digit year,
    or a sign and six digits outside 0..9999. *)
Definition toISOString (t : Z) : string :=
  let f := utcFields t in
  let y := fullYear f in
  (if (0 <=? y) && (y <=? 9999) then zeroFill y 4
   else (if 0 <=? y then "+" else "-") +:+ zeroFill (Z.abs y) 6)
  +:+ "-" +:+ zeroFill (month f) 2 +:+ "-" +:+ zeroFill (date f) 2
  +:+ "T" +:+ zeroFill (hours f) 2 +:+ ":" +:+ zeroFill (minutes f) 2
  +:+ ":" +:+ zeroFill (seconds f) 2 +:+ "." +:+ zeroFill (milliseconds f) 3
  +:+ "Z".

End JsDate.

(** ** The part of [moment] that the source relies on *)

Module Moment.
Import Digits.

(** The format string cut into maximal runs of one character. *)
Fixpoint runs (s : string) : list (ascii * nat) :=
  match s with
  | EmptyString => []
  | String c rest =>
      match runs rest with
      | (c', n) :: tl =>
          if Ascii.eqb c c' then (c, S n) :: tl
          else (c, 1%nat) :: (c', n) :: tl
      | [] => [(c, 1%nat)]
      end
  end.

(** Characters that start a formatting token, a localized long-date
    token or an escape in moment's format grammar. *)
Definition tokenChars : string := "HhMDdwWQNYygGeEaAkmsSxXzZLl\[".

Definition isTokenChar (c : ascii) : bool :=
  existsb (Ascii.eqb c) (list_ascii_of_string tokenChars).

Fixpoint replicateChar (n : nat) (c : ascii) : string :=
  match n with
  | O => ""
  | S n' => String c (replicateChar n' c)
  end.

(** One run of the format, in UTC mode.  The tokens [YYYY MM DD HH mm ss
    SSS Z] are modelled; a run of a non-token character stands for
    itself; any other token is outside this model ([None]). *)
Definition formatRun (f : JsDate.Fields) (r : ascii * nat) : option string :=
  let '(c, n) := r in
  if negb (isTokenChar c) then Some (replicateChar n c)
  else if Ascii.eqb c "Y" && Nat.eqb n 4 then Some (zeroFill (JsDate.fullYear f) 4)
  else if Ascii.eqb c "M" && Nat.eqb n 2 then Some (zeroFill (JsDate.month f) 2)
  else if Ascii.eqb c "D" && Nat.eqb n 2 then Some (zeroFill (JsDate.date f) 2)
  else if Ascii.eqb c "H" && Nat.eqb n 2 then Some (zeroFill (JsDate.hours f) 2)
  else if Ascii.eqb c "m" && Nat.eqb n 2 then Some (zeroFill (JsDate.minutes f) 2)
  else if Ascii.eqb c "s" && Nat.eqb n 2 then Some (zeroFill (JsDate.seconds f) 2)
  else if Ascii.eqb c "S" && Nat.eqb n 3 then Some (zeroFill (JsDate.milliseconds f) 3)
  else if Ascii.eqb c "Z" && Nat.eqb n 1 then Some "+00:00"
  else None.

Fixpoint formatRuns (f : JsDate.Fields) (rs : list (ascii * nat)) : option string :=
  match rs with
  | [] => Some ""
  | r :: rs' =>
      s ← formatRun f r;
      s' ← formatRuns f rs';
      Some (s +:+ s')
  end.

(** [moment(timestamp).utc().format(fmt)]: a number is taken as
    milliseconds since the epoch. *)
Definition utcFormat (timestamp : Z) (fmt : string) : option string :=
  if JsDate.validTime timestamp
  then formatRuns (JsDate.utcFields timestamp) (runs fmt)
  else Some "Invalid date".

End Moment.

(** ** Data model *)

Module Statistic.
(** [interface Statistic]; a field read from a missing array element is
    [undefined], written [None]. *)
Record t : Type := mk {
  topic : option string;
  period : option string;
  count : Z;
  time_partition : Z
}.
End Statistic.

Module TimePartition.
Record t : Type := mk {
  name : string;
  format : string;
  interval : Z
}.
End TimePartition.

(** The module-level constant [timePartitions] and the default table
    name. *)
Module Defaults.
Definition timePartitions : list TimePartition.t :=
  [ TimePartition.mk "minute" "YYYY-MM-DDTHH:mm:00.000Z" 60;
    TimePartition.mk "hour" "YYYY-MM-DDTHH:00:00.000Z" (60 * 60);
    TimePartition.mk "day" "YYYY-MM-DDT00:00:00.000Z" (60 * 60 * 24);
    TimePartition.mk "month" "YYYY-MM-01T00:00:00.000Z" (60 * 60 * 24 * 30);
    TimePartition.mk "year" "YYYY-01-01T00:00:00.000Z" (60 * 60 * 24 * 365) ].
Definition table : string := "statistics".
End Defaults.

(** ** The DynamoDB table behind the document client *)

Module Dynamo.

(** The attributes of an item other than its key. *)
Record Attrs : Type := mkAttrs {
  count : Z;
  time : string
}.

(** Hash key [topic_period], range key [time_partition]. *)
Abbreviation Table := (gmap (string * Z) Attrs).

Record Item : Type := mkItem {
  topic_period : string;
  time_partition : Z;
  attrs : Attrs
}.

(** [UpdateCommand] input.  The update expression is always
    [ADD #count :incr SET #timestamp = :time] with [#count = count] and
    [#timestamp = time]; its two values are kept. *)
Record UpdateParams : Type := mkUpdate {
  u_TableName : string;
  u_topic_period : string;
  u_time_partition : Z;
  u_incr : Z;
  u_time : string
}.

(** [QueryCommand] input.  The key condition is always
    [topic_period = :topic_period AND time_partition BETWEEN :startTime
    AND :endTime]. *)
Record QueryParams : Type := mkQuery {
  q_TableName : string;
  q_topic_period : string;
  q_startTime : Z;
  q_endTime : Z
}.

(** [QueryCommand] output: the items of one page, and the key of the last
    of them when the service has more to give. *)
Record QueryOutput : Type := mkOutput {
  Items : option (list Item);
  LastEvaluatedKey : option (string * Z)
}.

Inductive Command : Type :=
| UpdateCommand (p : UpdateParams)
| QueryCommand (p : QueryParams).

Definition isQuery (c : Command) : bool :=
  match c with
  | QueryCommand _ => true
  | UpdateCommand _ => false
  end.

(** [ADD] creates the item and starts the number at zero when either is
    absent; [SET] overwrites. *)
Definition applyUpdate (p : UpdateParams) (tbl : Table) : Table :=
  let k := (u_topic_period p, u_time_partition p) in
  let old := default 0 (count <$> tbl !! k) in
  <[k := mkAttrs (old + u_incr p) (u_time p)]> tbl.

Definition matches (p : QueryParams) (k : string * Z) : Prop :=
  k.1 = q_topic_period p /\ q_startTime p <= k.2 <= q_endTime p.

#[export] Instance matches_dec p k : Decision (matches p k).
Proof. unfold matches. apply _. Defined.

Definition rangeLe (a b : Item) : Prop := time_partition a <= time_partition b.

#[export] Instance rangeLe_dec : RelDecision rangeLe.
Proof. intros a b. unfold rangeLe. apply _. Defined.

Definition toItem (kv : string * Z * Attrs) : Item :=
  mkItem kv.1.1 kv.1.2 kv.2.

(** The items that match a query, in ascending order of the range key. *)
Definition runQuery (p : QueryParams) (tbl : Table) : list Item :=
  merge_sort rangeLe
    (toItem <$> map_to_list (filter (fun kv => matches p kv.1) tbl)).

(** *** Pages

    The service answers one [Query] with at most 1 MB of items and, when
    more items match, with the key of the last item given as
    [LastEvaluatedKey].  The size of an item is the documented one: the
    lengths of its attribute names and of its string values, and for a
    number one byte for every two significant digits and one more.  An
    item takes at most 400 KB, so the first matching item always fits. *)

(** The digits of a numeral that are left when its trailing zeros are
    dropped. *)
Fixpoint significantDigits (numeral : string) : nat :=
  match numeral with
  | EmptyString => 0%nat
  | String c rest =>
      match significantDigits rest with
      | O => if Ascii.eqb c "0" then 0%nat else 1%nat
      | S k => S (S k)
      end
  end.

Definition numberSize (n : Z) : Z :=
  Z.of_nat ((significantDigits (Digits.decimal (Z.abs n)) + 1) / 2) + 1.

Definition stringSize (s : string) : Z := Z.of_nat (String.length s).

Definition itemSize (it : Item) : Z :=
  stringSize "topic_period" + stringSize (topic_period it)
  + stringSize "time_partition" + numberSize (time_partition it)
  + stringSize "count" + numberSize (count (attrs it))
  + stringSize "time" + stringSize (time (attrs it)).

Definition pageBytes : Z := 1024 * 1024.

(** The items from the front of [l] that fit in [budget] bytes. *)
Fixpoint pageFrom (budget : Z) (l : list Item) : list Item :=
  match l with
  | [] => []
  | it :: rest =>
      if itemSize it <=? budget then it :: pageFrom (budget - itemSize it) rest else []
  end.

Definition firstPage (l : list Item) : list Item :=
  match l with
  | [] => []
  | it :: rest => it :: pageFrom (pageBytes - itemSize it) rest
  end.

(** The answer to a query that carries no [ExclusiveStartKey], which is
    what the source sends: the first page.  The source reads [Items] and
    sends no second query. *)
Definition answer (p : QueryParams) (tbl : Table) : QueryOutput :=
  let matching := runQuery p tbl in
  let page := firstPage matching in
  {| Items := Some page;
     LastEvaluatedKey :=
       if (length page <? length matching)%nat
       then (fun it => (topic_period it, time_partition it)) <$> last page
       else None |}.

(** The world a manager runs in: the table, the commands the client has
    sent so far (oldest first), and for each coming [send] whether the
    client rejects it ([Some error]) or lets it through ([None]); an
    exhausted script lets every command through. *)
Record World : Type := mkWorld {
  items : Table;
  sent : list Command;
  faults : list (option JsValue)
}.

Definition nextFault (w : World) (c : Command) : option JsValue * World :=
  match faults w with
  | [] => (None, mkWorld (items w) (sent w ++ [c]) [])
  | f :: rest => (f, mkWorld (items w) (sent w ++ [c]) rest)
  end.

Definition sendUpdate (p : UpdateParams) (w : World) : (unit + JsValue) * World :=
  match nextFault w (UpdateCommand p) with
  | (Some error, w') => (inr error, w')
  | (None, w') =>
      (inl tt, mkWorld (applyUpdate p (items w')) (sent w') (faults w'))
  end.

(** The service refuses a [BETWEEN] whose upper bound is below its lower
    bound. *)
Definition invalidBetween : JsValue :=
  JsError "ValidationException"
    "The BETWEEN operator requires upper bound to be greater than or equal to lower bound".

Definition sendQuery (p : QueryParams) (w : World) : (QueryOutput + JsValue) * World :=
  match nextFault w (QueryCommand p) with
  | (Some error, w') => (inr error, w')
  | (None, w') =>
      if q_endTime p <? q_startTime p then (inr invalidBetween, w')
      else (inl (answer p (items w')), w')
  end.

End Dynamo.

(** ** Promises and the outcome of an asynchronous method *)

Inductive Settlement : Type :=
| Pending
| Fulfilled
| Rejected (reason : JsValue).

(** The promises created so far; a promise is named by its position. *)
Abbreviation Promises := (list Settlement).

(** A promise settles once; later calls of its [resolve] or [reject] are
    ignored. *)
Definition settle (p : nat) (s : Settlement) (ps : Promises) : Promises :=
  match ps !! p with
  | Some Pending => <[p := s]> ps
  | _ => ps
  end.

(** What awaiting an asynchronous method gives, in the world as it is now.
    [Suspended]: the method waits on the readiness gate, which has not
    settled.  [Unmodelled]: the method formats a date with a moment token
    that [Moment.formatRun] does not cover. *)
Inductive Completion (A : Type) : Type :=
| Returned (a : A)
| Threw (e : JsValue)
| Suspended
| Unmodelled.

Arguments Returned {A} a.
Arguments Threw {A} e.
Arguments Suspended {A}.
Arguments Unmodelled {A}.

(** [Promise.all] over calls started in list order.  Every call is started
    (an [async] function runs up to its first pending [await] when it is
    called), so every call acts on the world whether or not an earlier one
    fails; the result rejects when one call rejects.  Of several
    rejections JavaScript reports the first in time; here the calls settle
    in list order, so it is the first in the list. *)
Definition joinAll {A} (r : Completion A) (rs : Completion (list A)) : Completion (list A) :=
  match r, rs with
  | Threw e, _ => Threw e
  | _, Threw e => Threw e
  | Unmodelled, _ => Unmodelled
  | _, Unmodelled => Unmodelled
  | Suspended, _ => Suspended
  | _, Suspended => Suspended
  | Returned a, Returned l => Returned (a :: l)
  end.

Fixpoint promiseAll {A W} (calls : list (W -> Completion A * W)) (w : W)
  : Completion (list A) * W :=
  match calls with
  | [] => (Returned [], w)
  | call :: rest =>
      let '(r, w1) := call w in
      let '(rs, w2) := promiseAll rest w1 in
      (joinAll r rs, w2)
  end.

(** [String.prototype.split] on a one-character separator. *)
Fixpoint split (sep : ascii) (s : string) : list string :=
  match s with
  | EmptyString => [""]
  | String c rest =>
      if Ascii.eqb c sep then "" :: split sep rest
      else match split sep rest with
           | h :: tl => String c h :: tl
           | [] => [String c ""]
           end
  end.

(** ** The class [TimeSeriesStatisticsManager] *)

Module TimeSeriesStatisticsManager.
Import Dynamo.

Inductive State : Type := INITIALIZING | INITIALIZED | FAIL.

(** The fields of an instance.  [onReadyPromises] holds, for each waiting
    caller of [onReady], the promise its callback will settle.  The
    client is the world the methods run in. *)
Record t : Type := mk {
  table : string;
  state : State;
  onReadyPromises : list nat;
  timePartitions : list TimePartition.t
}.

Record Options : Type := mkOptions {
  opt_table : option string;
  opt_timePartitions : option (list TimePartition.t)
}.

(** The synchronous part of the constructor.  An empty table name is
    falsy, an array never is. *)
Definition constructor (options : Options) : t :=
  {| timePartitions :=
       match opt_timePartitions options with
       | Some tps => tps
       | None => Defaults.timePartitions
       end;
     table :=
       match opt_table options with
       | Some name => if String.eqb name "" then Defaults.table else name
       | None => Defaults.table
       end;
     state := INITIALIZING;
     onReadyPromises := [] |}.

(** The settlement of the promise that [onReady] returns, when it is
    decided at the call. *)
Definition readiness (m : t) : Settlement :=
  match state m with
  | INITIALIZED => Fulfilled
  | FAIL => Rejected JsUndefined
  | INITIALIZING => Pending
  end.

(** [onReady]: a new promise, settled at once unless the manager is still
    initializing, in which case its callback is queued. *)
Definition onReady (m : t) (ps : Promises) : nat * t * Promises :=
  let p := length ps in
  match state m with
  | INITIALIZED => (p, m, ps ++ [Fulfilled])
  | FAIL => (p, m, ps ++ [Rejected JsUndefined])
  | INITIALIZING =>
      (p, mk (table m) (state m) (onReadyPromises m ++ [p]) (timePartitions m),
       ps ++ [Pending])
  end.

(** The callback that [onReady] queues for promise [p]. *)
Definition onReadyCallback (p : nat) (error : JsValue) (ps : Promises) : Promises :=
  if truthy error then settle p (Rejected error) ps
  else settle p Fulfilled ps.

Definition resolveReadyPromises (m : t) (ps : Promises) : t * Promises :=
  (mk (table m) (state m) [] (timePartitions m),
   foldl (fun ps resolve => onReadyCallback resolve JsUndefined ps) ps (onReadyPromises m)).

Definition rejectReadyPromises (error : JsValue) (m : t) (ps : Promises) : t * Promises :=
  (mk (table m) (state m) [] (timePartitions m),
   foldl (fun ps resolve => onReadyCallback resolve error ps) ps (onReadyPromises m)).

(** The two ends of the promise chain that the constructor starts:
    [inl tt] when [createTableIfNotExists] fulfils, [inr error] when it
    rejects with [error]. *)
Definition initSettled (outcome : unit + JsValue) (m : t) (ps : Promises) : t * Promises :=
  match outcome with
  | inl _ =>
      resolveReadyPromises (mk (table m) INITIALIZED (onReadyPromises m) (timePartitions m)) ps
  | inr error =>
      rejectReadyPromises error (mk (table m) FAIL (onReadyPromises m) (timePartitions m)) ps
  end.

(** [await this.onReady()] followed by [body]. *)
Definition awaitReady {A} (m : t) (body : World -> Completion A * World) (w : World)
  : Completion A * World :=
  match readiness m with
  | Fulfilled => body w
  | Rejected reason => (Threw reason, w)
  | Pending => (Suspended, w)
  end.

Definition createTopicPeriod (topic period : string) : string :=
  topic +:+ "#" +:+ period.

Definition getTimePartition (m : t) (period : string) : option TimePartition.t :=
  List.find (fun tp => String.eqb (TimePartition.name tp) period) (timePartitions m).

Definition getTimePartitionValue (timestamp : Z) (partition : TimePartition.t) : option string :=
  Moment.utcFormat timestamp (TimePartition.format partition).

(** [amount ? amount : 1]; an omitted argument is [None]. *)
Definition increment (amount : option Z) : Z :=
  match amount with
  | Some a => if a =? 0 then 1 else a
  | None => 1
  end.

Definition invalidTimeValue : JsValue := JsError "RangeError" "Invalid time value".

(** The update that [addStatistic] builds for one partition:
    [Unmodelled] or the [RangeError] of [toISOString] on an invalid
    date, else the command input. *)
Definition updateParams (m : t) (topic : string) (timestamp : Z) (amount : option Z)
    (partition : TimePartition.t) : Completion UpdateParams :=
  match getTimePartitionValue timestamp partition with
  | None => Unmodelled
  | Some timePartitionValue =>
      match JsDate.parse timePartitionValue with
      | None => Threw invalidTimeValue
      | Some timePartition =>
          Returned
            {| u_TableName := table m;
               u_topic_period := createTopicPeriod topic (TimePartition.name partition);
               u_time_partition := timePartition;
               u_incr := increment amount;
               u_time := JsDate.toISOString timePartition |}
      end
  end.

(** The [for] loop of [addStatistic]. *)
Fixpoint addStatisticLoop (m : t) (topic : string) (timestamp : Z) (amount : option Z)
    (partitions : list TimePartition.t) (w : World) : Completion unit * World :=
  match partitions with
  | [] => (Returned tt, w)
  | partition :: rest =>
      match updateParams m topic timestamp amount partition with
      | Returned params =>
          match sendUpdate params w with
          | (inl _, w') => addStatisticLoop m topic timestamp amount rest w'
          | (inr error, w') => (Threw error, w')
          end
      | Threw e => (Threw e, w)
      | Suspended => (Suspended, w)
      | Unmodelled => (Unmodelled, w)
      end
  end.

Definition addStatistic (m : t) (topic : string) (timestamp : Z) (amount : option Z)
  : World -> Completion unit * World :=
  awaitReady m (addStatisticLoop m topic timestamp amount (timePartitions m)).

Definition undefinedInterval : JsValue :=
  JsError "TypeError" "Cannot read properties of undefined (reading 'interval')".

Definition notANumber : JsValue :=
  JsError "Error" "Special numeric value NaN is not allowed".

(** [Math.floor(time / interval) * interval]; NaN when the interval is
    zero. *)
Definition alignDown (time interval : Z) : option Z :=
  if interval =? 0 then None else Some (time / interval * interval).

Definition toStatistic (item : Item) : Statistic.t :=
  let parts := split "#" (topic_period item) in
  {| Statistic.topic := parts !! 0%nat;
     Statistic.period := parts !! 1%nat;
     Statistic.count := count (attrs item);
     Statistic.time_partition := time_partition item |}.

Definition getStatisticsPeriodBody (m : t) (topic period : string) (startTime endTime : Z)
    (w : World) : Completion (list Statistic.t) * World :=
  let periodTopic := createTopicPeriod topic period in
  match getTimePartition m period with
  | None => (Threw undefinedInterval, w)
  | Some partition =>
      match alignDown startTime (TimePartition.interval partition),
            alignDown endTime (TimePartition.interval partition) with
      | Some startTime, Some endTime =>
          let queryParams :=
            {| q_TableName := table m;
               q_topic_period := periodTopic;
               q_startTime := startTime;
               q_endTime := endTime |} in
          match sendQuery queryParams w with
          | (inl response, w') =>
              match Items response with
              | Some items => (Returned (toStatistic <$> items), w')
              | None => (Returned [], w')
              end
          | (inr error, w') => (Threw error, w')
          end
      | _, _ => (Threw notANumber, w)
      end
  end.

Definition getStatisticsPeriod (m : t) (topic period : string) (startTime endTime : Z)
  : World -> Completion (list Statistic.t) * World :=
  awaitReady m (getStatisticsPeriodBody m topic period startTime endTime).

Definition getStatistics (m : t) (topic : string) (startTime endTime : Z)
  : World -> Completion (list Statistic.t) * World :=
  awaitReady m (fun w =>
    let '(results, w') :=
      promiseAll
        ((fun partition =>
            getStatisticsPeriod m topic (TimePartition.name partition) startTime endTime)
           <$> timePartitions m) w in
    (match results with
     | Returned results => Returned (concat results)
     | Threw e => Threw e
     | Suspended => Suspended
     | Unmodelled => Unmodelled
     end, w')).

End TimeSeriesStatisticsManager.

(** ** Table provisioning *)

(** The control-plane side of the client, which the constructor uses before
    any counter is touched: [DescribeTableCommand] and
    [CreateTableCommand], the clock read by [Date.now()] and the timers of
    [setTimeout]. *)
Module ControlPlane.

Inductive TableStatus : Type :=
| CREATING
| UPDATING
| DELETING
| ACTIVE
| INACCESSIBLE_ENCRYPTION_CREDENTIALS
| ARCHIVING
| ARCHIVED.

(** [CreateTableCommand] input, names paired with their types. *)
Record CreateTableParams : Type := mkCreate {
  AttributeDefinitions : list (string * string);
  KeySchema : list (string * string);
  ReadCapacityUnits : Z;
  WriteCapacityUnits : Z;
  c_TableName : string
}.

Inductive Command : Type :=
| DescribeTableCommand (TableName : string)
| CreateTableCommand (params : CreateTableParams).

Definition isDescribe (c : Command) : bool :=
  match c with
  | DescribeTableCommand _ => true
  | CreateTableCommand _ => false
  end.

(** What the service does with one [DescribeTableCommand]: the time the
    call takes, its rejection or the status of the table, and by how much
    a one-second timer started afterwards fires late. *)
Record Reply : Type := mkReply {
  latency : N;
  outcome : JsValue + TableStatus;
  timerLate : N
}.

(** The service as the manager meets it: the reply to the n-th
    [DescribeTableCommand], and the time and the outcome of a
    [CreateTableCommand] ([None]: the table is created). *)
Record Service : Type := mkService {
  describeReply : nat -> Reply;
  createLatency : N;
  createFault : option JsValue
}.

(** The clock in milliseconds, the commands sent so far (oldest first) and
    the number of [DescribeTableCommand]s among them. *)
Record State : Type := mkState {
  clock : Z;
  sent : list Command;
  described : nat
}.

Definition sendDescribe (svc : Service) (TableName : string) (st : State)
  : (JsValue + TableStatus) * State :=
  let reply := describeReply svc (described st) in
  (outcome reply,
   mkState (clock st + Z.of_N (latency reply))
           (sent st ++ [DescribeTableCommand TableName])
           (S (described st))).

Definition sendCreate (svc : Service) (params : CreateTableParams) (st : State)
  : (unit + JsValue) * State :=
  let st' := mkState (clock st + Z.of_N (createLatency svc))
                     (sent st ++ [CreateTableCommand params])
                     (described st) in
  match createFault svc with
  | Some error => (inr error, st')
  | None => (inl tt, st')
  end.

(** [await new Promise(resolve => setTimeout(resolve, 1000))] after the
    reply [reply].  A timer is taken never to fire early: by the clock it
    lasts 1000 milliseconds or more. *)
Definition sleepSecond (reply : Reply) (st : State) : State :=
  mkState (clock st + 1000 + Z.of_N (timerLate reply)) (sent st) (described st).

End ControlPlane.

Module Provisioning.
Import ControlPlane.

Definition timedOut (table : string) : JsValue :=
  JsError "Error" ("Timed out waiting for table " +:+ table +:+ " to exist").

Definition undefinedName : JsValue :=
  JsError "TypeError" "Cannot read properties of undefined (reading 'name')".

(** The [while] loop of [waitUntilTableExists] and the [throw] after it;
    [fuel] bounds the number of loop tests. *)
Fixpoint waitLoop (fuel : nat) (svc : Service) (table : string) (endTime : Z) (st : State)
  : option ((unit + JsValue) * State) :=
  match fuel with
  | O => None
  | S fuel' =>
      if clock st <? endTime then
        let reply := describeReply svc (described st) in
        let '(result, st1) := sendDescribe svc table st in
        match result with
        | inr ACTIVE => Some (inl tt, st1)
        | inr DELETING | inr INACCESSIBLE_ENCRYPTION_CREDENTIALS =>
            Some (inr (timedOut table), st1)
        | inr _ => waitLoop fuel' svc table endTime (sleepSecond reply st1)
        | inl e => waitLoop fuel' svc table endTime (sleepSecond reply st1)
        end
      else Some (inr (timedOut table), st)
  end.

(** Loop tests that a wait of [timeout] milliseconds can need: every turn
    of the loop takes a second or more. *)
Definition pollBound (timeout : Z) : nat := Z.to_nat ((timeout + 999) / 1000).

(** [waitUntilTableExists(timeout)].  The loop gets fuel for one test more
    than [pollBound timeout]; it never runs out of it. *)
Definition waitUntilTableExists (svc : Service) (table : string) (timeout : Z) (st : State)
  : option ((unit + JsValue) * State) :=
  let startTime := clock st in
  let endTime := startTime + timeout in
  waitLoop (S (pollBound timeout)) svc table endTime st.

(** The input of the [CreateTableCommand]. *)
Definition createParams (table : string) : CreateTableParams :=
  {| AttributeDefinitions := [("topic_period", "S"); ("time_partition", "N")];
     KeySchema := [("topic_period", "HASH"); ("time_partition", "RANGE")];
     ReadCapacityUnits := 5;
     WriteCapacityUnits := 5;
     c_TableName := table |}.

(** [createTableIfNotExists()].  Reading [error.name] of a rejection with
    [undefined] raises a [TypeError] inside the [catch] block, which the
    method then rejects with; the [console.error] is left out. *)
Definition createTableIfNotExists (svc : Service) (table : string) (st : State)
  : option ((unit + JsValue) * State) :=
  let '(result, st1) := sendDescribe svc table st in
  match result with
  | inr _ => Some (inl tt, st1)
  | inl error =>
      match errorName error with
      | None => Some (inr undefinedName, st1)
      | Some name =>
          if String.eqb name "ResourceNotFoundException" then
            let params := createParams table in
            match sendCreate svc params st1 with
            | (inl _, st2) => waitUntilTableExists svc table 6000 st2
            | (inr createError, st2) => Some (inr createError, st2)
            end
          else Some (inr error, st1)
      end
  end.

(** [onReady] called [n] times in a row; the promises returned, oldest
    first. *)
Fixpoint onReadyTimes (n : nat) (m : TimeSeriesStatisticsManager.t) (ps : Promises)
  : list nat * TimeSeriesStatisticsManager.t * Promises :=
  match n with
  | O => ([], m, ps)
  | S n' =>
      let '(p, m1, ps1) := TimeSeriesStatisticsManager.onReady m ps in
      let '(rest, m2, ps2) := onReadyTimes n' m1 ps1 in
      (p :: rest, m2, ps2)
  end.

(** [new TimeSeriesStatisticsManager(options)], [n] calls of [onReady]
    made before provisioning settles, then the end of the promise chain
    that the constructor started. *)
Definition construct (options : TimeSeriesStatisticsManager.Options) (n : nat)
    (svc : Service) (st : State)
  : option (list nat * TimeSeriesStatisticsManager.t * Promises * State) :=
  let m0 := TimeSeriesStatisticsManager.constructor options in
  let '(waiting, m1, ps1) := onReadyTimes n m0 [] in
  match createTableIfNotExists svc (TimeSeriesStatisticsManager.table m0) st with
  | Some (result, st') =>
      let '(m2, ps2) := TimeSeriesStatisticsManager.initSettled result m1 ps1 in
      Some (waiting, m2, ps2, st')
  | None => None
  end.

End Provisioning.

(** * Vocabulary of the statements *)

Import Dynamo TimeSeriesStatisticsManager.

(** ** Worlds and calls *)

(** [w'] comes from [w] by sending queries only. *)
Definition queriesOnly (w w' : World) : Prop :=
  items w' = items w
  /\ exists qs, sent w' = sent w ++ qs /\ Forall (fun c => isQuery c = true) qs.

(** A call of one of the two read methods. *)
Inductive ReadCall : Type :=
| CallGetStatisticsPeriod (topic period : string) (startTime endTime : Z)
| CallGetStatistics (topic : string) (startTime endTime : Z).

Definition runRead (m : TimeSeriesStatisticsManager.t) (w : World) (c : ReadCall) : World :=
  match c with
  | CallGetStatisticsPeriod topic period startTime endTime =>
      (getStatisticsPeriod m topic period startTime endTime w).2
  | CallGetStatistics topic startTime endTime =>
      (getStatistics m topic startTime endTime w).2
  end.

Definition runReads (m : TimeSeriesStatisticsManager.t) (calls : list ReadCall) (w : World) : World :=
  foldl (runRead m) w calls.

(** The client lets the next command through. *)
Definition nextSendSucceeds (w : World) : Prop :=
  forall error, head (faults w) <> Some (Some error).

(** Position and error of the first failure in a script of send outcomes. *)
Fixpoint firstFault (script : list (option JsValue)) : option (nat * JsValue) :=
  match script with
  | [] => None
  | Some error :: _ => Some (0%nat, error)
  | None :: rest => prod_map S id <$> firstFault rest
  end.

Definition applyUpdates (updates : list UpdateParams) (tbl : Table) : Table :=
  foldl (fun tbl u => applyUpdate u tbl) tbl updates.

(** The range keys and the increments of the updates in a log. *)
Definition rangeKeys (log : list Command) : list Z :=
  omap (fun c => match c with
                 | UpdateCommand u => Some (u_time_partition u)
                 | QueryCommand _ => None
                 end) log.

Definition increments (log : list Command) : list Z :=
  omap (fun c => match c with
                 | UpdateCommand u => Some (u_incr u)
                 | QueryCommand _ => None
                 end) log.

(** The bytes that a list of items takes. *)
Definition itemsSize (l : list Item) : Z :=
  foldr (fun it acc => itemSize it + acc) 0 l.

(** A rejection with an error named [ConfigError]. *)
Definition failsWithConfigError {A} (r : Completion A) : Prop :=
  exists message, r = Threw (JsError "ConfigError" message).

Fixpoint contains (c : ascii) (s : string) : bool :=
  match s with
  | EmptyString => false
  | String c' rest => Ascii.eqb c' c || contains c rest
  end.

(** ** Calendar buckets *)

(** Time values from 0000-01-01T00:00:00.000Z to 9999-12-31T23:59:59.999Z,
    the years that [YYYY] prints with four digits. *)
Definition inFourDigitYears (t : Z) : Prop :=
  -62167219200000 <= t < 253402300800000.

(** Fields that a four-digit-year date-time string can carry. *)
Definition wellFormed (f : JsDate.Fields) : Prop :=
  0 <= JsDate.fullYear f < 10000 /\ 1 <= JsDate.month f <= 12
  /\ 1 <= JsDate.date f <= 31 /\ 0 <= JsDate.hours f <= 23
  /\ 0 <= JsDate.minutes f <= 59 /\ 0 <= JsDate.seconds f <= 59
  /\ 0 <= JsDate.milliseconds f < 1000.

(** Two, three and four decimal digits, most significant first. *)
Definition pad2 (n : Z) : string :=
  String (Digits.digitChar (n / 10 mod 10)) (String (Digits.digitChar (n mod 10)) "").

Definition pad3 (n : Z) : string :=
  String (Digits.digitChar (n / 10 / 10 mod 10)) (pad2 n).

Definition pad4 (n : Z) : string :=
  String (Digits.digitChar (n / 10 / 10 / 10 mod 10)) (pad3 n).

(** The date-time string with offset [+00:00] that the default formats
    produce from fields. *)
Definition isoString (f : JsDate.Fields) : string :=
  Digits.zeroFill (JsDate.fullYear f) 4 +:+ "-" +:+ Digits.zeroFill (JsDate.month f) 2
  +:+ "-" +:+ Digits.zeroFill (JsDate.date f) 2 +:+ "T"
  +:+ Digits.zeroFill (JsDate.hours f) 2 +:+ ":" +:+ Digits.zeroFill (JsDate.minutes f) 2
  +:+ ":" +:+ Digits.zeroFill (JsDate.seconds f) 2 +:+ "."
  +:+ Digits.zeroFill (JsDate.milliseconds f) 3 +:+ "+00:00".

(** The UTC fields of a time value cut at the unit of each default
    partition. *)
Definition minuteFields (t : Z) : JsDate.Fields :=
  let f := JsDate.utcFields t in
  JsDate.mkFields (JsDate.fullYear f) (JsDate.month f) (JsDate.date f)
                  (JsDate.hours f) (JsDate.minutes f) 0 0.

Definition hourFields (t : Z) : JsDate.Fields :=
  let f := JsDate.utcFields t in
  JsDate.mkFields (JsDate.fullYear f) (JsDate.month f) (JsDate.date f) (JsDate.hours f) 0 0 0.

Definition dayFields (t : Z) : JsDate.Fields :=
  let f := JsDate.utcFields t in
  JsDate.mkFields (JsDate.fullYear f) (JsDate.month f) (JsDate.date f) 0 0 0 0.

Definition monthFields (t : Z) : JsDate.Fields :=
  let f := JsDate.utcFields t in
  JsDate.mkFields (JsDate.fullYear f) (JsDate.month f) 1 0 0 0 0.

Definition yearFields (t : Z) : JsDate.Fields :=
  let f := JsDate.utcFields t in
  JsDate.mkFields (JsDate.fullYear f) 1 1 0 0 0 0.

Definition defaultFields (t : Z) : list JsDate.Fields :=
  [minuteFields t; hourFields t; dayFields t; monthFields t; yearFields t].

(** The updates that [addStatistic] builds under the default partitions,
    the timestamp being a time value in milliseconds. *)
Definition defaultUpdates (tableName topic : string) (t : Z) (amount : option Z)
  : list UpdateParams :=
  zip_with
    (fun partition f =>
       mkUpdate tableName (createTopicPeriod topic (TimePartition.name partition))
                (JsDate.makeTime f) (increment amount)
                (JsDate.toISOString (JsDate.makeTime f)))
    Defaults.timePartitions (defaultFields t).

(** ** Fixtures *)

(** A manager built with no options whose table provisioning succeeded. *)
Definition readyManager : TimeSeriesStatisticsManager.t :=
  (initSettled (inl tt) (constructor (mkOptions None None)) []).1.

(** A manager built with no options whose table provisioning failed with
    [error]. *)
Definition failedManager (error : JsValue) : TimeSeriesStatisticsManager.t :=
  (initSettled (inr error) (constructor (mkOptions None None)) []).1.

(** An empty table behind a client that never fails. *)
Definition emptyWorld : World := mkWorld ∅ [] [].

(** The table after [addStatistic(t, 1700000000000)] twice and
    [addStatistic(t, 1700000060000)] once, on the default partitions. *)
Definition sampleWorld : World :=
  let w1 := (addStatistic readyManager "t" 1700000000000 None emptyWorld).2 in
  let w2 := (addStatistic readyManager "t" 1700000000000 None w1).2 in
  let w3 := (addStatistic readyManager "t" 1700000060000 None w2).2 in
  mkWorld (items w3) [] [].

(** The updates of [addStatistic(t, 1700000000000)] under the default
    partitions. *)
Definition sampleUpdates : list UpdateParams :=
  [ mkUpdate "statistics" "t#minute" 1699999980000 1 "2023-11-14T22:13:00.000Z";
    mkUpdate "statistics" "t#hour" 1699999200000 1 "2023-11-14T22:00:00.000Z";
    mkUpdate "statistics" "t#day" 1699920000000 1 "2023-11-14T00:00:00.000Z";
    mkUpdate "statistics" "t#month" 1698796800000 1 "2023-11-01T00:00:00.000Z";
    mkUpdate "statistics" "t#year" 1672531200000 1 "2023-01-01T00:00:00.000Z" ].

Definition throttled : JsValue :=
  JsError "ProvisionedThroughputExceededException" "rate exceeded".

Definition accessDenied : JsValue :=
  JsError "AccessDeniedException" "not authorized to perform dynamodb:DescribeTable".

(** The world after [addStatistic(t, 1700000000)] on an empty table;
    1700000000 is 2023-11-14T22:13:20Z in epoch seconds. *)
Definition afterSecondsWrite : World :=
  (addStatistic readyManager "t" 1700000000 None emptyWorld).2.

(** ** Vocabulary for provisioning and for sequences of calls *)

(** The settlement that the end of the constructor's promise chain gives
    to a promise whose callback is queued. *)
Definition wake (outcome : unit + JsValue) : Settlement :=
  match outcome with
  | inl _ => Fulfilled
  | inr error => if truthy error then Rejected error else Fulfilled
  end.

(** A reply after which [waitUntilTableExists] sleeps and polls again. *)
Definition retryable (reply : ControlPlane.Reply) : bool :=
  match ControlPlane.outcome reply with
  | inl _ => true
  | inr ControlPlane.ACTIVE => false
  | inr ControlPlane.DELETING => false
  | inr ControlPlane.INACCESSIBLE_ENCRYPTION_CREDENTIALS => false
  | inr _ => true
  end.

(** The clock at the start of the [k]-th next poll, when the polls from
    the [i]-th reply on are all followed by a sleep. *)
Fixpoint pollClock (svc : ControlPlane.Service) (i : nat) (c : Z) (k : nat) : Z :=
  match k with
  | O => c
  | S k' =>
      let reply := ControlPlane.describeReply svc i in
      pollClock svc (S i)
        (c + Z.of_N (ControlPlane.latency reply) + 1000 + Z.of_N (ControlPlane.timerLate reply))
        k'
  end.

(** A call of any of the three public methods that touch the store. *)
Inductive Call : Type :=
| CallAddStatistic (topic : string) (timestamp : Z) (amount : option Z)
| CallRead (c : ReadCall).

Definition runCall (m : TimeSeriesStatisticsManager.t) (w : World) (c : Call) : World :=
  match c with
  | CallAddStatistic topic timestamp amount => (addStatistic m topic timestamp amount w).2
  | CallRead r => runRead m w r
  end.

Definition runCalls (m : TimeSeriesStatisticsManager.t) (calls : list Call) (w : World) : World :=
  foldl (runCall m) w calls.

Definition updateKey (u : UpdateParams) : string * Z :=
  (u_topic_period u, u_time_partition u).

(** The count of a cell, zero when the cell is absent. *)
Definition countAt (tbl : Table) (k : string * Z) : Z :=
  default 0 (count <$> tbl !! k).

(** A reply on which [waitUntilTableExists] leaves its loop to fail. *)
Definition terminal (reply : ControlPlane.Reply) : bool :=
  match ControlPlane.outcome reply with
  | inr ControlPlane.DELETING => true
  | inr ControlPlane.INACCESSIBLE_ENCRYPTION_CREDENTIALS => true
  | _ => false
  end.

(** Upper bound of the polls left at clock [c] before the deadline. *)
Definition pollsLeft (endTime c : Z) : nat := Z.to_nat ((endTime - c + 999) / 1000).

(** What a run of the polling loop from [st] with the deadline [endTime]
    gives: [k] polls, all for [table] and the only commands sent; all but
    the last are followed by a sleep; the run returns on ACTIVE and throws
    the time-out error on a terminal status or with the deadline passed. *)
Definition polled (svc : ControlPlane.Service) (table : string) (endTime : Z)
    (st : ControlPlane.State) (r : unit + JsValue) (st' : ControlPlane.State) (k : nat) : Prop :=
  ControlPlane.sent st'
  = ControlPlane.sent st ++ replicate k (ControlPlane.DescribeTableCommand table)
  /\ ControlPlane.described st' = (ControlPlane.described st + k)%nat
  /\ (k <= pollsLeft endTime (ControlPlane.clock st))%nat
  /\ ControlPlane.clock st <= ControlPlane.clock st'
  /\ (forall j, (j + 1 < k)%nat ->
        retryable (ControlPlane.describeReply svc (ControlPlane.described st + j)) = true)
  /\ match r with
     | inl _ =>
         exists j, k = S j
           /\ ControlPlane.outcome
                (ControlPlane.describeReply svc (ControlPlane.described st + j))
              = inr ControlPlane.ACTIVE
     | inr e =>
         e = Provisioning.timedOut table
         /\ (endTime <= ControlPlane.clock st'
             \/ exists j, k = S j
                  /\ terminal (ControlPlane.describeReply svc (ControlPlane.described st + j))
                     = true)
     end.

Definition notFound : string := "ResourceNotFoundException".

(** The manager that [new TimeSeriesStatisticsManager(options)] has become
    when provisioning has settled with [outcome]. *)
Definition settledManager (options : Options) (outcome : unit + JsValue)
  : TimeSeriesStatisticsManager.t :=
  let m0 := constructor options in
  TimeSeriesStatisticsManager.mk (table m0)
    (match outcome with inl _ => INITIALIZED | inr _ => FAIL end)
    [] (timePartitions m0).

(** The sum of the increments that the updates [us] add at the key [k]. *)
Definition incrementAt (us : list UpdateParams) (k : string * Z) : Z :=
  foldr (fun u acc => if decide (updateKey u = k) then u_incr u + acc else acc) 0 us.

(** No call passes a negative amount. *)
Definition nonNegative (c : Call) : Prop :=
  match c with
  | CallAddStatistic _ _ (Some a) => 0 <= a
  | _ => True
  end.

(** The table that a command names. *)
Definition commandTable (c : Command) : string :=
  match c with
  | UpdateCommand u => u_TableName u
  | QueryCommand q => q_TableName q
  end.

(** The query that [getStatisticsPeriod] builds, when it gets that far. *)
Definition periodQuery (m : TimeSeriesStatisticsManager.t) (topic : string)
    (startTime endTime : Z) (period : string) : option QueryParams :=
  match getTimePartition m period with
  | None => None
  | Some partition =>
      match alignDown startTime (TimePartition.interval partition),
            alignDown endTime (TimePartition.interval partition) with
      | Some lo, Some hi => Some (mkQuery (table m) (createTopicPeriod topic period) lo hi)
      | _, _ => None
      end
  end.

(** The buckets that hold a time value in milliseconds, under the default
    partitions: name of the partition and start of the bucket. *)
Definition defaultBuckets (t : Z) : list (string * Z) :=
  [ ("minute", t / 60000 * 60000);
    ("hour", t / 3600000 * 3600000);
    ("day", t / 86400000 * 86400000);
    ("month", JsDate.makeTime (monthFields t));
    ("year", JsDate.makeTime (yearFields t)) ].

(** The cells that [addStatistic] touches under the default partitions. *)
Definition defaultKeys (topic : string) (t : Z) : list (string * Z) :=
  (fun bucket => (createTopicPeriod topic bucket.1, bucket.2)) <$> defaultBuckets t.

(** The default partitions whose buckets have a fixed width, with that
    width in milliseconds. *)
Definition fixedWidths : list (string * Z) :=
  [("minute", 60000); ("hour", 3600000); ("day", 86400000)].

(** How a call ends, its result apart. *)
Definition ending {A} (r : Completion A) : Completion unit :=
  match r with
  | Returned _ => Returned tt
  | Threw e => Threw e
  | Suspended => Suspended
  | Unmodelled => Unmodelled
  end.

Definition callEnding (m : TimeSeriesStatisticsManager.t) (w : World) (c : Call)
  : Completion unit :=
  match c with
  | CallAddStatistic topic timestamp amount => (addStatistic m topic timestamp amount w).1
  | CallRead (CallGetStatisticsPeriod topic period startTime endTime) =>
      ending (getStatisticsPeriod m topic period startTime endTime w).1
  | CallRead (CallGetStatistics topic startTime endTime) =>
      ending (getStatistics m topic startTime endTime w).1
  end.

(** ** Fixtures for provisioning *)

Definition notFoundError : JsValue :=
  JsError "ResourceNotFoundException" "Requested resource not found".

(** A service that refuses every [DescribeTableCommand]. *)
Definition deniedService : ControlPlane.Service :=
  ControlPlane.mkService (fun _ => ControlPlane.mkReply 20 (inl accessDenied) 0) 50 None.

(** A service without the table, which it creates on request; the table
    is reported CREATING twice, then ACTIVE. *)
Definition warmingService : ControlPlane.Service :=
  ControlPlane.mkService
    (fun n => match n with
              | 0%nat => ControlPlane.mkReply 20 (inl notFoundError) 0
              | 1%nat | 2%nat => ControlPlane.mkReply 20 (inr ControlPlane.CREATING) 3
              | _ => ControlPlane.mkReply 20 (inr ControlPlane.ACTIVE) 0
              end)
    50 None.

(** The same, with a table that stays CREATING. *)
Definition stuckService : ControlPlane.Service :=
  ControlPlane.mkService
    (fun n => match n with
              | 0%nat => ControlPlane.mkReply 20 (inl notFoundError) 0
              | _ => ControlPlane.mkReply 20 (inr ControlPlane.CREATING) 3
              end)
    50 None.

(** The clock at 2023-11-14T22:13:20Z and nothing sent yet. *)
Definition powerOn : ControlPlane.State := ControlPlane.mkState 1700000000000 [] 0.

(** * Properties *)

(** ** Decimal digits *)

Section DigitFacts.
Import Digits.

Lemma append_String c s r : String c s +:+ r = String c (s +:+ r).
Proof. reflexivity. Qed.

Lemma append_empty r : "" +:+ r = r.
Proof. reflexivity. Qed.

Lemma charDigit_digitChar d : 0 <= d <= 9 -> charDigit (digitChar d) = Some d.
Proof.
  intros H.
  assert (E : d = 0 \/ d = 1 \/ d = 2 \/ d = 3 \/ d = 4 \/ d = 5 \/ d = 6 \/ d = 7
              \/ d = 8 \/ d = 9) by lia.
  repeat (destruct E as [->|E]; [reflexivity|]). subst d. reflexivity.
Qed.

Lemma digitChar_zero n : n = 0 -> digitChar n = "0"%char.
Proof. intros ->. reflexivity. Qed.

Lemma decimalFuel_last fuel n acc :
  0 <= n < 10 -> decimalFuel (S fuel) n acc = String (digitChar (n mod 10)) acc.
Proof.
  intros H. cbn [decimalFuel]. rewrite Z.div_small by lia. reflexivity.
Qed.

Lemma decimalFuel_more fuel n acc :
  10 <= n ->
  decimalFuel (S fuel) n acc = decimalFuel fuel (n / 10) (String (digitChar (n mod 10)) acc).
Proof.
  intros H. cbn [decimalFuel].
  destruct (Z.eqb_spec (n / 10) 0) as [E|_]; [|reflexivity].
  apply Z.div_small_iff in E; lia.
Qed.

(** From 8 on, the fuel of [decimal] covers four digits. *)
Lemma fuel_of_log2 n : 8 <= n -> exists fuel, Z.to_nat (Z.log2 n) = S (S (S fuel)).
Proof.
  intros H. pose proof (Z.log2_le_mono 8 n H) as Hl.
  change (Z.log2 8) with 3 in Hl.
  exists (Z.to_nat (Z.log2 n) - 3)%nat. lia.
Qed.

Lemma decimal_cases n :
  0 <= n < 10000 ->
  (n < 10 /\ decimal n = String (digitChar (n mod 10)) "")
  \/ (10 <= n < 100 /\ decimal n = pad2 n)
  \/ (100 <= n < 1000 /\ decimal n = pad3 n)
  \/ (1000 <= n /\ decimal n = pad4 n).
Proof.
  intros H. unfold decimal.
  destruct (Z_lt_le_dec n 10) as [H1|H1].
  { left. split; [exact H1|]. apply decimalFuel_last. lia. }
  right. destruct (fuel_of_log2 n) as [fuel ->]; [lia|].
  rewrite decimalFuel_more by lia.
  destruct (Z_lt_le_dec n 100) as [H2|H2].
  { left. split; [lia|].
    rewrite decimalFuel_last by (Z.div_mod_to_equations; lia). reflexivity. }
  right. rewrite decimalFuel_more by (Z.div_mod_to_equations; lia).
  destruct (Z_lt_le_dec n 1000) as [H3|H3].
  { left. split; [lia|].
    rewrite decimalFuel_last by (Z.div_mod_to_equations; lia). reflexivity. }
  right. split; [lia|]. rewrite decimalFuel_more by (Z.div_mod_to_equations; lia).
  rewrite decimalFuel_last by (Z.div_mod_to_equations; lia). reflexivity.
Qed.

Lemma zeroFill_pad2 n : 0 <= n < 100 -> zeroFill n 2 = pad2 n.
Proof.
  intros H. unfold zeroFill. rewrite Z.abs_eq by lia.
  destruct (Z.leb_spec 0 n) as [_|]; [|lia].
  destruct (decimal_cases n) as [[H1 ->]|[[H1 ->]|[[H1 _]|[H1 _]]]]; try lia.
  - unfold pad2. rewrite (digitChar_zero (n / 10 mod 10)) by (Z.div_mod_to_equations; lia).
    reflexivity.
  - reflexivity.
Qed.

Lemma zeroFill_pad3 n : 0 <= n < 1000 -> zeroFill n 3 = pad3 n.
Proof.
  intros H. unfold zeroFill. rewrite Z.abs_eq by lia.
  destruct (Z.leb_spec 0 n) as [_|]; [|lia].
  destruct (decimal_cases n) as [[H1 ->]|[[H1 ->]|[[H1 ->]|[H1 _]]]]; try lia;
    unfold pad3, pad2.
  - rewrite (digitChar_zero (n / 10 mod 10)), (digitChar_zero (n / 10 / 10 mod 10))
      by (Z.div_mod_to_equations; lia).
    reflexivity.
  - rewrite (digitChar_zero (n / 10 / 10 mod 10)) by (Z.div_mod_to_equations; lia).
    reflexivity.
  - reflexivity.
Qed.

Lemma zeroFill_pad4 n : 0 <= n < 10000 -> zeroFill n 4 = pad4 n.
Proof.
  intros H. unfold zeroFill. rewrite Z.abs_eq by lia.
  destruct (Z.leb_spec 0 n) as [_|]; [|lia].
  destruct (decimal_cases n) as [[H1 ->]|[[H1 ->]|[[H1 ->]|[H1 ->]]]]; try lia;
    unfold pad4, pad3, pad2.
  - rewrite (digitChar_zero (n / 10 mod 10)), (digitChar_zero (n / 10 / 10 mod 10)),
      (digitChar_zero (n / 10 / 10 / 10 mod 10)) by (Z.div_mod_to_equations; lia).
    reflexivity.
  - rewrite (digitChar_zero (n / 10 / 10 mod 10)),
      (digitChar_zero (n / 10 / 10 / 10 mod 10)) by (Z.div_mod_to_equations; lia).
    reflexivity.
  - rewrite (digitChar_zero (n / 10 / 10 / 10 mod 10)) by (Z.div_mod_to_equations; lia).
    reflexivity.
  - reflexivity.
Qed.

Ltac read_digits :=
  rewrite ?append_String, ?append_empty; cbn [readDigits];
  repeat (rewrite charDigit_digitChar by (Z.div_mod_to_equations; lia));
  f_equal; f_equal; Z.div_mod_to_equations; lia.

(** Reading back the digits that [zeroFill] wrote. *)
Lemma readDigits_pad2 n rest :
  0 <= n < 100 -> readDigits 2 0 (pad2 n +:+ rest) = Some (n, rest).
Proof. intros H. unfold pad2. read_digits. Qed.

Lemma readDigits_pad3 n rest :
  0 <= n < 1000 -> readDigits 3 0 (pad3 n +:+ rest) = Some (n, rest).
Proof. intros H. unfold pad3, pad2. read_digits. Qed.

Lemma readDigits_pad4 n rest :
  0 <= n < 10000 -> readDigits 4 0 (pad4 n +:+ rest) = Some (n, rest).
Proof. intros H. unfold pad4, pad3, pad2. read_digits. Qed.

End DigitFacts.

(** ** The calendar *)

Section Calendar.
Import Digits JsDate.

Ltac name_civil z :=
  unfold civilFromDays; cbv zeta;
  set (z' := z + 719468);
  set (era := z' / 146097);
  set (doe := z' - era * 146097);
  set (yoe := (doe - doe / 1460 + doe / 36524 - doe / 146096) / 365);
  set (doy := doe - (365 * yoe + yoe / 4 - yoe / 100));
  set (mp := (5 * doy + 2) / 153).

Lemma civil_parts z :
  let z' := z + 719468 in
  let era := z' / 146097 in
  let doe := z' - era * 146097 in
  let yoe := (doe - doe / 1460 + doe / 36524 - doe / 146096) / 365 in
  let doy := doe - (365 * yoe + yoe / 4 - yoe / 100) in
  let mp := (5 * doy + 2) / 153 in
  0 <= doe <= 146096 /\ 0 <= yoe <= 399 /\ 0 <= doy <= 365 /\ 0 <= mp <= 11
  /\ 1 <= doy - (153 * mp + 2) / 5 + 1 <= 31.
Proof.
  intros z' era doe yoe doy mp.
  assert (Hdoe : 0 <= doe <= 146096) by (subst doe era; Z.div_mod_to_equations; lia).
  assert (Hy : 0 <= yoe <= 399 /\ 0 <= doy <= 365).
  { clearbody doe. subst doy yoe. Z.div_mod_to_equations. lia. }
  assert (Hmp : 0 <= mp <= 11 /\ 1 <= doy - (153 * mp + 2) / 5 + 1 <= 31).
  { clearbody doy. subst mp. Z.div_mod_to_equations. lia. }
  tauto.
Qed.

(** Day -719528 is 0000-01-01 and day 2932896 is 9999-12-31. *)
Lemma civilFromDays_bounds z y m d :
  -719528 <= z <= 2932896 ->
  civilFromDays z = (y, m, d) ->
  0 <= y <= 9999 /\ 1 <= m <= 12 /\ 1 <= d <= 31.
Proof.
  intros Hz. pose proof (civil_parts z) as H. revert H.
  name_civil z. intros (Hdoe & Hyoe & Hdoy & Hmp & Hd) E.
  injection E as <- <- <-.
  split; [|split; [|exact Hd]].
  - destruct (Z.ltb_spec mp 10), (Z.leb_spec (mp + 3) 2), (Z.leb_spec (mp - 9) 2);
      try lia; subst mp doy yoe doe era z'; Z.div_mod_to_equations; lia.
  - destruct (Z.ltb_spec mp 10); lia.
Qed.

(** The two conversions are inverse on every day number. *)
Lemma daysFromCivil_civilFromDays z y m d :
  civilFromDays z = (y, m, d) -> daysFromCivil y m d = z.
Proof.
  pose proof (civil_parts z) as H. revert H.
  name_civil z. intros (Hdoe & Hyoe & Hdoy & Hmp & Hd) E.
  injection E as <- <- <-. unfold daysFromCivil. cbv zeta.
  assert (Hm : ((if mp <? 10 then mp + 3 else mp - 9) <=? 2) = negb (mp <? 10)).
  { destruct (Z.ltb_spec mp 10); simpl; [apply Z.leb_gt | apply Z.leb_le]; lia. }
  rewrite Hm.
  destruct (Z.ltb_spec mp 10) as [Hlt|Hge]; cbn [negb].
  - replace ((yoe + era * 400) / 400) with era by (Z.div_mod_to_equations; lia).
    replace (mp + 3 - 3) with mp by lia.
    replace (yoe + era * 400 - era * 400) with yoe by lia.
    subst doy doe z'. lia.
  - replace (yoe + era * 400 + 1 - 1) with (yoe + era * 400) by lia.
    replace ((yoe + era * 400) / 400) with era by (Z.div_mod_to_equations; lia).
    replace (mp - 9 + 9) with mp by lia.
    replace (yoe + era * 400 - era * 400) with yoe by lia.
    subst doy doe z'. lia.
Qed.

End Calendar.

(** ** Date-time strings: what [moment] formats, [Date] parses back *)

Section DateTimeStrings.
Import Digits JsDate.

Lemma expect_head c rest : expect c (String c rest) = Some rest.
Proof. unfold expect. rewrite Ascii.eqb_refl. reflexivity. Qed.

Lemma validTime_range t :
  -8640000000000000 <= t <= 8640000000000000 -> validTime t = true.
Proof.
  intros H. unfold validTime, maxTime. apply andb_true_iff. rewrite !Z.leb_le. lia.
Qed.

Lemma inFourDigitYears_valid t : inFourDigitYears t -> validTime t = true.
Proof. intros H. apply validTime_range. unfold inFourDigitYears in H. lia. Qed.

Lemma parse_iso y mo d h mi sec ms :
  0 <= y < 10000 -> 1 <= mo <= 12 -> 1 <= d <= 31 ->
  0 <= h <= 23 -> 0 <= mi <= 59 -> 0 <= sec <= 59 -> 0 <= ms < 1000 ->
  validTime (makeTime (mkFields y mo d h mi sec ms)) = true ->
  parse (isoString (mkFields y mo d h mi sec ms))
  = Some (makeTime (mkFields y mo d h mi sec ms)).
Proof.
  intros Hy Hmo Hd Hh Hmi Hsec Hms Hvalid.
  unfold isoString. cbn [fullYear month date hours minutes seconds milliseconds].
  rewrite (zeroFill_pad4 y), (zeroFill_pad2 mo), (zeroFill_pad2 d), (zeroFill_pad2 h),
    (zeroFill_pad2 mi), (zeroFill_pad2 sec), (zeroFill_pad3 ms) by lia.
  unfold parse.
  rewrite readDigits_pad4 by lia. cbn [mbind option_bind].
  do 5 (rewrite append_String, append_empty, expect_head; cbn [mbind option_bind];
        rewrite readDigits_pad2 by lia; cbn [mbind option_bind]).
  rewrite append_String, append_empty, expect_head. cbn [mbind option_bind].
  rewrite readDigits_pad3 by lia. cbn [mbind option_bind].
  change (readOffset "+00:00") with (Some (0, "")). cbn [mbind option_bind].
  change (negb (String.eqb "" "")) with false. cbv iota.
  match goal with |- context [negb ?b] =>
    replace b with true by (symmetry; rewrite !andb_true_iff, !Z.leb_le; lia) end.
  cbn [negb]. change (0 * msPerMinute) with 0. rewrite Z.sub_0_r, Hvalid. reflexivity.
Qed.

Lemma daysFromCivil_crude y m d :
  0 <= y <= 9999 -> 1 <= m <= 12 -> 1 <= d <= 31 ->
  -720000 <= daysFromCivil y m d <= 2940000.
Proof.
  intros Hy Hm Hd. unfold daysFromCivil. cbv zeta.
  destruct (Z.leb_spec m 2); Z.div_mod_to_equations; lia.
Qed.

Lemma makeTime_valid f : wellFormed f -> validTime (makeTime f) = true.
Proof.
  intros (Hy & Hmo & Hd & Hh & Hmi & Hs & Hms). apply validTime_range.
  pose proof (daysFromCivil_crude (fullYear f) (month f) (date f)) as H.
  unfold makeTime, msPerDay, msPerHour, msPerMinute, msPerSecond. lia.
Qed.

(** [new Date(s).getTime()] on the string of well-formed fields. *)
Lemma parse_isoString f : wellFormed f -> parse (isoString f) = Some (makeTime f).
Proof.
  intros Hwf. pose proof (makeTime_valid f Hwf) as Hv.
  destruct Hwf as (Hy & Hmo & Hd & Hh & Hmi & Hs & Hms).
  destruct f. apply parse_iso; assumption.
Qed.

Lemma utcFields_wellFormed t : inFourDigitYears t -> wellFormed (utcFields t).
Proof.
  intros Ht. unfold wellFormed, utcFields.
  destruct (civilFromDays (t / msPerDay)) as [[y m] d] eqn:E.
  cbn [fullYear month date hours minutes seconds milliseconds].
  apply civilFromDays_bounds in E.
  2:{ unfold inFourDigitYears, msPerDay in *. Z.div_mod_to_equations. lia. }
  unfold msPerDay, msPerHour, msPerMinute, msPerSecond.
  repeat split; try tauto; try lia; Z.div_mod_to_equations; lia.
Qed.

Lemma defaultFields_wellFormed t :
  inFourDigitYears t -> Forall wellFormed (defaultFields t).
Proof.
  intros Ht. pose proof (utcFields_wellFormed t Ht) as H. unfold wellFormed in *.
  unfold defaultFields, minuteFields, hourFields, dayFields, monthFields, yearFields.
  repeat constructor; cbn [fullYear month date hours minutes seconds milliseconds]; lia.
Qed.

(** What the five default formats print in UTC mode. *)
Lemma utcFormat_defaults t :
  validTime t = true ->
  (fun p => Moment.utcFormat t (TimePartition.format p)) <$> Defaults.timePartitions
  = (fun f => Some (isoString f)) <$> defaultFields t.
Proof. intros H. unfold Moment.utcFormat. rewrite H. reflexivity. Qed.

(** The minute, hour and day buckets start at a multiple of their length
    in milliseconds. *)
Lemma makeTime_minuteFields t : makeTime (minuteFields t) = t / 60000 * 60000.
Proof.
  unfold minuteFields, utcFields, makeTime.
  destruct (civilFromDays (t / msPerDay)) as [[y m] d] eqn:E.
  cbn [fullYear month date hours minutes seconds milliseconds].
  rewrite (daysFromCivil_civilFromDays _ _ _ _ E).
  unfold msPerDay, msPerHour, msPerMinute, msPerSecond. Z.div_mod_to_equations. lia.
Qed.

Lemma makeTime_hourFields t : makeTime (hourFields t) = t / 3600000 * 3600000.
Proof.
  unfold hourFields, utcFields, makeTime.
  destruct (civilFromDays (t / msPerDay)) as [[y m] d] eqn:E.
  cbn [fullYear month date hours minutes seconds milliseconds].
  rewrite (daysFromCivil_civilFromDays _ _ _ _ E).
  unfold msPerDay, msPerHour, msPerMinute, msPerSecond. Z.div_mod_to_equations. lia.
Qed.

Lemma makeTime_dayFields t : makeTime (dayFields t) = t / 86400000 * 86400000.
Proof.
  unfold dayFields, utcFields, makeTime.
  destruct (civilFromDays (t / msPerDay)) as [[y m] d] eqn:E.
  cbn [fullYear month date hours minutes seconds milliseconds].
  rewrite (daysFromCivil_civilFromDays _ _ _ _ E).
  unfold msPerDay, msPerHour, msPerMinute, msPerSecond. lia.
Qed.

End DateTimeStrings.

(** ** The store *)

Section Store.

#[local] Instance toItem_inj : Inj (=) (=) toItem.
Proof.
  intros [[h1 r1] a1] [[h2 r2] a2]; unfold toItem; simpl.
  intros E; inversion E; reflexivity.
Qed.

(** A query answers with exactly the stored items that match it. *)
Lemma elem_of_runQuery (p : QueryParams) (tbl : Table) (it : Item) :
  it ∈ runQuery p tbl <->
  tbl !! (topic_period it, time_partition it) = Some (attrs it)
  /\ matches p (topic_period it, time_partition it).
Proof.
  unfold runQuery. rewrite merge_sort_Permutation, list_elem_of_fmap. split.
  - intros [[[h r] a] [-> Hin]].
    apply elem_of_map_to_list, map_lookup_filter_Some in Hin.
    exact Hin.
  - intros [Hl Hm]. destruct it as [h r a]; simpl in *.
    exists (h, r, a). split; [reflexivity|].
    apply elem_of_map_to_list, map_lookup_filter_Some. split; assumption.
Qed.



(** A page is a prefix of the matching items. *)
Lemma pageFrom_take (l : list Item) :
  forall budget, exists n, pageFrom budget l = take n l.
Proof.
  induction l as [|it rest IH]; intros budget; cbn [pageFrom].
  - exists 0%nat. reflexivity.
  - destruct (itemSize it <=? budget).
    + destruct (IH (budget - itemSize it)) as [n Hn]. exists (S n). rewrite Hn. reflexivity.
    + exists 0%nat. reflexivity.
Qed.

Lemma firstPage_take (l : list Item) :
  exists n, firstPage l = take n l /\ (n <= length l)%nat.
Proof.
  assert (H : exists n, firstPage l = take n l).
  { destruct l as [|it rest]; [exists 0%nat; reflexivity|]. cbn [firstPage].
    destruct (pageFrom_take rest (pageBytes - itemSize it)) as [n Hn].
    exists (S n). rewrite Hn. reflexivity. }
  destruct H as [n Hn]. destruct (decide (n <= length l)%nat) as [Hle|Hgt].
  - exists n. auto.
  - exists (length l). split; [|lia]. rewrite Hn, take_ge, firstn_all by lia. reflexivity.
Qed.

Lemma elem_of_firstPage (l : list Item) (it : Item) : it ∈ firstPage l -> it ∈ l.
Proof.
  destruct (firstPage_take l) as (n & -> & _).
  intros (i & Hi & _)%elem_of_take. eapply list_elem_of_lookup_2. exact Hi.
Qed.

Lemma itemSize_pos (it : Item) : 0 < itemSize it.
Proof. unfold itemSize, stringSize, numberSize. lia. Qed.

(** Items of at most 1 MB together make one page. *)
Lemma pageFrom_fits (l : list Item) :
  forall budget, itemsSize l <= budget -> pageFrom budget l = l.
Proof.
  induction l as [|it rest IH]; intros budget Hfit; cbn [pageFrom itemsSize foldr] in *;
    [reflexivity|].
  fold (itemsSize rest) in Hfit.
  assert (0 <= itemsSize rest).
  { clear. induction rest as [|it' rest IH]; cbn [itemsSize foldr]; [lia|].
    fold (itemsSize rest). pose proof (itemSize_pos it'). lia. }
  destruct (Z.leb_spec (itemSize it) budget); [|lia].
  rewrite IH by lia. reflexivity.
Qed.

Lemma firstPage_fits (l : list Item) : itemsSize l <= pageBytes -> firstPage l = l.
Proof.
  destruct l as [|it rest]; [reflexivity|]. cbn [firstPage itemsSize foldr].
  fold (itemsSize rest). intros Hfit. rewrite pageFrom_fits by lia. reflexivity.
Qed.

(** Items of more than 1 MB together are cut: the page is shorter than
    the list. *)
Lemma pageFrom_all (l : list Item) :
  forall budget, 0 <= budget -> pageFrom budget l = l -> itemsSize l <= budget.
Proof.
  induction l as [|it rest IH]; intros budget Hb Hall; cbn [pageFrom itemsSize foldr] in *;
    [lia|].
  fold (itemsSize rest).
  destruct (Z.leb_spec (itemSize it) budget) as [Hle|Hgt]; [|discriminate Hall].
  injection Hall as Hall. specialize (IH (budget - itemSize it) ltac:(lia) Hall). lia.
Qed.

Lemma firstPage_cut (l : list Item) :
  Forall (fun it => itemSize it <= pageBytes) l ->
  pageBytes < itemsSize l ->
  (length (firstPage l) < length l)%nat.
Proof.
  intros Hitems Hbig.
  destruct (firstPage_take l) as (n & Hn & Hle).
  destruct (decide (n = length l)) as [->|Hne].
  - exfalso. rewrite firstn_all in Hn.
    destruct l as [|it rest]; [unfold itemsSize, pageBytes in Hbig; cbn [foldr] in Hbig; lia|].
    apply Forall_cons in Hitems as [Hit _].
    cbn [firstPage] in Hn. injection Hn as Hn.
    apply pageFrom_all in Hn; [|lia].
    cbn [itemsSize foldr] in Hbig. fold (itemsSize rest) in Hbig. lia.
  - rewrite Hn, length_take. lia.
Qed.


Lemma answer_fits (p : QueryParams) (tbl : Table) :
  itemsSize (runQuery p tbl) <= pageBytes -> LastEvaluatedKey (answer p tbl) = None.
Proof.
  intros Hfit. unfold answer. cbn [LastEvaluatedKey]. rewrite (firstPage_fits _ Hfit).
  rewrite Nat.ltb_irrefl. reflexivity.
Qed.

Lemma nextFault_items w c : items (nextFault w c).2 = items w.
Proof. unfold nextFault; destruct (faults w); reflexivity. Qed.

Lemma nextFault_sent w c : sent (nextFault w c).2 = sent w ++ [c].
Proof. unfold nextFault; destruct (faults w); reflexivity. Qed.

Lemma sendQuery_items p w : items (sendQuery p w).2 = items w.
Proof.
  unfold sendQuery. pose proof (nextFault_items w (QueryCommand p)) as H.
  destruct (nextFault w (QueryCommand p)) as [[e|] w'];
    [|destruct (q_endTime p <? q_startTime p)]; exact H.
Qed.

Lemma sendQuery_sent p w : sent (sendQuery p w).2 = sent w ++ [QueryCommand p].
Proof.
  unfold sendQuery. pose proof (nextFault_sent w (QueryCommand p)) as H.
  destruct (nextFault w (QueryCommand p)) as [[e|] w'];
    [|destruct (q_endTime p <? q_startTime p)]; exact H.
Qed.

End Store.

(** ** Reads leave the table alone *)

Section Reads.

Lemma queriesOnly_refl w : queriesOnly w w.
Proof. split; [reflexivity|]. exists []. rewrite app_nil_r. auto. Qed.

Lemma queriesOnly_trans w1 w2 w3 :
  queriesOnly w1 w2 -> queriesOnly w2 w3 -> queriesOnly w1 w3.
Proof.
  intros [Hi1 (q1 & Hs1 & Hq1)] [Hi2 (q2 & Hs2 & Hq2)]. split.
  - congruence.
  - exists (q1 ++ q2). rewrite Hs2, Hs1, app_assoc. split; [reflexivity|].
    apply Forall_app; auto.
Qed.

Lemma sendQuery_queriesOnly p w : queriesOnly w (sendQuery p w).2.
Proof.
  split; [apply sendQuery_items|].
  exists [QueryCommand p]. split; [apply sendQuery_sent|].
  repeat constructor.
Qed.

Lemma awaitReady_queriesOnly {A} m (body : World -> Completion A * World) w :
  (forall w0, queriesOnly w0 (body w0).2) -> queriesOnly w (awaitReady m body w).2.
Proof.
  intros Hbody. unfold awaitReady.
  destruct (readiness m); simpl; auto using queriesOnly_refl.
Qed.

Lemma getStatisticsPeriodBody_queriesOnly m topic period startTime endTime w :
  queriesOnly w (getStatisticsPeriodBody m topic period startTime endTime w).2.
Proof.
  unfold getStatisticsPeriodBody.
  destruct (getTimePartition m period) as [partition|]; [|apply queriesOnly_refl].
  destruct (alignDown startTime _) as [lo|]; [|apply queriesOnly_refl].
  destruct (alignDown endTime _) as [hi|]; [|apply queriesOnly_refl].
  match goal with |- context [sendQuery ?q w] =>
    pose proof (sendQuery_queriesOnly q w) as H;
    destruct (sendQuery q w) as [[response|error] w'] end; simpl in *.
  - destruct (Items response); exact H.
  - exact H.
Qed.

Lemma getStatisticsPeriod_queriesOnly m topic period startTime endTime w :
  queriesOnly w (getStatisticsPeriod m topic period startTime endTime w).2.
Proof.
  apply awaitReady_queriesOnly. intros w0.
  apply getStatisticsPeriodBody_queriesOnly.
Qed.

Lemma promiseAll_queriesOnly {A} (calls : list (World -> Completion A * World)) :
  Forall (fun call => forall w, queriesOnly w (call w).2) calls ->
  forall w, queriesOnly w (promiseAll calls w).2.
Proof.
  induction 1 as [|call rest Hcall _ IH]; intros w; simpl.
  - apply queriesOnly_refl.
  - specialize (Hcall w). destruct (call w) as [r w1]; simpl in Hcall.
    specialize (IH w1). destruct (promiseAll rest w1) as [rs w2]; simpl in *.
    eapply queriesOnly_trans; eassumption.
Qed.

Lemma getStatistics_queriesOnly m topic startTime endTime w :
  queriesOnly w (getStatistics m topic startTime endTime w).2.
Proof.
  apply awaitReady_queriesOnly. intros w0.
  match goal with |- context [promiseAll ?cs w0] =>
    assert (Hall : queriesOnly w0 (promiseAll cs w0).2);
    [|destruct (promiseAll cs w0) as [results w']; exact Hall] end.
  apply promiseAll_queriesOnly, Forall_fmap, Forall_forall.
  intros partition _ w1. apply getStatisticsPeriod_queriesOnly.
Qed.

End Reads.

(** C10: whatever the state of the manager, of the table and of the client,
    a sequence of [getStatisticsPeriod] and [getStatistics] calls leaves the
    table as it was (the same cells with the same [count] and [time]), and
    every command sent meanwhile is a query. *)
Theorem reads_never_modify_store (m : TimeSeriesStatisticsManager.t) (calls : list ReadCall) (w : World) :
  items (runReads m calls w) = items w
  /\ (forall k, items (runReads m calls w) !! k = items w !! k)
  /\ dom (items (runReads m calls w)) = dom (items w)
  /\ exists qs, sent (runReads m calls w) = sent w ++ qs
                /\ Forall (fun c => isQuery c = true) qs.
Proof.
  assert (H : queriesOnly w (runReads m calls w)).
  { revert w. induction calls as [|c calls IH]; intros w.
    - apply queriesOnly_refl.
    - unfold runReads; simpl. eapply queriesOnly_trans; [|apply IH].
      destruct c; simpl.
      + apply getStatisticsPeriod_queriesOnly.
      + apply getStatistics_queriesOnly. }
  destruct H as [Hi Hq]. rewrite Hi. auto.
Qed.

(** ** Partition lookup *)

Section Lookup.

Lemma getTimePartition_None m period :
  getTimePartition m period = None <->
  period ∉ (TimePartition.name <$> timePartitions m).
Proof.
  unfold getTimePartition. induction (timePartitions m) as [|tp tps IH]; simpl.
  - split; [intros _ H; inversion H | reflexivity].
  - rewrite not_elem_of_cons. destruct (String.eqb_spec (TimePartition.name tp) period) as [E|N].
    + split; [discriminate | intros [H _]; congruence].
    + rewrite IH. split; [intros H; split; [congruence | exact H] | intros [_ H]; exact H].
Qed.

Lemma getTimePartition_Some m period partition :
  getTimePartition m period = Some partition ->
  partition ∈ timePartitions m /\ TimePartition.name partition = period.
Proof.
  unfold getTimePartition. intros H. apply List.find_some in H as [Hin Hn].
  apply list_elem_of_In in Hin. apply String.eqb_eq in Hn. auto.
Qed.

Lemma getTimePartition_configured m partition :
  partition ∈ timePartitions m ->
  exists found, getTimePartition m (TimePartition.name partition) = Some found.
Proof.
  intros Hin. destruct (getTimePartition m (TimePartition.name partition)) eqn:E; eauto.
  apply getTimePartition_None in E. exfalso. apply E.
  apply list_elem_of_fmap. eauto.
Qed.

End Lookup.

(** ** C2: lookup of a period that is not configured *)

(** C2 (as stated, refuted): [week] is not a default partition, and on a
    ready manager [getStatisticsPeriod] for it rejects with the TypeError of
    reading [interval] of [undefined], which is no ConfigError. *)
Lemma unknown_period_not_ConfigError :
  ("week" ∉ (TimePartition.name <$> timePartitions readyManager))
  /\ (getStatisticsPeriod readyManager "t" "week" 0 0 emptyWorld).1 = Threw undefinedInterval
  /\ ~ failsWithConfigError (getStatisticsPeriod readyManager "t" "week" 0 0 emptyWorld).1.
Proof.
  split; [|split].
  - apply getTimePartition_None. reflexivity.
  - reflexivity.
  - intros [message H]. vm_compute in H. discriminate H.
Qed.

(** C2 (amended): for a period that names no configured partition,
    [getStatisticsPeriod] on an initialized manager rejects with the
    TypeError raised by reading [interval] of the missing partition; in no
    state of the manager does it return a list, and it sends nothing to
    the client. *)
Theorem unknown_period_rejects_with_TypeError
    (m : TimeSeriesStatisticsManager.t) (topic period : string) (startTime endTime : Z) (w : World) :
  period ∉ (TimePartition.name <$> timePartitions m) ->
  (state m = INITIALIZED ->
   getStatisticsPeriod m topic period startTime endTime w = (Threw undefinedInterval, w))
  /\ errorName undefinedInterval = Some "TypeError"
  /\ (forall l, (getStatisticsPeriod m topic period startTime endTime w).1 <> Returned l)
  /\ (getStatisticsPeriod m topic period startTime endTime w).2 = w.
Proof.
  intros Hunknown. apply getTimePartition_None in Hunknown.
  unfold getStatisticsPeriod, awaitReady, readiness, getStatisticsPeriodBody.
  rewrite Hunknown.
  split; [intros ->; reflexivity|]. split; [reflexivity|].
  destruct (state m); simpl; split; (discriminate || reflexivity).
Qed.

Lemma unknown_period_rejects_with_TypeError_witness :
  ("week" ∉ (TimePartition.name <$> timePartitions readyManager))
  /\ getStatisticsPeriod readyManager "t" "week" 0 0 emptyWorld
      = (Threw undefinedInterval, emptyWorld).
Proof.
  assert (H : "week" ∉ (TimePartition.name <$> timePartitions readyManager))
    by (apply (bool_decide_unpack _); vm_compute; exact I).
  split; [exact H|].
  apply (unknown_period_rejects_with_TypeError readyManager "t" "week" 0 0 emptyWorld H).
  reflexivity.
Defined.

(** ** C6: the range that [getStatisticsPeriod] reads *)

Section Range.

Lemma alignDown_pos time interval :
  0 < interval ->
  alignDown time interval = Some (time / interval * interval)
  /\ time / interval * interval <= time < time / interval * interval + interval
  /\ (time / interval * interval) mod interval = 0.
Proof.
  intros Hpos. unfold alignDown.
  destruct (Z.eqb_spec interval 0) as [->|_]; [lia|].
  split; [reflexivity|]. split.
  - pose proof (Z.mul_div_le time interval Hpos).
    pose proof (Z.mul_succ_div_gt time interval Hpos). lia.
  - apply Z.mod_mul. lia.
Qed.

Lemma sendQuery_succeeds p w :
  nextSendSucceeds w ->
  q_startTime p <= q_endTime p ->
  sendQuery p w
  = (inl (answer p (items w)),
     mkWorld (items w) (sent w ++ [QueryCommand p]) (tail (faults w))).
Proof.
  unfold nextSendSucceeds, sendQuery, nextFault. intros H Hle.
  destruct (Z.ltb_spec (q_endTime p) (q_startTime p)) as [Hlt|_]; [lia|].
  destruct (faults w) as [|[error|] rest]; simpl in *; try reflexivity.
  exfalso. apply (H error). reflexivity.
Qed.

Lemma alignDown_mono interval time1 time2 :
  0 < interval -> time1 <= time2 ->
  time1 / interval * interval <= time2 / interval * interval.
Proof.
  intros Hpos Hle. apply Z.mul_le_mono_nonneg_r; [lia|].
  apply Z.div_le_mono; assumption.
Qed.

End Range.




(** The [month] range is cut at multiples of 30 days, not at the calendar
    month: 1700000000 (2023-11-14) is rounded down to 1697760000
    (2023-10-20), while its calendar month starts at 1698796800. *)
Lemma month_alignment_is_not_calendar :
  alignDown 1700000000 (60 * 60 * 24 * 30) = Some 1697760000
  /\ JsDate.makeTime (monthFields (1700000000 * 1000)) = 1698796800 * 1000.
Proof. vm_compute. auto. Qed.

(** ** C7: [getStatistics] is the concatenation of the per-period reads *)

Section FanOut.

Variable m : TimeSeriesStatisticsManager.t.
Variables (topic : string) (startTime endTime : Z).

(** With a client that never fails, the result of [getStatisticsPeriod]
    depends on the table only, and the call leaves a world of the same
    kind. *)
Lemma getStatisticsPeriod_faultFree period w :
  faults w = [] ->
  (getStatisticsPeriod m topic period startTime endTime w).1
  = (getStatisticsPeriod m topic period startTime endTime (mkWorld (items w) [] [])).1
  /\ items (getStatisticsPeriod m topic period startTime endTime w).2 = items w
  /\ faults (getStatisticsPeriod m topic period startTime endTime w).2 = [].
Proof.
  intros Hf.
  unfold getStatisticsPeriod, awaitReady, getStatisticsPeriodBody.
  destruct (readiness m); simpl; auto.
  destruct (getTimePartition m period) as [partition|]; simpl; auto.
  destruct (alignDown startTime _) as [lo|]; simpl; auto.
  destruct (alignDown endTime _) as [hi|]; simpl; auto.
  unfold sendQuery, nextFault. rewrite Hf. simpl.
  destruct (hi <? lo); simpl; auto.
Qed.

Lemma getStatisticsPeriod_returns partition w :
  state m = INITIALIZED ->
  faults w = [] ->
  Forall (fun p => 0 < TimePartition.interval p) (timePartitions m) ->
  startTime <= endTime ->
  partition ∈ timePartitions m ->
  exists result,
    (getStatisticsPeriod m topic (TimePartition.name partition) startTime endTime w).1
    = Returned result.
Proof.
  intros Hstate Hf Hint Hle Hin.
  destruct (getTimePartition_configured m partition Hin) as [found Hfound].
  assert (Hpos : 0 < TimePartition.interval found).
  { apply getTimePartition_Some in Hfound as [Hin' _].
    rewrite Forall_forall in Hint. auto. }
  destruct (alignDown_pos startTime _ Hpos) as (Hlo & _).
  destruct (alignDown_pos endTime _ Hpos) as (Hhi & _).
  unfold getStatisticsPeriod, awaitReady, readiness, getStatisticsPeriodBody.
  rewrite Hstate, Hfound, Hlo, Hhi, sendQuery_succeeds.
  - simpl. eauto.
  - intros error. rewrite Hf. discriminate.
  - simpl. apply alignDown_mono; assumption.
Qed.

Lemma promiseAll_faultFree (partitions : list TimePartition.t) (results : list (list Statistic.t)) :
  forall w,
    faults w = [] ->
    Forall2 (fun partition result =>
               (getStatisticsPeriod m topic (TimePartition.name partition)
                  startTime endTime w).1 = Returned result)
            partitions results ->
    (promiseAll
       ((fun partition =>
           getStatisticsPeriod m topic (TimePartition.name partition) startTime endTime)
          <$> partitions) w).1 = Returned results.
Proof.
  revert results. induction partitions as [|partition rest IH];
    intros results w Hf Hall; inversion Hall as [|? result ? results' Hhead Htail]; subst.
  - reflexivity.
  - pose proof (getStatisticsPeriod_faultFree (TimePartition.name partition) w Hf)
      as (_ & Hitems & Hfaults).
    simpl.
    destruct (getStatisticsPeriod m topic (TimePartition.name partition) startTime endTime w)
      as [r w1] eqn:Hcall.
    simpl in *. subst r.
    assert (Hrest : (promiseAll
       ((fun partition =>
           getStatisticsPeriod m topic (TimePartition.name partition) startTime endTime)
          <$> rest) w1).1 = Returned results').
    { apply IH; [exact Hfaults|].
      eapply Forall2_impl; [exact Htail|]. intros p r. simpl. intros <-.
      destruct (getStatisticsPeriod_faultFree (TimePartition.name p) w1 Hfaults) as (-> & _).
      destruct (getStatisticsPeriod_faultFree (TimePartition.name p) w Hf) as (-> & _).
      rewrite Hitems. reflexivity. }
    destruct (promiseAll _ w1) as [rs w2]. simpl in Hrest. subst rs. reflexivity.
Qed.

End FanOut.

(** C7: on an initialized manager with a client that does not fail,
    whenever [getStatisticsPeriod] returns for each configured partition,
    [getStatistics] on the same table returns the concatenation of these
    lists, in the order of the configured partitions and with nothing
    removed; and they do return when every interval is positive and
    [startTime <= endTime]. *)
Theorem getStatistics_is_flattened_concatenation
    (m : TimeSeriesStatisticsManager.t) (topic : string) (startTime endTime : Z) (w : World) :
  state m = INITIALIZED ->
  faults w = [] ->
  (forall results : list (list Statistic.t),
     Forall2 (fun partition result =>
                (getStatisticsPeriod m topic (TimePartition.name partition)
                   startTime endTime w).1 = Returned result)
             (timePartitions m) results ->
     (getStatistics m topic startTime endTime w).1 = Returned (concat results))
  /\ (Forall (fun p => 0 < TimePartition.interval p) (timePartitions m) ->
      startTime <= endTime ->
      exists results : list (list Statistic.t),
        Forall2 (fun partition result =>
                   (getStatisticsPeriod m topic (TimePartition.name partition)
                      startTime endTime w).1 = Returned result)
                (timePartitions m) results).
Proof.
  intros Hstate Hf. split.
  - intros results Hall.
    pose proof (promiseAll_faultFree m topic startTime endTime _ _ w Hf Hall) as Hjoin.
    unfold getStatistics, awaitReady, readiness. rewrite Hstate.
    destruct (promiseAll _ w) as [rs w']. simpl in Hjoin. subst rs. reflexivity.
  - intros Hint Hle.
    assert (Hret : forall partition, partition ∈ timePartitions m ->
              exists result,
                (getStatisticsPeriod m topic (TimePartition.name partition)
                   startTime endTime w).1 = Returned result)
      by (intros; apply getStatisticsPeriod_returns; assumption).
    clear Hint. induction (timePartitions m) as [|partition rest IH].
    + exists []. constructor.
    + destruct (Hret partition) as [result Hresult]; [left|].
      destruct IH as [results Hall]; [intros p Hp; apply Hret; right; exact Hp|].
      exists (result :: results). constructor; assumption.
Qed.

Lemma getStatistics_is_flattened_concatenation_witness :
  (getStatistics readyManager "t" 1699999200000 1700000040000 sampleWorld).1
  = Returned (concat
      [ [ Statistic.mk (Some "t") (Some "minute") 2 1699999980000;
          Statistic.mk (Some "t") (Some "minute") 1 1700000040000 ];
        [ Statistic.mk (Some "t") (Some "hour") 3 1699999200000 ];
        []; []; [] ]).
Proof.
  refine (proj1 (getStatistics_is_flattened_concatenation readyManager "t"
                   1699999200000 1700000040000 sampleWorld eq_refl eq_refl) _ _).
  change (timePartitions readyManager) with Defaults.timePartitions.
  unfold Defaults.timePartitions.
  repeat (constructor; [vm_compute; reflexivity|]). constructor.
Defined.

(** ** C5: the writes of [addStatistic] *)

Section Writes.

Variable m : TimeSeriesStatisticsManager.t.
Variables (topic : string) (timestamp : Z) (amount : option Z).

Lemma sendUpdate_unfold u w :
  sendUpdate u w =
  match faults w with
  | [] => (inl tt, mkWorld (applyUpdate u (items w)) (sent w ++ [UpdateCommand u]) [])
  | Some error :: rest => (inr error, mkWorld (items w) (sent w ++ [UpdateCommand u]) rest)
  | None :: rest =>
      (inl tt, mkWorld (applyUpdate u (items w)) (sent w ++ [UpdateCommand u]) rest)
  end.
Proof.
  unfold sendUpdate, nextFault. destruct (faults w) as [|[error|] rest]; reflexivity.
Qed.

Lemma addStatisticLoop_spec (partitions : list TimePartition.t) :
  forall (updates : list UpdateParams) (w : World),
    updateParams m topic timestamp amount <$> partitions = Returned <$> updates ->
    addStatisticLoop m topic timestamp amount partitions w =
    match firstFault (take (length updates) (faults w)) with
    | None =>
        (Returned tt,
         mkWorld (applyUpdates updates (items w))
                 (sent w ++ (UpdateCommand <$> updates))
                 (drop (length updates) (faults w)))
    | Some (k, error) =>
        (Threw error,
         mkWorld (applyUpdates (take k updates) (items w))
                 (sent w ++ (UpdateCommand <$> take (S k) updates))
                 (drop (S k) (faults w)))
    end.
Proof.
  induction partitions as [|partition rest IH]; intros [|u updates] w Hparams;
    try discriminate Hparams.
  - simpl. rewrite app_nil_r. destruct w; reflexivity.
  - simpl in Hparams. injection Hparams as Hu Hrest.
    cbn [addStatisticLoop]. rewrite Hu, sendUpdate_unfold.
    destruct w as [tbl log [|[error|] script]]; cbn [faults items sent length].
    + rewrite (IH updates _ Hrest). cbn [faults items sent firstFault take].
      rewrite take_nil, drop_nil. cbn [firstFault].
      rewrite <- app_assoc. reflexivity.
    + cbn [firstFault take fmap]. rewrite take_0. reflexivity.
    + rewrite (IH updates _ Hrest). cbn [faults items sent firstFault take].
      destruct (firstFault (take (length updates) script)) as [[k error]|];
        cbn [fmap option_fmap option_map prod_map fst snd id];
        rewrite <- app_assoc; reflexivity.
Qed.

End Writes.

(** The updates built for a list of partitions are one per partition, in
    order, each under the key of the topic and that partition. *)
Lemma updateParams_per_partition m topic timestamp amount
    (partitions : list TimePartition.t) (updates : list UpdateParams) :
  updateParams m topic timestamp amount <$> partitions = Returned <$> updates ->
  Forall2 (fun partition u =>
             u_TableName u = table m
             /\ u_topic_period u = createTopicPeriod topic (TimePartition.name partition)
             /\ u_incr u = increment amount)
          partitions updates.
Proof.
  revert updates. induction partitions as [|partition rest IH]; intros [|u updates] H;
    try discriminate H; constructor.
  - simpl in H. injection H as Hu _. unfold updateParams in Hu.
    destruct (getTimePartitionValue timestamp partition); [|discriminate].
    destruct (JsDate.parse s); [|discriminate].
    injection Hu as <-. auto.
  - apply IH. simpl in H. injection H as _ H. exact H.
Qed.

(** C5: on an initialized manager, when every partition's bucket date is
    valid (so that [updates] lists the update built for each configured
    partition, in order), [addStatistic] sends these updates one after the
    other in the order of the partition list.  If the client lets all of
    them through, all are applied and the call returns.  If the first
    failure is at position [k], the call rejects with that error, the
    updates before [k] stay applied, the update at [k] is the last one
    sent, and none is sent for the partitions after it. *)
Theorem addStatistic_writes_sequentially
    (m : TimeSeriesStatisticsManager.t) (topic : string) (timestamp : Z) (amount : option Z)
    (updates : list UpdateParams) (w : World) :
  state m = INITIALIZED ->
  updateParams m topic timestamp amount <$> timePartitions m = Returned <$> updates ->
  Forall2 (fun partition u =>
             u_TableName u = table m
             /\ u_topic_period u = createTopicPeriod topic (TimePartition.name partition)
             /\ u_incr u = increment amount)
          (timePartitions m) updates
  /\ addStatistic m topic timestamp amount w =
     match firstFault (take (length updates) (faults w)) with
     | None =>
         (Returned tt,
          mkWorld (applyUpdates updates (items w))
                  (sent w ++ (UpdateCommand <$> updates))
                  (drop (length updates) (faults w)))
     | Some (k, error) =>
         (Threw error,
          mkWorld (applyUpdates (take k updates) (items w))
                  (sent w ++ (UpdateCommand <$> take (S k) updates))
                  (drop (S k) (faults w)))
     end.
Proof.
  intros Hstate Hparams. split.
  - eapply updateParams_per_partition; exact Hparams.
  - unfold addStatistic, awaitReady, readiness. rewrite Hstate.
    apply addStatisticLoop_spec. exact Hparams.
Qed.

Lemma addStatistic_writes_sequentially_witness :
  addStatistic readyManager "t" 1700000000000 None (mkWorld ∅ [] [None; Some throttled])
  = (Threw throttled,
     mkWorld (applyUpdates (take 1 sampleUpdates) ∅)
             (UpdateCommand <$> take 2 sampleUpdates)
             []).
Proof.
  exact (proj2 (addStatistic_writes_sequentially readyManager "t" 1700000000000 None
                  sampleUpdates (mkWorld ∅ [] [None; Some throttled])
                  eq_refl eq_refl)).
Defined.

(** ** The write path under the default partitions *)

Section DefaultWrites.

Lemma updateParams_isoString m topic t amount partition f :
  Moment.utcFormat t (TimePartition.format partition) = Some (isoString f) ->
  wellFormed f ->
  updateParams m topic t amount partition
  = Returned (mkUpdate (table m) (createTopicPeriod topic (TimePartition.name partition))
                       (JsDate.makeTime f) (increment amount)
                       (JsDate.toISOString (JsDate.makeTime f))).
Proof.
  intros Hfmt Hwf. unfold updateParams, getTimePartitionValue.
  rewrite Hfmt, (parse_isoString f Hwf). reflexivity.
Qed.

(** For a time value in the four-digit years, every default partition has
    a valid bucket date: [addStatistic] builds [defaultUpdates]. *)
Lemma updateParams_defaults m topic t amount :
  inFourDigitYears t ->
  updateParams m topic t amount <$> Defaults.timePartitions
  = Returned <$> defaultUpdates (table m) topic t amount.
Proof.
  intros Ht.
  pose proof (utcFormat_defaults t (inFourDigitYears_valid t Ht)) as Hfmt.
  pose proof (defaultFields_wellFormed t Ht) as Hwf.
  unfold Defaults.timePartitions, defaultFields in *.
  cbn [fmap list_fmap] in Hfmt.
  injection Hfmt as H1 H2 H3 H4 H5.
  inversion_clear Hwf as [|? ? W1 Hwf']. inversion_clear Hwf' as [|? ? W2 Hwf].
  inversion_clear Hwf as [|? ? W3 Hwf']. inversion_clear Hwf' as [|? ? W4 Hwf].
  inversion_clear Hwf as [|? ? W5 _].
  unfold defaultUpdates, Defaults.timePartitions, defaultFields.
  cbn [fmap list_fmap zip_with].
  do 4 (f_equal; [apply updateParams_isoString; assumption|]).
  f_equal. apply updateParams_isoString; assumption.
Qed.

(** The range keys written are the starts of the calendar minute, hour,
    day, month and year of the timestamp taken as milliseconds, in
    milliseconds. *)
Lemma defaultUpdates_rangeKeys tableName topic t amount :
  u_time_partition <$> defaultUpdates tableName topic t amount
  = [ t / 60000 * 60000; t / 3600000 * 3600000; t / 86400000 * 86400000;
      JsDate.makeTime (monthFields t); JsDate.makeTime (yearFields t) ].
Proof.
  unfold defaultUpdates, Defaults.timePartitions, defaultFields.
  cbn [fmap list_fmap zip_with u_time_partition].
  rewrite makeTime_minuteFields, makeTime_hourFields, makeTime_dayFields. reflexivity.
Qed.

(** The writes of [addStatistic] under the default partitions, for every
    time value in the four-digit years. *)
Lemma addStatistic_default_partitions m topic t amount w :
  state m = INITIALIZED ->
  timePartitions m = Defaults.timePartitions ->
  inFourDigitYears t ->
  let updates := defaultUpdates (table m) topic t amount in
  addStatistic m topic t amount w =
  match firstFault (take 5 (faults w)) with
  | None =>
      (Returned tt,
       mkWorld (applyUpdates updates (items w)) (sent w ++ (UpdateCommand <$> updates))
               (drop 5 (faults w)))
  | Some (k, error) =>
      (Threw error,
       mkWorld (applyUpdates (take k updates) (items w))
               (sent w ++ (UpdateCommand <$> take (S k) updates))
               (drop (S k) (faults w)))
  end.
Proof.
  intros Hstate Hparts Ht updates.
  unfold addStatistic, awaitReady, readiness. rewrite Hstate, Hparts.
  apply (addStatisticLoop_spec m topic t amount Defaults.timePartitions updates w).
  apply updateParams_defaults. exact Ht.
Qed.

Lemma append_inj_l s s1 s2 : s +:+ s1 = s +:+ s2 -> s1 = s2.
Proof.
  induction s as [|c s IH]; [trivial|].
  rewrite !append_String. intros H. injection H as H. auto.
Qed.

Lemma createTopicPeriod_inj topic period1 period2 :
  createTopicPeriod topic period1 = createTopicPeriod topic period2 -> period1 = period2.
Proof.
  unfold createTopicPeriod. intros H. apply append_inj_l in H.
  rewrite !append_String, !append_empty in H. injection H as H. exact H.
Qed.

Lemma runQuery_singleton (p : QueryParams) (tbl : Table) k a :
  (forall k' a', tbl !! k' = Some a' /\ matches p k' <-> k' = k /\ a' = a) ->
  runQuery p tbl = [mkItem k.1 k.2 a].
Proof.
  intros H. unfold runQuery.
  assert (E : filter (fun kv : string * Z * Attrs => matches p kv.1) tbl = {[ k := a ]}).
  { apply map_eq. intros k'. apply option_eq. intros a'.
    rewrite map_lookup_filter_Some, lookup_singleton_Some. simpl. rewrite H.
    split; intros [-> ->]; auto. }
  rewrite E, map_to_list_singleton. reflexivity.
Qed.

(** What does hold of one write followed by a read of its minute: with the
    timestamp taken as milliseconds and the range given at the start of
    its calendar minute in milliseconds, the read returns one Statistic,
    with count 1. *)
Lemma write_then_read_minute_in_milliseconds topic t w :
  inFourDigitYears t ->
  faults w = [] ->
  (forall r, items w !! (createTopicPeriod topic "minute", r) = None) ->
  let a := t / 60000 * 60000 in
  let w1 := (addStatistic readyManager topic t None w).2 in
  (addStatistic readyManager topic t None w).1 = Returned tt
  /\ exists statistic,
       (getStatisticsPeriod readyManager topic "minute" a a w1).1 = Returned [statistic]
       /\ Statistic.count statistic = 1
       /\ Statistic.time_partition statistic = a.
Proof.
  intros Ht Hf Hfresh a w1.
  pose proof (updateParams_defaults readyManager topic t None Ht) as Hparams.
  change (table readyManager) with "statistics" in Hparams.
  assert (Hadd : addStatistic readyManager topic t None w
                 = (Returned tt,
                    mkWorld (applyUpdates (defaultUpdates "statistics" topic t None) (items w))
                      (sent w ++ (UpdateCommand <$> defaultUpdates "statistics" topic t None))
                      [])).
  { unfold addStatistic, awaitReady.
    change (readiness readyManager) with Fulfilled. cbv iota.
    change (timePartitions readyManager) with Defaults.timePartitions.
    rewrite (addStatisticLoop_spec readyManager topic t None _ _ w Hparams), Hf.
    rewrite take_nil, drop_nil. reflexivity. }
  subst w1. rewrite Hadd. cbn [fst snd]. split; [reflexivity|].
  set (tbl1 := applyUpdates _ _).
  set (item := mkItem (createTopicPeriod topic "minute") a (mkAttrs 1 (JsDate.toISOString a))).
  exists (toStatistic item). split; [|split; reflexivity].
  assert (Ha : a / 60 * 60 = a) by (subst a; Z.div_mod_to_equations; lia).
  unfold getStatisticsPeriod, awaitReady. change (readiness readyManager) with Fulfilled.
  cbv iota. unfold getStatisticsPeriodBody.
  change (getTimePartition readyManager "minute")
    with (Some (TimePartition.mk "minute" "YYYY-MM-DDTHH:mm:00.000Z" 60)).
  cbv iota. cbn [TimePartition.interval].
  destruct (alignDown_pos a 60) as (-> & _); [lia|]. rewrite Ha.
  rewrite sendQuery_succeeds; [|intros error; discriminate | simpl; lia].
  unfold answer. cbn [Items fst items]. f_equal.
  rewrite (runQuery_singleton _ tbl1 (createTopicPeriod topic "minute", a)
             (mkAttrs 1 (JsDate.toISOString a))); [reflexivity|].
  intros k' a'. unfold matches. cbn [q_topic_period q_startTime q_endTime].
  assert (Hk1 : tbl1 !! (createTopicPeriod topic "minute", a)
                = Some (mkAttrs 1 (JsDate.toISOString a))).
  { subst tbl1. unfold defaultUpdates, Defaults.timePartitions, defaultFields.
    cbn [zip_with applyUpdates foldl]. unfold applyUpdate.
    cbn [u_topic_period u_time_partition u_incr u_time TimePartition.name].
    rewrite makeTime_minuteFields. fold a.
    rewrite !lookup_insert_ne
      by (intros E; injection E as E _; apply createTopicPeriod_inj in E; discriminate E).
    rewrite lookup_insert_eq, Hfresh. reflexivity. }
  split.
  - intros (Hl & Hh & Hr). destruct k' as [h r]. simpl in *.
    assert (r = a) by lia. subst h r. rewrite Hk1 in Hl. injection Hl as <-. auto.
  - intros [-> ->]. simpl. split; [exact Hk1|]. split; [reflexivity | lia].
Qed.

End DefaultWrites.

(** ** C1 and C3: the unit of the timestamp *)

(** C3 (code at the failing input): given the epoch-seconds timestamp
    1700000000, [addStatistic] writes the range keys of the buckets of
    1970-01-20T16:13:20.000Z in milliseconds, not the bucket starts of
    2023-11-14T22:13:20Z in seconds; no cell exists at the minute start
    1699999980. *)
Theorem addStatistic_keys_are_milliseconds :
  rangeKeys (sent afterSecondsWrite) = [1699980000; 1699200000; 1641600000; 0; 0]
  /\ 1700000000 / 60 * 60 = 1699999980
  /\ items afterSecondsWrite !! ("t#minute", 1699999980) = None
  /\ items afterSecondsWrite !! ("t#minute", 1699980000)
     = Some (mkAttrs 1 "1970-01-20T16:13:00.000Z").
Proof. vm_compute. auto. Qed.

(** C1 (code at the failing input): after that single write, the query of
    the [minute] period at the minute start of the timestamp, 1699999980,
    returns no Statistic. *)
Theorem minute_query_at_seconds_start_is_empty :
  (addStatistic readyManager "t" 1700000000 None emptyWorld).1 = Returned tt
  /\ 1700000000 / 60 * 60 = 1699999980
  /\ (getStatisticsPeriod readyManager "t" "minute" 1699999980 1699999980
        afterSecondsWrite).1 = Returned [].
Proof. vm_compute. auto. Qed.

(** The same write is found at the start of the minute counted in
    milliseconds. *)
Lemma minute_query_at_milliseconds_start :
  1700000000 / 60000 * 60000 = 1699980000
  /\ (getStatisticsPeriod readyManager "t" "minute" 1699980000 1699980000
        afterSecondsWrite).1
     = Returned [Statistic.mk (Some "t") (Some "minute") 1 1699980000].
Proof. vm_compute. auto. Qed.

(** ** C4: the readiness gate after a failed provisioning *)

Section Gate.

Lemma settle_lookup_other p q s (ps : Promises) :
  p <> q -> settle q s ps !! p = ps !! p.
Proof.
  intros Hne. unfold settle. destruct (ps !! q) as [[| |]|]; try reflexivity.
  apply list_lookup_insert_ne. auto.
Qed.

Lemma settle_lookup_settled p q s s' (ps : Promises) :
  ps !! p = Some s' -> s' <> Pending -> settle q s ps !! p = Some s'.
Proof.
  intros Hp Hs. destruct (decide (p = q)) as [->|Hne].
  - unfold settle. rewrite Hp. destruct s'; congruence.
  - rewrite settle_lookup_other; assumption.
Qed.

Lemma settle_lookup_pending p s (ps : Promises) :
  ps !! p = Some Pending -> settle p s ps !! p = Some s.
Proof.
  intros Hp. unfold settle. rewrite Hp.
  apply list_lookup_insert_eq. eapply lookup_lt_Some; eassumption.
Qed.

(** Running queued callbacks with a truthy error leaves a pending promise
    pending or rejected with that error, and a rejected one as it is. *)
Lemma callbacks_keep_rejection error (waiting : list nat) :
  forall (ps : Promises) p,
    truthy error = true ->
    ps !! p = Some Pending \/ ps !! p = Some (Rejected error) ->
    let ps' := foldl (fun ps resolve => onReadyCallback resolve error ps) ps waiting in
    ps' !! p = Some Pending \/ ps' !! p = Some (Rejected error).
Proof.
  induction waiting as [|q waiting IH]; intros ps p Ht Hp; simpl; [exact Hp|].
  apply IH; [exact Ht|]. unfold onReadyCallback. rewrite Ht.
  destruct Hp as [Hp|Hp].
  - destruct (decide (p = q)) as [->|Hne].
    + right. apply settle_lookup_pending. exact Hp.
    + left. rewrite settle_lookup_other; assumption.
  - right. eapply settle_lookup_settled; [exact Hp | discriminate].
Qed.

(** The path that works: a caller that asked while the manager was
    initializing is rejected with the provisioning error itself. *)
Lemma onReady_before_failure_rejects_with_error m (ps : Promises) error :
  state m = INITIALIZING ->
  truthy error = true ->
  let '(p, m1, ps1) := onReady m ps in
  let '(m2, ps2) := initSettled (inr error) m1 ps1 in
  ps1 !! p = Some Pending /\ ps2 !! p = Some (Rejected error).
Proof.
  intros Hstate Ht. unfold onReady. rewrite Hstate.
  unfold initSettled, rejectReadyPromises. cbn [onReadyPromises].
  assert (Hp : (ps ++ [Pending]) !! length ps = Some Pending).
  { rewrite lookup_app_r by lia. rewrite Nat.sub_diag. reflexivity. }
  split; [exact Hp|].
  rewrite foldl_app. cbn [foldl]. unfold onReadyCallback at 1. rewrite Ht.
  destruct (callbacks_keep_rejection error (onReadyPromises m)
              (ps ++ [Pending]) (length ps) Ht (or_introl Hp)) as [H|H].
  - apply settle_lookup_pending. exact H.
  - eapply settle_lookup_settled; [exact H | discriminate].
Qed.

End Gate.

(** C4 (code at the failing input): once provisioning has failed, with
    whatever error, [onReady] returns a promise rejected with [undefined];
    so it does for the error [accessDenied], and a method that awaits the
    gate then rejects with [undefined] too. *)
Theorem onReady_after_failure_rejects_with_undefined :
  (forall (error : JsValue) (m : TimeSeriesStatisticsManager.t) (ps : Promises),
     let '(m1, ps1) := initSettled (inr error) m ps in
     let '(p, _, ps2) := onReady m1 ps1 in
     state m1 = FAIL /\ ps2 !! p = Some (Rejected JsUndefined))
  /\ (let '(p, _, ps) := onReady (failedManager accessDenied) [] in
      ps !! p = Some (Rejected JsUndefined) /\ Rejected JsUndefined <> Rejected accessDenied)
  /\ (addStatistic (failedManager accessDenied) "t" 1700000000 None emptyWorld).1
     = Threw JsUndefined.
Proof.
  split; [|split].
  - intros error m ps. unfold initSettled, rejectReadyPromises, onReady.
    cbn [state]. split; [reflexivity|].
    rewrite lookup_app_r by lia. rewrite Nat.sub_diag. reflexivity.
  - simpl. split; [reflexivity | discriminate].
  - reflexivity.
Qed.

(** ** C8: the increment *)

Lemma increment_nonzero (a : Z) : a <> 0 -> increment (Some a) = a.
Proof. intros H. unfold increment. destruct (Z.eqb_spec a 0); [contradiction | reflexivity]. Qed.

Lemma increment_omitted : increment None = 1.
Proof. reflexivity. Qed.

(** C8 (code at the failing input): with [amount = 0] every update adds 1,
    and each new cell ends with count 1 instead of 0. *)
Theorem amount_zero_increments_by_one :
  increment (Some 0) = 1
  /\ increments (sent (addStatistic readyManager "t" 1700000000000 (Some 0) emptyWorld).2)
     = [1; 1; 1; 1; 1]
  /\ count <$> (items (addStatistic readyManager "t" 1700000000000 (Some 0) emptyWorld).2
                  !! ("t#minute", 1699999980000))
     = Some 1.
Proof. vm_compute. auto. Qed.

(** ** C9: the composite hash key *)

Section CompositeKey.

Lemma split_without_separator sep s : contains sep s = false -> split sep s = [s].
Proof.
  induction s as [|c s IH]; simpl; [reflexivity|].
  intros H. apply orb_false_iff in H as [Hc Hs]. rewrite Hc, (IH Hs). reflexivity.
Qed.

Lemma split_append sep s1 s2 :
  contains sep s1 = false ->
  split sep (s1 +:+ String sep s2) = s1 :: split sep s2.
Proof.
  induction s1 as [|c s1 IH]; simpl.
  - intros _. rewrite Ascii.eqb_refl. reflexivity.
  - intros H. apply orb_false_iff in H as [Hc Hs]. rewrite Hc, (IH Hs). reflexivity.
Qed.

(** The nearby fact that holds: without a [#] in the topic or in the
    partition name, splitting the key gives back both. *)
Lemma split_createTopicPeriod topic period :
  contains "#" topic = false ->
  contains "#" period = false ->
  split "#" (createTopicPeriod topic period) = [topic; period].
Proof.
  intros Ht Hp. unfold createTopicPeriod.
  change ("#" +:+ period) with (String "#" period).
  rewrite (split_append "#" topic period Ht), (split_without_separator "#" period Hp).
  reflexivity.
Qed.

End CompositeKey.

(** C9 (code at the failing input): the cell written for topic [a#b] under
    the [minute] partition has hash key [a#b#minute]; read back, its
    Statistic has topic [a] and period [b]. *)
Theorem topic_with_separator_is_not_recovered :
  createTopicPeriod "a#b" "minute" = "a#b#minute"
  /\ split "#" "a#b#minute" = ["a"; "b"; "minute"]
  /\ (getStatisticsPeriod readyManager "a#b" "minute" 1699999980000 1699999980000
        (addStatistic readyManager "a#b" 1700000000000 None emptyWorld).2).1
     = Returned [Statistic.mk (Some "a") (Some "b") 1 1699999980000].
Proof. vm_compute. auto. Qed.

(** ** The readiness gate through a whole life of the manager *)

Section GateLife.
Import Provisioning.

(** Running the queued callbacks: each queued promise, pending before, gets
    the settlement of the outcome; every other promise stays as it is. *)
Lemma callbacks_settle error (waiting : list nat) :
  forall ps : Promises,
    NoDup waiting ->
    Forall (fun p => ps !! p = Some Pending) waiting ->
    let ps' := foldl (fun ps resolve => onReadyCallback resolve error ps) ps waiting in
    length ps' = length ps
    /\ Forall (fun p => ps' !! p = Some (wake (inr error))) waiting
    /\ (forall p, p ∉ waiting -> ps' !! p = ps !! p).
Proof.
  induction waiting as [|q waiting IH]; intros ps Hnd Hpend; cbn [foldl].
  - split; [reflexivity|]. split; [constructor | reflexivity].
  - apply NoDup_cons in Hnd as [Hq Hnd]. apply Forall_cons in Hpend as [Hqp Hpend].
    set (ps1 := onReadyCallback q error ps).
    assert (Hq1 : ps1 !! q = Some (wake (inr error))).
    { subst ps1. unfold onReadyCallback, wake.
      destruct (truthy error); apply settle_lookup_pending; exact Hqp. }
    assert (Hother : forall p, p <> q -> ps1 !! p = ps !! p).
    { intros p Hp. subst ps1. unfold onReadyCallback.
      destruct (truthy error); apply settle_lookup_other; exact Hp. }
    assert (Hlen : length ps1 = length ps).
    { subst ps1. unfold onReadyCallback, settle. rewrite Hqp.
      destruct (truthy error); apply length_insert. }
    destruct (IH ps1 Hnd) as (Hlen' & Hall & Hframe).
    { apply Forall_forall. intros p Hp.
      rewrite Hother by (intros ->; contradiction).
      revert p Hp. apply Forall_forall. exact Hpend. }
    split; [congruence|]. split.
    + constructor; [|exact Hall]. rewrite Hframe by exact Hq. exact Hq1.
    + intros p Hp. apply not_elem_of_cons in Hp as [Hpq Hp].
      rewrite Hframe by exact Hp. apply Hother. exact Hpq.
Qed.

(** While the manager initializes, [n] calls of [onReady] append [n]
    pending promises and queue exactly these. *)
Lemma onReadyTimes_initializing n :
  forall m (ps : Promises),
    state m = INITIALIZING ->
    onReadyTimes n m ps
    = (seq (length ps) n,
       TimeSeriesStatisticsManager.mk (table m) INITIALIZING
         (onReadyPromises m ++ seq (length ps) n) (timePartitions m),
       ps ++ replicate n Pending).
Proof.
  induction n as [|n IH]; intros m ps Hstate; cbn [onReadyTimes].
  - rewrite !app_nil_r. destruct m; simpl in *; subst; reflexivity.
  - unfold onReady. rewrite Hstate. rewrite IH by reflexivity.
    cbn [table state onReadyPromises timePartitions seq replicate].
    rewrite length_app. cbn [length]. rewrite Nat.add_1_r, <- !app_assoc. reflexivity.
Qed.

(** Once the gate has settled, [onReady] changes nothing in the manager
    and returns a promise settled at once. *)
Lemma onReadyTimes_settled n :
  forall m (ps : Promises),
    state m <> INITIALIZING ->
    onReadyTimes n m ps = (seq (length ps) n, m, ps ++ replicate n (readiness m)).
Proof.
  induction n as [|n IH]; intros m ps Hstate; cbn [onReadyTimes].
  - rewrite app_nil_r. reflexivity.
  - unfold onReady, readiness in *. destruct (state m) eqn:E; [contradiction| |];
      (rewrite IH by (rewrite E; discriminate)); rewrite E;
      cbn [seq replicate]; rewrite length_app; cbn [length];
      rewrite Nat.add_1_r, <- app_assoc; reflexivity.
Qed.

End GateLife.

(** X1: every caller of [onReady] queued between construction and the end
    of provisioning is woken with the outcome: fulfilled when provisioning
    fulfilled, rejected with the provisioning error when it rejected with
    a truthy value; the queue is then empty and the state is INITIALIZED
    or FAIL. *)
Theorem queued_callers_are_woken_with_the_outcome
    (options : Options) (n : nat) (outcome : unit + JsValue) :
  let '(waiting, m1, ps1) := Provisioning.onReadyTimes n (constructor options) [] in
  let '(m2, ps2) := initSettled outcome m1 ps1 in
  length waiting = n
  /\ NoDup waiting
  /\ Forall (fun p => ps1 !! p = Some Pending) waiting
  /\ Forall (fun p => ps2 !! p = Some (wake outcome)) waiting
  /\ length ps2 = n
  /\ onReadyPromises m2 = []
  /\ state m2 = (match outcome with inl _ => INITIALIZED | inr _ => FAIL end).
Proof.
  rewrite onReadyTimes_initializing by reflexivity.
  cbn [length app seq]. 
  assert (Hnd : NoDup (seq 0 n)) by apply NoDup_seq.
  assert (Hpend : Forall (fun p => replicate n Pending !! p = Some Pending) (seq 0 n)).
  { apply Forall_forall. intros p Hp. apply elem_of_seq in Hp.
    apply lookup_replicate. split; [reflexivity | lia]. }
  destruct outcome as [[]|error];
    cbn [initSettled resolveReadyPromises rejectReadyPromises onReadyPromises state app];
    [destruct (callbacks_settle JsUndefined (seq 0 n) _ Hnd Hpend) as (Hlen & Hall & _)
    |destruct (callbacks_settle error (seq 0 n) _ Hnd Hpend) as (Hlen & Hall & _)];
    rewrite length_replicate in Hlen; rewrite length_seq; auto 10.
Qed.

(** X2: from the end of provisioning on, the gate is settled for good:
    any number of later [onReady] calls leave the manager and all earlier
    promises as they are, and each returns a promise settled at once,
    fulfilled after a success and rejected with [undefined] after a
    failure. *)
Theorem gate_is_settled_for_good
    (outcome : unit + JsValue) (m : TimeSeriesStatisticsManager.t) (ps : Promises) (k : nat) :
  let '(m1, ps1) := initSettled outcome m ps in
  let '(later, m2, ps2) := Provisioning.onReadyTimes k m1 ps1 in
  m2 = m1
  /\ ps2 = ps1 ++ replicate k (readiness m1)
  /\ later = seq (length ps1) k
  /\ readiness m1 = (match outcome with inl _ => Fulfilled | inr _ => Rejected JsUndefined end).
Proof.
  destruct outcome as [[]|error];
    cbn [initSettled resolveReadyPromises rejectReadyPromises];
    rewrite onReadyTimes_settled by (cbn [state]; discriminate); auto.
Qed.

(** ** Provisioning of the table *)

Section Waiting.
Import ControlPlane Provisioning.

Lemma pollsLeft_pos endTime c : c < endTime -> (0 < pollsLeft endTime c)%nat.
Proof. unfold pollsLeft. intros H. Z.div_mod_to_equations. lia. Qed.

Lemma pollsLeft_later endTime c c' :
  c < endTime -> c + 1000 <= c' -> (S (pollsLeft endTime c') <= pollsLeft endTime c)%nat.
Proof. unfold pollsLeft. intros H H'. Z.div_mod_to_equations. lia. Qed.

(** The loop with enough fuel: it ends, after [k] polls that are its only
    commands; it returns only on ACTIVE and throws on a terminal status or
    with the deadline passed. *)
Lemma waitLoop_spec svc table endTime fuel :
  forall st,
    (pollsLeft endTime (clock st) < fuel)%nat ->
    exists r st' k,
      waitLoop fuel svc table endTime st = Some (r, st')
      /\ polled svc table endTime st r st' k.
Proof.
  induction fuel as [|fuel IH]; intros st Hfuel; [lia|].
  cbn [waitLoop]. destruct (Z.ltb_spec (clock st) endTime) as [Hlt|Hge].
  2:{ exists (inr (timedOut table)), st, 0%nat. unfold polled. cbn [replicate].
      rewrite app_nil_r, Nat.add_0_r.
      repeat split; try lia; auto. }
  pose proof (pollsLeft_pos _ _ Hlt) as Hpos.
  unfold sendDescribe.
  set (reply := describeReply svc (described st)).
  set (st1 := mkState _ _ _).
  assert (Hone : forall r : unit + JsValue,
    (match r with
     | inl _ => outcome reply = inr ACTIVE
     | inr e => e = timedOut table /\ terminal reply = true
     end) ->
    exists r0 st' k, Some (r, st1) = Some (r0, st') /\ polled svc table endTime st r0 st' k).
  { intros r Hr. exists r, st1, 1%nat. subst st1. unfold polled.
    cbn [sent described clock replicate].
    repeat split; try lia.
    destruct r as [[]|e].
    - exists 0%nat. rewrite Nat.add_0_r. auto.
    - destruct Hr as [-> Hterm]. split; [reflexivity|]. right.
      exists 0%nat. rewrite Nat.add_0_r. auto. }
  assert (Hagain : retryable reply = true ->
    exists r0 st' k,
      waitLoop fuel svc table endTime (sleepSecond reply st1) = Some (r0, st')
      /\ polled svc table endTime st r0 st' k).
  { intros Hretry.
    assert (Hclock : clock st + 1000 <= clock (sleepSecond reply st1)).
    { subst st1. cbn [sleepSecond clock]. lia. }
    pose proof (pollsLeft_later _ _ _ Hlt Hclock) as Hleft.
    destruct (IH (sleepSecond reply st1))
      as (r & st' & k & Hrun & Hsent & Hdesc & Hk & Hc & Hall & Hr); [lia|].
    exists r, st', (S k). subst st1. unfold polled.
    cbn [sleepSecond sent described clock] in *.
    split; [exact Hrun|]. split; [rewrite Hsent, <- app_assoc; reflexivity|].
    split; [lia|]. split; [lia|]. split; [lia|]. split.
    - intros [|j] Hj; [rewrite Nat.add_0_r; exact Hretry|].
      replace (described st + S j)%nat with (S (described st) + j)%nat by lia.
      apply Hall. lia.
    - destruct r as [[]|e].
      + destruct Hr as (j & -> & Hj). exists (S j). split; [reflexivity|].
        replace (described st + S j)%nat with (S (described st) + j)%nat by lia. exact Hj.
      + destruct Hr as [-> [Hdead|(j & -> & Hj)]]; (split; [reflexivity|]); [left; exact Hdead|].
        right. exists (S j). split; [reflexivity|].
        replace (described st + S j)%nat with (S (described st) + j)%nat by lia. exact Hj. }
  unfold retryable, terminal in *.
  destruct (outcome reply) as [e|[]];
    first [ apply Hagain; reflexivity
          | apply (Hone (inl tt)); reflexivity
          | apply (Hone (inr (timedOut table))); split; reflexivity ].
Qed.

Lemma pollClock_ge svc k : forall i c, c + 1000 * Z.of_nat k <= pollClock svc i c k.
Proof.
  induction k as [|k IH]; intros i c; cbn [pollClock]; [lia|].
  specialize (IH (S i) (c + Z.of_N (latency (describeReply svc i)) + 1000
                        + Z.of_N (timerLate (describeReply svc i)))). lia.
Qed.

(** The loop on a table that turns ACTIVE at the [n]-th next poll, each
    poll starting before the deadline. *)
Lemma waitLoop_active svc table endTime n :
  forall fuel st,
    (n < fuel)%nat ->
    (forall j, (j < n)%nat -> retryable (describeReply svc (described st + j)) = true) ->
    outcome (describeReply svc (described st + n)) = inr ACTIVE ->
    pollClock svc (described st) (clock st) n < endTime ->
    waitLoop fuel svc table endTime st
    = Some (inl tt,
            mkState (pollClock svc (described st) (clock st) n
                     + Z.of_N (latency (describeReply svc (described st + n))))
                    (sent st ++ replicate (S n) (DescribeTableCommand table))
                    (described st + S n)).
Proof.
  induction n as [|n IH]; intros fuel st Hfuel Hretry Hactive Hclock;
    (destruct fuel as [|fuel]; [lia|]); cbn [waitLoop pollClock] in *.
  - rewrite Nat.add_0_r in Hactive.
    destruct (Z.ltb_spec (clock st) endTime); [|lia].
    unfold sendDescribe. rewrite Hactive. rewrite Nat.add_0_r, Nat.add_1_r. reflexivity.
  - pose proof (pollClock_ge svc n (S (described st))
      (clock st + Z.of_N (latency (describeReply svc (described st))) + 1000
       + Z.of_N (timerLate (describeReply svc (described st))))) as Hge.
    destruct (Z.ltb_spec (clock st) endTime); [|lia].
    pose proof (Hretry 0%nat ltac:(lia)) as H0. rewrite Nat.add_0_r in H0.
    unfold sendDescribe. unfold retryable in H0.
    set (st1 := sleepSecond _ _).
    assert (Hnext : waitLoop fuel svc table endTime st1
      = Some (inl tt,
            mkState (pollClock svc (described st1) (clock st1) n
                     + Z.of_N (latency (describeReply svc (described st1 + n))))
                    (sent st1 ++ replicate (S n) (DescribeTableCommand table))
                    (described st1 + S n))).
    { apply IH; [lia| | |]; subst st1; cbn [sleepSecond described clock].
      - intros j Hj. replace (S (described st) + j)%nat with (described st + S j)%nat by lia.
        apply Hretry. lia.
      - replace (S (described st) + n)%nat with (described st + S n)%nat by lia. exact Hactive.
      - exact Hclock. }
    subst st1. cbn [sleepSecond described clock sent] in Hnext.
    replace (S (described st) + n)%nat with (described st + S n)%nat in Hnext by lia.
    replace (S (described st) + S n)%nat with (described st + S (S n))%nat in Hnext by lia.
    rewrite <- app_assoc in Hnext. cbn [app replicate] in Hnext.
    destruct (outcome (describeReply svc (described st))) as [e|[]];
      try discriminate H0; exact Hnext.
Qed.

End Waiting.

(** X3: [waitUntilTableExists] always settles, for every service and
    every timeout, and sends nothing but [DescribeTableCommand]s for its
    table, at most one per started second of the timeout (none when the
    timeout is not positive); it never creates a table. *)
Theorem waitUntilTableExists_settles_within_bound
    (svc : ControlPlane.Service) (table : string) (timeout : Z) (st : ControlPlane.State) :
  exists r st' k,
    Provisioning.waitUntilTableExists svc table timeout st = Some (r, st')
    /\ ControlPlane.sent st'
       = ControlPlane.sent st ++ replicate k (ControlPlane.DescribeTableCommand table)
    /\ (k <= Provisioning.pollBound timeout)%nat
    /\ (timeout <= 0 -> k = 0%nat)
    /\ ControlPlane.clock st <= ControlPlane.clock st'.
Proof.
  unfold Provisioning.waitUntilTableExists.
  assert (Hleft : pollsLeft (ControlPlane.clock st + timeout) (ControlPlane.clock st)
                  = Provisioning.pollBound timeout).
  { unfold pollsLeft, Provisioning.pollBound. f_equal. f_equal. lia. }
  destruct (waitLoop_spec svc table (ControlPlane.clock st + timeout)
              (S (Provisioning.pollBound timeout)) st)
    as (r & st' & k & Hrun & Hsent & _ & Hk & Hclock & _); [lia|].
  exists r, st', k. rewrite Hleft in Hk. repeat split; auto.
  intros Hneg. unfold Provisioning.pollBound in Hk.
  assert ((timeout + 999) / 1000 <= 0) by (Z.div_mod_to_equations; lia). lia.
Qed.

(** X4: [waitUntilTableExists] fulfils only when its last poll reported
    the table ACTIVE, and rejects only with its own time-out error: either
    the deadline has passed, or the last poll reported DELETING or
    INACCESSIBLE_ENCRYPTION_CREDENTIALS; a rejected [DescribeTableCommand]
    is never passed on.  Every poll before the last was rejected or
    reported another status. *)
Theorem waitUntilTableExists_outcomes
    (svc : ControlPlane.Service) (table : string) (timeout : Z) (st : ControlPlane.State) :
  match Provisioning.waitUntilTableExists svc table timeout st with
  | Some (r, st') =>
      exists k,
        ControlPlane.described st' = (ControlPlane.described st + k)%nat
        /\ (forall j, (j + 1 < k)%nat ->
              retryable (ControlPlane.describeReply svc (ControlPlane.described st + j)) = true)
        /\ match r with
           | inl _ =>
               exists j, k = S j
                 /\ ControlPlane.outcome
                      (ControlPlane.describeReply svc (ControlPlane.described st + j))
                    = inr ControlPlane.ACTIVE
           | inr e =>
               e = Provisioning.timedOut table
               /\ (ControlPlane.clock st + timeout <= ControlPlane.clock st'
                   \/ exists j, k = S j
                        /\ terminal
                             (ControlPlane.describeReply svc (ControlPlane.described st + j))
                           = true)
           end
  | None => False
  end.
Proof.
  unfold Provisioning.waitUntilTableExists.
  destruct (waitLoop_spec svc table (ControlPlane.clock st + timeout)
              (S (Provisioning.pollBound timeout)) st)
    as (r & st' & k & Hrun & _ & Hdesc & _ & _ & Hretry & Hr).
  { unfold pollsLeft, Provisioning.pollBound.
    replace (ControlPlane.clock st + timeout - ControlPlane.clock st + 999)
      with (timeout + 999) by lia. lia. }
  rewrite Hrun. exists k. auto.
Qed.

(** A poll that starts before the deadline is within the fuel that
    [waitUntilTableExists] gives its loop. *)
Lemma pollBound_suffices svc i c n timeout :
  pollClock svc i c n < c + timeout -> (n < S (Provisioning.pollBound timeout))%nat.
Proof.
  intros Hclock. pose proof (pollClock_ge svc n i c).
  unfold Provisioning.pollBound. Z.div_mod_to_equations. lia.
Qed.

(** X5: when the [n] next polls are rejected or report a status that is
    neither ACTIVE nor terminal, the poll after them reports ACTIVE, and
    that poll starts before the deadline, [waitUntilTableExists] fulfils
    after exactly [n + 1] polls, at the time that poll is answered. *)
Theorem waitUntilTableExists_sees_active
    (svc : ControlPlane.Service) (table : string) (timeout : Z) (st : ControlPlane.State)
    (n : nat) :
  (forall j, (j < n)%nat ->
     retryable (ControlPlane.describeReply svc (ControlPlane.described st + j)) = true) ->
  ControlPlane.outcome (ControlPlane.describeReply svc (ControlPlane.described st + n))
  = inr ControlPlane.ACTIVE ->
  pollClock svc (ControlPlane.described st) (ControlPlane.clock st) n
  < ControlPlane.clock st + timeout ->
  Provisioning.waitUntilTableExists svc table timeout st
  = Some (inl tt,
          ControlPlane.mkState
            (pollClock svc (ControlPlane.described st) (ControlPlane.clock st) n
             + Z.of_N (ControlPlane.latency
                         (ControlPlane.describeReply svc (ControlPlane.described st + n))))
            (ControlPlane.sent st ++ replicate (S n) (ControlPlane.DescribeTableCommand table))
            (ControlPlane.described st + S n)).
Proof.
  intros Hretry Hactive Hclock. unfold Provisioning.waitUntilTableExists.
  apply waitLoop_active; [|exact Hretry | exact Hactive | exact Hclock].
  eapply pollBound_suffices. exact Hclock.
Qed.

Lemma waitUntilTableExists_sees_active_witness :
  Provisioning.waitUntilTableExists warmingService "statistics" 6000
    (ControlPlane.mkState 1700000000070 [] 1)
  = Some (inl tt,
          ControlPlane.mkState 1700000002136
            (replicate 3 (ControlPlane.DescribeTableCommand "statistics")) 4).
Proof.
  apply (waitUntilTableExists_sees_active warmingService "statistics" 6000
           (ControlPlane.mkState 1700000000070 [] 1) 2).
  - intros [|[|j]] Hj; [reflexivity | reflexivity | lia].
  - reflexivity.
  - vm_compute. reflexivity.
Defined.

Section Creation.
Import ControlPlane Provisioning.

Lemma pollBound_default : pollBound 6000 = 6%nat.
Proof. reflexivity. Qed.

Lemma waitUntilTableExists_polled svc table timeout st :
  exists r st' k,
    waitUntilTableExists svc table timeout st = Some (r, st')
    /\ polled svc table (clock st + timeout) st r st' k
    /\ (k <= pollBound timeout)%nat.
Proof.
  assert (Hleft : pollsLeft (clock st + timeout) (clock st) = pollBound timeout).
  { unfold pollsLeft, pollBound. f_equal. f_equal. lia. }
  destruct (waitLoop_spec svc table (clock st + timeout) (S (pollBound timeout)) st)
    as (r & st' & k & Hrun & Hp); [lia|].
  exists r, st', k. split; [exact Hrun|]. split; [exact Hp|].
  destruct Hp as (_ & _ & Hk & _). lia.
Qed.

(** The queue of [n] early callers and the promise table, after the end
    of the constructor's chain. *)
Lemma initSettled_queue tb tps n (outcome : unit + JsValue) :
  initSettled outcome
    (TimeSeriesStatisticsManager.mk tb INITIALIZING (seq 0 n) tps) (replicate n Pending)
  = (TimeSeriesStatisticsManager.mk tb
       (match outcome with inl _ => INITIALIZED | inr _ => FAIL end) [] tps,
     replicate n (wake outcome)).
Proof.
  assert (Hnd : NoDup (seq 0 n)) by apply NoDup_seq.
  assert (Hpend : Forall (fun p => replicate n Pending !! p = Some Pending) (seq 0 n)).
  { apply Forall_forall. intros p Hp. apply elem_of_seq in Hp.
    apply lookup_replicate. split; [reflexivity | lia]. }
  assert (Hfill : forall error,
    foldl (fun ps resolve => onReadyCallback resolve error ps) (replicate n Pending) (seq 0 n)
    = replicate n (wake (inr error))).
  { intros error.
    destruct (callbacks_settle error (seq 0 n) _ Hnd Hpend) as (Hlen & Hall & _).
    rewrite length_replicate in Hlen. symmetry. apply replicate_as_Forall.
    split; [exact Hlen|]. apply Forall_lookup. intros i s Hi.
    rewrite Forall_forall in Hall.
    assert (Hin : i ∈ seq 0 n).
    { apply elem_of_seq. apply lookup_lt_Some in Hi. lia. }
    specialize (Hall i Hin). congruence. }
  destruct outcome as [[]|error];
    unfold initSettled, resolveReadyPromises, rejectReadyPromises;
    cbn [table state onReadyPromises timePartitions];
    rewrite Hfill; reflexivity.
Qed.

Lemma construct_unfold options n svc st :
  construct options n svc st
  = match createTableIfNotExists svc (table (constructor options)) st with
    | Some (outcome, st') =>
        Some (seq 0 n, settledManager options outcome, replicate n (wake outcome), st')
    | None => None
    end.
Proof.
  unfold construct. rewrite onReadyTimes_initializing by reflexivity.
  cbn [length app]. destruct (createTableIfNotExists _ _ _) as [[outcome st']|]; [|reflexivity].
  change (onReadyPromises (constructor options)) with (@nil nat). cbn [app].
  rewrite initSettled_queue. reflexivity.
Qed.

End Creation.

(** X6: [createTableIfNotExists] always settles.  It first sends one
    [DescribeTableCommand].  It sends a [CreateTableCommand], once and with
    the composite key schema, exactly when that first command was rejected
    with an error named ResourceNotFoundException, and polls only after a
    successful creation, at most 6 times.  A table that exists is accepted
    at once, whatever its status. *)
Theorem createTableIfNotExists_commands
    (svc : ControlPlane.Service) (table : string) (st : ControlPlane.State) :
  exists r st' tail,
    Provisioning.createTableIfNotExists svc table st = Some (r, st')
    /\ ControlPlane.sent st'
       = ControlPlane.sent st ++ ControlPlane.DescribeTableCommand table :: tail
    /\ match ControlPlane.outcome (ControlPlane.describeReply svc (ControlPlane.described st)) with
       | inr _ => tail = [] /\ r = inl tt
       | inl error =>
           if decide (errorName error = Some notFound) then
             exists k,
               tail = ControlPlane.CreateTableCommand (Provisioning.createParams table)
                      :: replicate k (ControlPlane.DescribeTableCommand table)
               /\ (k <= 6)%nat
               /\ (forall e, ControlPlane.createFault svc = Some e -> k = 0%nat /\ r = inr e)
           else tail = [] /\ r <> inl tt
       end.
Proof.
  unfold Provisioning.createTableIfNotExists, ControlPlane.sendDescribe.
  destruct (ControlPlane.outcome _) as [error|status]; cbv beta iota.
  2:{ eexists _, _, []. split; [reflexivity|]. split; [reflexivity|]. auto. }
  destruct (errorName error) as [name|] eqn:Hname.
  2:{ eexists _, _, []. split; [reflexivity|]. split; [reflexivity|].
      rewrite decide_False by discriminate. split; [reflexivity | discriminate]. }
  destruct (String.eqb_spec name "ResourceNotFoundException") as [->|Hne].
  2:{ eexists _, _, []. split; [reflexivity|]. split; [reflexivity|].
      rewrite decide_False by (unfold notFound; congruence).
      split; [reflexivity | discriminate]. }
  unfold ControlPlane.sendCreate. destruct (ControlPlane.createFault svc) as [e|] eqn:Hfault.
  - eexists _, _, _. split; [reflexivity|]. cbn [ControlPlane.sent].
    split; [rewrite <- app_assoc; reflexivity|]. rewrite decide_True by reflexivity.
    exists 0%nat. split; [reflexivity|]. split; [lia|]. intros e' [= <-]. auto.
  - match goal with |- context [Provisioning.waitUntilTableExists ?s ?t ?d ?x] =>
      destruct (waitUntilTableExists_polled s t d x) as (r & st' & k & Hrun & Hp & Hk)
    end.
    rewrite Hrun. destruct Hp as (Hsent & _). cbn [ControlPlane.sent] in Hsent.
    eexists r, st', _. split; [reflexivity|].
    split; [rewrite Hsent, <- !app_assoc; reflexivity|]. rewrite decide_True by reflexivity.
    exists k. split; [reflexivity|]. split; [exact Hk|]. intros e [=].
Qed.

(** X7: when the first [DescribeTableCommand] is rejected with an error
    whose name is not ResourceNotFoundException, the manager sends nothing
    else, ends in state FAIL, and every caller of [onReady] queued so far
    is rejected with that very error. *)
Theorem describe_error_fails_the_manager
    (options : Options) (n : nat) (svc : ControlPlane.Service) (st : ControlPlane.State)
    (name message : string) :
  ControlPlane.outcome (ControlPlane.describeReply svc (ControlPlane.described st))
  = inl (JsError name message) ->
  name <> notFound ->
  exists st',
    Provisioning.construct options n svc st
    = Some (seq 0 n, settledManager options (inr (JsError name message)),
            replicate n (Rejected (JsError name message)), st')
    /\ ControlPlane.sent st'
       = ControlPlane.sent st
         ++ [ControlPlane.DescribeTableCommand (table (constructor options))].
Proof.
  intros Hreply Hname. rewrite construct_unfold.
  unfold Provisioning.createTableIfNotExists, ControlPlane.sendDescribe.
  rewrite Hreply. cbn [errorName].
  destruct (String.eqb_spec name "ResourceNotFoundException") as [->|_]; [contradiction|].
  eexists. split; reflexivity.
Qed.

Lemma describe_error_fails_the_manager_witness :
  exists st',
    Provisioning.construct (mkOptions None None) 2 deniedService powerOn
    = Some ([0; 1]%nat, failedManager accessDenied,
            [Rejected accessDenied; Rejected accessDenied], st')
    /\ ControlPlane.sent st' = [ControlPlane.DescribeTableCommand "statistics"].
Proof.
  apply (describe_error_fails_the_manager (mkOptions None None) 2 deniedService powerOn
           "AccessDeniedException" "not authorized to perform dynamodb:DescribeTable").
  - reflexivity.
  - vm_compute. discriminate.
Defined.

(** X8: when the table is missing, its creation succeeds, the [k] next
    polls are rejected or report a status other than ACTIVE and the
    terminal ones, and the poll after them, started less than 6 seconds
    after the creation was answered, reports ACTIVE, then the manager has
    sent describe, create, and [k + 1] polls, ends in state INITIALIZED,
    and every caller of [onReady] queued so far is fulfilled. *)
Theorem missing_table_is_created_and_awaited
    (options : Options) (n : nat) (svc : ControlPlane.Service) (st : ControlPlane.State)
    (message : string) (k : nat) :
  let created := ControlPlane.clock st
                 + Z.of_N (ControlPlane.latency
                             (ControlPlane.describeReply svc (ControlPlane.described st)))
                 + Z.of_N (ControlPlane.createLatency svc) in
  let tableName := table (constructor options) in
  ControlPlane.outcome (ControlPlane.describeReply svc (ControlPlane.described st))
  = inl (JsError notFound message) ->
  ControlPlane.createFault svc = None ->
  (forall j, (j < k)%nat ->
     retryable (ControlPlane.describeReply svc (S (ControlPlane.described st) + j)) = true) ->
  ControlPlane.outcome (ControlPlane.describeReply svc (S (ControlPlane.described st) + k))
  = inr ControlPlane.ACTIVE ->
  pollClock svc (S (ControlPlane.described st)) created k < created + 6000 ->
  exists st',
    Provisioning.construct options n svc st
    = Some (seq 0 n, settledManager options (inl tt), replicate n Fulfilled, st')
    /\ ControlPlane.sent st'
       = ControlPlane.sent st
         ++ ControlPlane.DescribeTableCommand tableName
            :: ControlPlane.CreateTableCommand (Provisioning.createParams tableName)
            :: replicate (S k) (ControlPlane.DescribeTableCommand tableName).
Proof.
  intros created tableName Hreply Hfault Hretry Hactive Hclock. rewrite construct_unfold.
  unfold Provisioning.createTableIfNotExists, ControlPlane.sendDescribe.
  rewrite Hreply. cbn [errorName]. unfold notFound. rewrite String.eqb_refl.
  unfold ControlPlane.sendCreate. rewrite Hfault.
  unfold Provisioning.waitUntilTableExists.
  erewrite waitLoop_active;
    [|eapply pollBound_suffices; exact Hclock | exact Hretry | exact Hactive | exact Hclock].
  eexists. split; [reflexivity|]. cbn [ControlPlane.sent].
  rewrite <- !app_assoc. reflexivity.
Qed.

Lemma missing_table_is_created_and_awaited_witness :
  exists st',
    Provisioning.construct (mkOptions None None) 2 warmingService powerOn
    = Some ([0; 1]%nat, readyManager, [Fulfilled; Fulfilled], st')
    /\ ControlPlane.sent st'
       = [ ControlPlane.DescribeTableCommand "statistics";
           ControlPlane.CreateTableCommand (Provisioning.createParams "statistics");
           ControlPlane.DescribeTableCommand "statistics";
           ControlPlane.DescribeTableCommand "statistics";
           ControlPlane.DescribeTableCommand "statistics" ].
Proof.
  apply (missing_table_is_created_and_awaited (mkOptions None None) 2 warmingService powerOn
           "Requested resource not found" 2).
  - reflexivity.
  - reflexivity.
  - intros [|[|j]] Hj; [reflexivity | reflexivity | lia].
  - reflexivity.
  - vm_compute. reflexivity.
Defined.

(** X9: when the table is missing and its creation succeeds, but no later
    poll ever reports it ACTIVE, the manager gives up after at most 6
    polls, ends in state FAIL, and every caller of [onReady] queued so far
    is rejected with the error "Timed out waiting for table <name> to
    exist". *)
Theorem table_never_active_fails_the_manager
    (options : Options) (n : nat) (svc : ControlPlane.Service) (st : ControlPlane.State)
    (message : string) :
  let tableName := table (constructor options) in
  ControlPlane.outcome (ControlPlane.describeReply svc (ControlPlane.described st))
  = inl (JsError notFound message) ->
  ControlPlane.createFault svc = None ->
  (forall j,
     ControlPlane.outcome (ControlPlane.describeReply svc (S (ControlPlane.described st) + j))
     <> inr ControlPlane.ACTIVE) ->
  exists st' k,
    Provisioning.construct options n svc st
    = Some (seq 0 n, settledManager options (inr (Provisioning.timedOut tableName)),
            replicate n (Rejected (Provisioning.timedOut tableName)), st')
    /\ (k <= 6)%nat
    /\ ControlPlane.sent st'
       = ControlPlane.sent st
         ++ ControlPlane.DescribeTableCommand tableName
            :: ControlPlane.CreateTableCommand (Provisioning.createParams tableName)
            :: replicate k (ControlPlane.DescribeTableCommand tableName).
Proof.
  intros tableName Hreply Hfault Hnever. rewrite construct_unfold.
  unfold Provisioning.createTableIfNotExists, ControlPlane.sendDescribe.
  rewrite Hreply. cbn [errorName]. unfold notFound. rewrite String.eqb_refl.
  unfold ControlPlane.sendCreate. rewrite Hfault.
  match goal with |- context [Provisioning.waitUntilTableExists ?s ?t ?d ?x] =>
    destruct (waitUntilTableExists_polled s t d x) as (r & st' & k & Hrun & Hp & Hk)
  end.
  rewrite Hrun. destruct Hp as (Hsent & _ & _ & _ & _ & Hr).
  cbn [ControlPlane.sent ControlPlane.described] in Hsent, Hr.
  destruct r as [[]|e].
  - destruct Hr as (j & _ & Hj). destruct (Hnever j Hj).
  - destruct Hr as [-> _]. exists st', k. split; [reflexivity|]. split; [exact Hk|].
    rewrite Hsent, <- !app_assoc. reflexivity.
Qed.

Lemma table_never_active_fails_the_manager_witness :
  exists st' k,
    Provisioning.construct (mkOptions None None) 2 stuckService powerOn
    = Some ([0; 1]%nat, failedManager (Provisioning.timedOut "statistics"),
            [ Rejected (JsError "Error" "Timed out waiting for table statistics to exist");
              Rejected (JsError "Error" "Timed out waiting for table statistics to exist") ],
            st')
    /\ (k <= 6)%nat
    /\ ControlPlane.sent st'
       = ControlPlane.DescribeTableCommand "statistics"
         :: ControlPlane.CreateTableCommand (Provisioning.createParams "statistics")
         :: replicate k (ControlPlane.DescribeTableCommand "statistics").
Proof.
  apply (table_never_active_fails_the_manager (mkOptions None None) 2 stuckService powerOn
           "Requested resource not found").
  - reflexivity.
  - reflexivity.
  - intros j. simpl. discriminate.
Defined.

(** ** The store under sequences of calls *)

Section Cells.

Lemma lookup_applyUpdate (u : UpdateParams) (tbl : Table) (k : string * Z) :
  applyUpdate u tbl !! k
  = if decide (updateKey u = k)
    then Some (mkAttrs (countAt tbl k + u_incr u) (u_time u))
    else tbl !! k.
Proof.
  unfold applyUpdate, updateKey, countAt. destruct (decide _) as [<-|Hne].
  - apply lookup_insert_eq.
  - apply lookup_insert_ne. exact Hne.
Qed.

Lemma countAt_applyUpdate (u : UpdateParams) (tbl : Table) (k : string * Z) :
  countAt (applyUpdate u tbl) k
  = countAt tbl k + (if decide (updateKey u = k) then u_incr u else 0).
Proof.
  unfold countAt at 1. rewrite lookup_applyUpdate.
  destruct (decide _); [reflexivity|]. unfold countAt. lia.
Qed.

Lemma applyUpdates_snoc (us : list UpdateParams) (u : UpdateParams) (tbl : Table) :
  applyUpdates (us ++ [u]) tbl = applyUpdate u (applyUpdates us tbl).
Proof. unfold applyUpdates. rewrite foldl_app. reflexivity. Qed.

Lemma applyUpdates_cons (u : UpdateParams) (us : list UpdateParams) (tbl : Table) :
  applyUpdates (u :: us) tbl = applyUpdates us (applyUpdate u tbl).
Proof. reflexivity. Qed.

Lemma applyUpdates_app (us1 us2 : list UpdateParams) (tbl : Table) :
  applyUpdates (us1 ++ us2) tbl = applyUpdates us2 (applyUpdates us1 tbl).
Proof. unfold applyUpdates. apply foldl_app. Qed.

(** The count of a cell after a list of updates is its count before plus
    the increments of the updates at its key. *)
Lemma countAt_applyUpdates (us : list UpdateParams) :
  forall (tbl : Table) (k : string * Z), countAt (applyUpdates us tbl) k = countAt tbl k + incrementAt us k.
Proof.
  induction us as [|u us IH]; intros tbl k; cbn [incrementAt foldr].
  - unfold applyUpdates. cbn [foldl]. lia.
  - rewrite applyUpdates_cons, IH, countAt_applyUpdate. fold (incrementAt us k).
    destruct (decide _); lia.
Qed.

Lemma applyUpdates_frame (us : list UpdateParams) :
  forall (tbl : Table) (k : string * Z),
    Forall (fun u => updateKey u <> k) us -> applyUpdates us tbl !! k = tbl !! k.
Proof.
  induction us as [|u us IH]; intros tbl k Hall; [reflexivity|].
  apply Forall_cons in Hall as [Hu Hall].
  rewrite applyUpdates_cons, IH by exact Hall.
  rewrite lookup_applyUpdate, decide_False by exact Hu. reflexivity.
Qed.

Lemma applyUpdates_keeps (us : list UpdateParams) :
  forall (tbl : Table) (k : string * Z), is_Some (tbl !! k) -> is_Some (applyUpdates us tbl !! k).
Proof.
  induction us as [|u us IH]; intros tbl k Hk; [exact Hk|].
  rewrite applyUpdates_cons. apply IH. rewrite lookup_applyUpdate.
  destruct (decide _); [eauto | exact Hk].
Qed.

(** The time of the last update at a key is the one stored. *)
Lemma applyUpdates_touched (us : list UpdateParams) :
  forall (tbl : Table) (k : string * Z),
    Exists (fun u => updateKey u = k) us ->
    exists time, applyUpdates us tbl !! k = Some (mkAttrs (countAt tbl k + incrementAt us k) time)
                 /\ Exists (fun u => updateKey u = k /\ u_time u = time) us.
Proof.
  induction us as [|u us IH] using rev_ind; intros tbl k Hex.
  - inversion Hex.
  - rewrite applyUpdates_snoc, lookup_applyUpdate.
    rewrite <- (countAt_applyUpdates (us ++ [u])), applyUpdates_snoc, countAt_applyUpdate.
    destruct (decide (updateKey u = k)) as [Hu|Hu].
    + exists (u_time u). split; [reflexivity|].
      apply Exists_app. right. constructor. auto.
    + apply Exists_app in Hex as [Hex|Hex].
      2:{ inversion Hex as [? ? H|? ? H]; [contradiction | inversion H]. }
      destruct (IH tbl k Hex) as (time & Hlook & Htime).
      exists time. rewrite Hlook, Z.add_0_r, countAt_applyUpdates.
      split; [reflexivity|]. apply Exists_app. left. exact Htime.
Qed.

End Cells.

Section AnyPartitions.

Variable m : TimeSeriesStatisticsManager.t.
Variables (topic : string) (timestamp : Z) (amount : option Z).

(** The updates that a run of the loop of [addStatistic] sends and those
    it gets applied, whatever the partitions and the client do. *)
Lemma addStatisticLoop_updates (partitions : list TimePartition.t) :
  forall w,
    exists applied rejected,
      let w' := (addStatisticLoop m topic timestamp amount partitions w).2 in
      items w' = applyUpdates applied (items w)
      /\ sent w' = sent w ++ (UpdateCommand <$> (applied ++ rejected))
      /\ Forall (fun u =>
                   u_TableName u = table m
                   /\ u_incr u = increment amount
                   /\ exists partition,
                        partition ∈ partitions
                        /\ u_topic_period u
                           = createTopicPeriod topic (TimePartition.name partition))
                (applied ++ rejected).
Proof.
  induction partitions as [|partition rest IH]; intros w; cbn [addStatisticLoop].
  - exists [], []. cbn. rewrite app_nil_r. auto.
  - assert (Hstop : forall r : Completion unit,
      exists applied rejected : list UpdateParams,
        let w' := (r, w).2 in
        items w' = applyUpdates applied (items w)
        /\ sent w' = sent w ++ (UpdateCommand <$> (applied ++ rejected))
        /\ Forall (fun u =>
                   u_TableName u = table m
                   /\ u_incr u = increment amount
                   /\ exists partition0,
                        partition0 ∈ partition :: rest
                        /\ u_topic_period u
                           = createTopicPeriod topic (TimePartition.name partition0))
                (applied ++ rejected)).
    { intros r. exists [], []. cbn. rewrite app_nil_r. auto. }
    destruct (updateParams m topic timestamp amount partition) as [u| | |] eqn:Hu;
      try apply Hstop.
    assert (Hfacts : u_TableName u = table m /\ u_incr u = increment amount
                     /\ u_topic_period u
                        = createTopicPeriod topic (TimePartition.name partition)).
    { unfold updateParams in Hu.
      destruct (getTimePartitionValue timestamp partition); [|discriminate].
      destruct (JsDate.parse s); [|discriminate].
      injection Hu as <-. auto. }
    rewrite sendUpdate_unfold.
    destruct (faults w) as [|[error|] script] eqn:Hf.
    + destruct (IH (mkWorld (applyUpdate u (items w)) (sent w ++ [UpdateCommand u]) []))
        as (applied & rejected & Hitems & Hsent & Hall).
      exists (u :: applied), rejected. cbn [items sent] in *.
      split; [exact Hitems|]. split; [rewrite Hsent, <- app_assoc; reflexivity|].
      constructor.
      * destruct Hfacts as (? & ? & ?). repeat split; auto.
        exists partition. split; [left | assumption].
      * eapply Forall_impl; [exact Hall|]. intros u' (? & ? & p & Hp & ?).
        repeat split; auto. exists p. split; [right; exact Hp | assumption].
    + exists [], [u]. cbn [snd items sent app fmap list_fmap].
      split; [reflexivity|]. split; [reflexivity|]. constructor; [|constructor].
      destruct Hfacts as (? & ? & ?). repeat split; auto.
      exists partition. split; [left | assumption].
    + destruct (IH (mkWorld (applyUpdate u (items w)) (sent w ++ [UpdateCommand u]) script))
        as (applied & rejected & Hitems & Hsent & Hall).
      exists (u :: applied), rejected. cbn [items sent] in *.
      split; [exact Hitems|]. split; [rewrite Hsent, <- app_assoc; reflexivity|].
      constructor.
      * destruct Hfacts as (? & ? & ?). repeat split; auto.
        exists partition. split; [left | assumption].
      * eapply Forall_impl; [exact Hall|]. intros u' (? & ? & p & Hp & ?).
        repeat split; auto. exists p. split; [right; exact Hp | assumption].
Qed.

Lemma addStatistic_updates w :
  exists applied rejected,
    let w' := (addStatistic m topic timestamp amount w).2 in
    items w' = applyUpdates applied (items w)
    /\ sent w' = sent w ++ (UpdateCommand <$> (applied ++ rejected))
    /\ Forall (fun u =>
                 u_TableName u = table m
                 /\ u_incr u = increment amount
                 /\ exists partition,
                      partition ∈ timePartitions m
                      /\ u_topic_period u
                         = createTopicPeriod topic (TimePartition.name partition))
              (applied ++ rejected).
Proof.
  unfold addStatistic, awaitReady. destruct (readiness m).
  - exists [], []. cbn. rewrite app_nil_r. auto.
  - apply addStatisticLoop_updates.
  - exists [], []. cbn. rewrite app_nil_r. auto.
Qed.

End AnyPartitions.

Lemma runRead_items m w c : items (runRead m w c) = items w.
Proof.
  destruct c as [topic period startTime endTime | topic startTime endTime]; cbn [runRead].
  - apply getStatisticsPeriod_queriesOnly.
  - apply getStatistics_queriesOnly.
Qed.

Section QueriesSent.

Variable m : TimeSeriesStatisticsManager.t.
Variables (topic : string) (startTime endTime : Z).

(** The one command of [getStatisticsPeriod], and what is left of the
    client's script after it. *)
Lemma getStatisticsPeriodBody_sent period w :
  let w' := (getStatisticsPeriodBody m topic period startTime endTime w).2 in
  let q := periodQuery m topic startTime endTime period in
  items w' = items w
  /\ sent w' = sent w ++ (QueryCommand <$> option_list q)
  /\ faults w' = drop (length (option_list q)) (faults w).
Proof.
  unfold getStatisticsPeriodBody, periodQuery.
  destruct (getTimePartition m period) as [partition|];
    [|cbn; rewrite app_nil_r; auto].
  destruct (alignDown startTime _) as [lo|]; [|cbn; rewrite app_nil_r; auto].
  destruct (alignDown endTime _) as [hi|]; [|cbn; rewrite app_nil_r; auto].
  unfold sendQuery, nextFault.
  destruct (faults w) as [|[error|] script]; cbn [fst snd option_list fmap list_fmap length];
    [destruct (_ <? _) | | destruct (_ <? _)]; cbn; auto.
Qed.

Lemma getStatisticsPeriod_sent period w :
  state m = INITIALIZED ->
  let w' := (getStatisticsPeriod m topic period startTime endTime w).2 in
  let q := periodQuery m topic startTime endTime period in
  items w' = items w
  /\ sent w' = sent w ++ (QueryCommand <$> option_list q)
  /\ faults w' = drop (length (option_list q)) (faults w).
Proof.
  intros Hstate. unfold getStatisticsPeriod, awaitReady, readiness. rewrite Hstate.
  apply getStatisticsPeriodBody_sent.
Qed.

Lemma promiseAll_sent (partitions : list TimePartition.t) :
  state m = INITIALIZED ->
  forall w,
    let w' := (promiseAll
                 ((fun partition =>
                     getStatisticsPeriod m topic (TimePartition.name partition)
                       startTime endTime) <$> partitions) w).2 in
    let qs := omap (fun partition =>
                      periodQuery m topic startTime endTime (TimePartition.name partition))
                   partitions in
    items w' = items w
    /\ sent w' = sent w ++ (QueryCommand <$> qs)
    /\ faults w' = drop (length qs) (faults w).
Proof.
  intros Hstate.
  induction partitions as [|partition rest IH]; intros w.
  - cbn. rewrite app_nil_r. auto.
  - pose proof (getStatisticsPeriod_sent (TimePartition.name partition) w Hstate)
      as (Hi & Hs & Hf).
    specialize (IH (getStatisticsPeriod m topic (TimePartition.name partition)
                      startTime endTime w).2).
    cbn [fmap list_fmap promiseAll omap list_omap].
    destruct (getStatisticsPeriod m topic (TimePartition.name partition) startTime endTime w)
      as [r w1].
    cbn [snd] in *. cbn zeta in IH.
    destruct (promiseAll _ w1) as [rs w2]. cbn [snd] in *.
    destruct IH as (Hi2 & Hs2 & Hf2).
    destruct (periodQuery m topic startTime endTime (TimePartition.name partition)) as [q|];
      cbn [option_list fmap list_fmap length app] in *.
    + split; [congruence|]. split.
      * rewrite Hs2, Hs, <- app_assoc. reflexivity.
      * rewrite Hf2, Hf, drop_drop. f_equal.
    + rewrite app_nil_r in Hs. rewrite drop_0 in Hf.
      split; [congruence|]. split; congruence.
Qed.

End QueriesSent.

Section CallSequences.

Variable m : TimeSeriesStatisticsManager.t.

Lemma getStatistics_sent topic startTime endTime w :
  state m = INITIALIZED ->
  let w' := (getStatistics m topic startTime endTime w).2 in
  let qs := omap (fun partition =>
                    periodQuery m topic startTime endTime (TimePartition.name partition))
                 (timePartitions m) in
  items w' = items w
  /\ sent w' = sent w ++ (QueryCommand <$> qs)
  /\ faults w' = drop (length qs) (faults w).
Proof.
  intros Hstate. unfold getStatistics, awaitReady, readiness. rewrite Hstate.
  pose proof (promiseAll_sent m topic startTime endTime (timePartitions m) Hstate w) as H.
  cbn zeta in H. destruct (promiseAll _ w) as [rs w']. exact H.
Qed.

Lemma periodQuery_table topic startTime endTime period q :
  periodQuery m topic startTime endTime period = Some q -> q_TableName q = table m.
Proof.
  unfold periodQuery. destruct (getTimePartition m period); [|discriminate].
  destruct (alignDown startTime _); [|discriminate].
  destruct (alignDown endTime _); [|discriminate].
  intros [= <-]. reflexivity.
Qed.

(** Every call sends commands for the manager's table only. *)
Lemma runCall_sent w c :
  exists log, sent (runCall m w c) = sent w ++ log
              /\ Forall (fun c => commandTable c = table m) log.
Proof.
  destruct c as [topic timestamp amount | [topic period startTime endTime | topic startTime endTime]];
    cbn [runCall runRead].
  - destruct (addStatistic_updates m topic timestamp amount w)
      as (applied & rejected & _ & Hsent & Hall).
    eexists. split; [exact Hsent|].
    apply Forall_fmap. eapply Forall_impl; [exact Hall|]. intros u (Ht & _). exact Ht.
  - destruct (state m) eqn:Hstate.
    1,3: exists []; rewrite app_nil_r; split; [|constructor];
         unfold getStatisticsPeriod, awaitReady, readiness; rewrite Hstate; reflexivity.
    pose proof (getStatisticsPeriod_sent m topic startTime endTime period w Hstate)
      as (_ & Hsent & _).
    eexists. split; [exact Hsent|].
    destruct (periodQuery m topic startTime endTime period) as [q|] eqn:Hq; [|constructor].
    constructor; [|constructor]. eapply periodQuery_table; exact Hq.
  - destruct (state m) eqn:Hstate.
    1,3: exists []; rewrite app_nil_r; split; [|constructor];
         unfold getStatistics, awaitReady, readiness; rewrite Hstate; reflexivity.
    pose proof (getStatistics_sent topic startTime endTime w Hstate) as (_ & Hsent & _).
    eexists. split; [exact Hsent|].
    apply Forall_fmap, Forall_forall. intros q Hq.
    apply list_elem_of_omap in Hq as (partition & _ & Hq).
    eapply periodQuery_table; exact Hq.
Qed.

Lemma runCall_dom w c : dom (items w) ⊆ dom (items (runCall m w c)).
Proof.
  destruct c as [topic timestamp amount | r]; cbn [runCall].
  - destruct (addStatistic_updates m topic timestamp amount w) as (applied & rejected & Hitems & _).
    cbn zeta in Hitems. rewrite Hitems. intros k Hk.
    apply elem_of_dom. apply applyUpdates_keeps. apply elem_of_dom. exact Hk.
  - rewrite runRead_items. reflexivity.
Qed.

Lemma incrementAt_nonneg us k :
  Forall (fun u => 0 <= u_incr u) us -> 0 <= incrementAt us k.
Proof.
  induction 1 as [|u us Hu _ IH]; cbn [incrementAt foldr]; [lia|].
  fold (incrementAt us k). destruct (decide _); lia.
Qed.

Lemma increment_nonneg amount :
  match amount with Some a => 0 <= a | None => True end -> 0 <= increment amount.
Proof. unfold increment. destruct amount as [a|]; [|lia]. destruct (Z.eqb_spec a 0); lia. Qed.

Lemma runCall_counts w c k :
  nonNegative c -> countAt (items w) k <= countAt (items (runCall m w c)) k.
Proof.
  destruct c as [topic timestamp amount | r]; cbn [runCall nonNegative]; intros Hc.
  - destruct (addStatistic_updates m topic timestamp amount w)
      as (applied & rejected & Hitems & _ & Hall).
    cbn zeta in Hitems. rewrite Hitems, countAt_applyUpdates.
    apply Forall_app in Hall as [Hall _].
    pose proof (incrementAt_nonneg applied k) as Hnn.
    pose proof (increment_nonneg amount) as Hinc.
    assert (0 <= incrementAt applied k); [|lia].
    apply Hnn. eapply Forall_impl; [exact Hall|]. intros u (_ & -> & _).
    apply Hinc. destruct amount; auto.
  - rewrite runRead_items. lia.
Qed.

End CallSequences.

(** X10: a manager whose table provisioning has not succeeded sends no
    command at all, whatever is called on it and in whatever order: the
    world stays as it is, and each call waits (state INITIALIZING) or
    rejects with [undefined] (state FAIL). *)
Theorem unready_manager_sends_nothing
    (m : TimeSeriesStatisticsManager.t) (calls : list Call) (w : World) :
  state m <> INITIALIZED ->
  runCalls m calls w = w
  /\ Forall (fun c => callEnding m w c
                      = match state m with
                        | FAIL => Threw JsUndefined
                        | _ => Suspended
                        end) calls.
Proof.
  intros Hstate.
  assert (Hone : forall c, runCall m w c = w
                           /\ callEnding m w c
                              = match state m with
                                | FAIL => Threw JsUndefined
                                | _ => Suspended
                                end).
  { intros [topic timestamp amount
           | [topic period startTime endTime | topic startTime endTime]];
      cbn [runCall runRead callEnding];
      unfold addStatistic, getStatisticsPeriod, getStatistics, awaitReady, readiness;
      destruct (state m); try contradiction; auto. }
  split.
  - unfold runCalls. induction calls as [|c calls IH]; [reflexivity|].
    cbn [foldl]. rewrite (proj1 (Hone c)). exact IH.
  - apply Forall_forall. intros c _. apply Hone.
Qed.

Lemma unready_manager_sends_nothing_witness :
  runCalls (failedManager accessDenied)
    [ CallAddStatistic "t" 1700000000000 None;
      CallRead (CallGetStatistics "t" 0 1700000000000) ]
    sampleWorld
  = sampleWorld
  /\ Forall (fun c => callEnding (failedManager accessDenied) sampleWorld c
                      = Threw JsUndefined)
       [ CallAddStatistic "t" 1700000000000 None;
         CallRead (CallGetStatistics "t" 0 1700000000000) ].
Proof.
  apply (unready_manager_sends_nothing (failedManager accessDenied)).
  simpl. discriminate.
Defined.

(** X11: no sequence of calls ever removes a cell: every key present in
    the table before is present after, for every manager, every client
    behaviour and every sequence of [addStatistic], [getStatisticsPeriod]
    and [getStatistics] calls. *)
Theorem calls_never_delete_a_cell
    (m : TimeSeriesStatisticsManager.t) (calls : list Call) (w : World) :
  dom (items w) ⊆ dom (items (runCalls m calls w)).
Proof.
  unfold runCalls. revert w. induction calls as [|c calls IH]; intros w; [reflexivity|].
  cbn [foldl]. etransitivity; [apply (runCall_dom m w c) | apply IH].
Qed.

(** X12: when no call passes a negative amount, no counter ever goes
    down, whichever updates the client lets through. *)
Theorem counts_never_decrease
    (m : TimeSeriesStatisticsManager.t) (calls : list Call) (w : World) (k : string * Z) :
  Forall nonNegative calls ->
  countAt (items w) k <= countAt (items (runCalls m calls w)) k.
Proof.
  unfold runCalls. revert w. induction calls as [|c calls IH]; intros w Hall; [cbn; lia|].
  apply Forall_cons in Hall as [Hc Hall]. cbn [foldl].
  pose proof (runCall_counts m w c k Hc). specialize (IH (runCall m w c) Hall). lia.
Qed.

Lemma counts_never_decrease_witness :
  countAt (items sampleWorld) ("t#hour", 1699999200000)
  <= countAt
       (items (runCalls readyManager
                 [ CallAddStatistic "t" 1700000000000 (Some 3);
                   CallRead (CallGetStatistics "t" 0 1700000000000);
                   CallAddStatistic "t" 1700000000000 (Some 0) ]
                 sampleWorld))
       ("t#hour", 1699999200000).
Proof.
  apply (counts_never_decrease readyManager).
  repeat (apply Forall_cons; split; [simpl; lia|]). apply Forall_nil_2.
Defined.

(** X13: every command that any sequence of calls sends names the
    manager's own table. *)
Theorem calls_use_the_managers_table
    (m : TimeSeriesStatisticsManager.t) (calls : list Call) (w : World) :
  exists log,
    sent (runCalls m calls w) = sent w ++ log
    /\ Forall (fun c => commandTable c = table m) log.
Proof.
  unfold runCalls. revert w. induction calls as [|c calls IH]; intros w.
  - exists []. rewrite app_nil_r. split; [reflexivity | constructor].
  - cbn [foldl]. destruct (runCall_sent m w c) as (log1 & Hs1 & Hall1).
    destruct (IH (runCall m w c)) as (log2 & Hs2 & Hall2).
    exists (log1 ++ log2). split; [rewrite Hs2, Hs1, app_assoc; reflexivity|].
    apply Forall_app. auto.
Qed.

(** X14: [addStatistic] for a topic changes no cell whose hash key is not
    the composite key of that topic with a configured partition, whether
    it succeeds or fails. *)
Theorem addStatistic_touches_its_topic_only
    (m : TimeSeriesStatisticsManager.t) (topic : string) (timestamp : Z) (amount : option Z)
    (w : World) (k : string * Z) :
  Forall (fun partition => k.1 <> createTopicPeriod topic (TimePartition.name partition))
         (timePartitions m) ->
  items (addStatistic m topic timestamp amount w).2 !! k = items w !! k.
Proof.
  intros Hk.
  destruct (addStatistic_updates m topic timestamp amount w)
    as (applied & rejected & Hitems & _ & Hall).
  cbn zeta in Hitems. rewrite Hitems. apply applyUpdates_frame.
  apply Forall_app in Hall as [Hall _].
  eapply Forall_impl; [exact Hall|]. intros u (_ & _ & partition & Hin & Hu) <-.
  rewrite Forall_forall in Hk. apply (Hk partition Hin). exact Hu.
Qed.

Lemma addStatistic_touches_its_topic_only_witness :
  items (addStatistic readyManager "u" 1700000000000 None sampleWorld).2
    !! ("t#minute", 1699999980000)
  = items sampleWorld !! ("t#minute", 1699999980000).
Proof.
  apply (addStatistic_touches_its_topic_only readyManager "u" 1700000000000 None sampleWorld
           ("t#minute", 1699999980000)).
  repeat (apply Forall_cons; split; [vm_compute; discriminate|]). apply Forall_nil_2.
Defined.

(** ** Counters under the default partitions *)

Section DefaultCounters.

Lemma updateKey_defaultUpdates tableName topic t amount :
  updateKey <$> defaultUpdates tableName topic t amount = defaultKeys topic t.
Proof.
  unfold defaultUpdates, defaultKeys, defaultBuckets, Defaults.timePartitions, defaultFields,
    updateKey.
  cbn [fmap list_fmap zip_with u_topic_period u_time_partition TimePartition.name fst snd].
  rewrite makeTime_minuteFields, makeTime_hourFields, makeTime_dayFields. reflexivity.
Qed.

Lemma defaultUpdates_attrs tableName topic t amount :
  Forall (fun u => u_incr u = increment amount
                   /\ u_time u = JsDate.toISOString (u_time_partition u))
         (defaultUpdates tableName topic t amount).
Proof.
  unfold defaultUpdates, Defaults.timePartitions, defaultFields. cbn [zip_with].
  repeat (apply Forall_cons; split;
          [cbn [u_incr u_time u_time_partition]; split; reflexivity|]).
  apply Forall_nil_2.
Qed.

Lemma NoDup_defaultKeys topic t : NoDup (defaultKeys topic t).
Proof.
  assert (H : NoDup ((fun k : string * Z => k.1) <$> defaultKeys topic t)).
  { unfold defaultKeys, defaultBuckets. cbn [fmap list_fmap fst].
    repeat (apply NoDup_cons; split;
            [rewrite ?not_elem_of_cons; repeat split;
             try (intros E; apply createTopicPeriod_inj in E; discriminate E);
             apply not_elem_of_nil|]).
    apply NoDup_nil_2. }
  eapply NoDup_fmap_1. exact H.
Qed.

(** Updates with pairwise different keys and one increment add that
    increment at each of their keys and nothing elsewhere. *)
Lemma incrementAt_NoDup (us : list UpdateParams) (inc : Z) (k : string * Z) :
  NoDup (updateKey <$> us) ->
  Forall (fun u => u_incr u = inc) us ->
  incrementAt us k = if decide (k ∈ updateKey <$> us) then inc else 0.
Proof.
  induction us as [|u us IH]; intros Hnd Hall; cbn [incrementAt foldr].
  - rewrite decide_False by apply not_elem_of_nil. reflexivity.
  - fold (incrementAt us k). rewrite fmap_cons in *.
    apply NoDup_cons in Hnd as [Hu Hnd]. apply Forall_cons in Hall as [Hinc Hall].
    rewrite (IH Hnd Hall).
    destruct (decide (updateKey u = k)) as [<-|Hne].
    + rewrite decide_False by exact Hu.
      rewrite decide_True by (left). lia.
    + destruct (decide (k ∈ updateKey <$> us)) as [Hin|Hnin].
      * rewrite decide_True by (right; exact Hin). reflexivity.
      * rewrite decide_False; [reflexivity|].
        intros [->|Hin]%elem_of_cons; [apply Hne; reflexivity | contradiction].
Qed.

(** The table after the updates of one [addStatistic] call under the
    default partitions. *)
Lemma applyUpdates_defaults (tableName topic : string) (t : Z) (amount : option Z)
    (tbl : Table) (k : string * Z) :
  applyUpdates (defaultUpdates tableName topic t amount) tbl !! k
  = if decide (k ∈ defaultKeys topic t)
    then Some (mkAttrs (countAt tbl k + increment amount) (JsDate.toISOString k.2))
    else tbl !! k.
Proof.
  destruct (decide (k ∈ defaultKeys topic t)) as [Hin|Hnin].
  - rewrite <- (updateKey_defaultUpdates tableName topic t amount) in Hin.
    assert (Hex : Exists (fun u => updateKey u = k) (defaultUpdates tableName topic t amount)).
    { apply list_elem_of_fmap in Hin as (u & -> & Hu).
      apply Exists_exists. exists u. auto. }
    destruct (applyUpdates_touched _ tbl k Hex) as (time & -> & Htime).
    rewrite (incrementAt_NoDup _ (increment amount)).
    + rewrite decide_True by exact Hin.
      apply Exists_exists in Htime as (u & Hu & <- & <-).
      pose proof (defaultUpdates_attrs tableName topic t amount) as Hattrs.
      rewrite Forall_forall in Hattrs. destruct (Hattrs u Hu) as (_ & ->). reflexivity.
    + rewrite updateKey_defaultUpdates. apply NoDup_defaultKeys.
    + eapply Forall_impl; [apply defaultUpdates_attrs|]. intros u (H & _). exact H.
  - apply applyUpdates_frame. apply Forall_forall. intros u Hu Hk.
    apply Hnin. rewrite <- (updateKey_defaultUpdates tableName topic t amount), <- Hk.
    apply list_elem_of_fmap. exists u. auto.
Qed.

Lemma incrementAt_defaultUpdates (tableName topic : string) (t : Z) (amount : option Z)
    (k : string * Z) :
  incrementAt (defaultUpdates tableName topic t amount) k
  = if decide (k ∈ defaultKeys topic t) then increment amount else 0.
Proof.
  rewrite (incrementAt_NoDup _ (increment amount)).
  - rewrite updateKey_defaultUpdates. reflexivity.
  - rewrite updateKey_defaultUpdates. apply NoDup_defaultKeys.
  - eapply Forall_impl; [apply defaultUpdates_attrs|]. intros u (H & _). exact H.
Qed.

Lemma addStatistic_defaults_faultFree m topic t amount w :
  state m = INITIALIZED ->
  timePartitions m = Defaults.timePartitions ->
  inFourDigitYears t ->
  firstFault (take 5 (faults w)) = None ->
  addStatistic m topic t amount w
  = (Returned tt,
     mkWorld (applyUpdates (defaultUpdates (table m) topic t amount) (items w))
             (sent w ++ (UpdateCommand <$> defaultUpdates (table m) topic t amount))
             (drop 5 (faults w))).
Proof.
  intros Hstate Hparts Ht Hf.
  rewrite (addStatistic_default_partitions m topic t amount w Hstate Hparts Ht).
  cbn zeta. rewrite Hf. reflexivity.
Qed.

End DefaultCounters.

(** X15: under the default partitions, when the client lets the five
    updates through, [addStatistic] with a time value in years 0000-9999
    returns and is an upsert of exactly five cells: the cells of the
    topic's minute, hour, day, month and year holding the timestamp (in
    milliseconds) get their old count, zero when absent, plus the
    increment, and the ISO string of their range key as time; every other
    cell is unchanged. *)
Theorem addStatistic_upserts_its_five_cells
    (m : TimeSeriesStatisticsManager.t) (topic : string) (t : Z) (amount : option Z)
    (w : World) :
  state m = INITIALIZED ->
  timePartitions m = Defaults.timePartitions ->
  inFourDigitYears t ->
  firstFault (take 5 (faults w)) = None ->
  (addStatistic m topic t amount w).1 = Returned tt
  /\ forall k,
       items (addStatistic m topic t amount w).2 !! k
       = if decide (k ∈ defaultKeys topic t)
         then Some (mkAttrs (countAt (items w) k + increment amount) (JsDate.toISOString k.2))
         else items w !! k.
Proof.
  intros Hstate Hparts Ht Hf.
  rewrite (addStatistic_defaults_faultFree m topic t amount w Hstate Hparts Ht Hf).
  split; [reflexivity|]. intros k. cbn [snd items]. apply applyUpdates_defaults.
Qed.

Lemma addStatistic_upserts_its_five_cells_witness :
  (addStatistic readyManager "t" 1700000000000 (Some 3) sampleWorld).1 = Returned tt
  /\ forall k,
       items (addStatistic readyManager "t" 1700000000000 (Some 3) sampleWorld).2 !! k
       = if decide (k ∈ defaultKeys "t" 1700000000000)
         then Some (mkAttrs (countAt (items sampleWorld) k + increment (Some 3))
                            (JsDate.toISOString k.2))
         else items sampleWorld !! k.
Proof.
  apply (addStatistic_upserts_its_five_cells readyManager "t" 1700000000000 (Some 3)
           sampleWorld).
  - reflexivity.
  - reflexivity.
  - unfold inFourDigitYears. lia.
  - reflexivity.
Defined.

Section Buckets.

Lemma elem_of_defaultKeys topic t name r :
  (createTopicPeriod topic name, r) ∈ defaultKeys topic t <-> (name, r) ∈ defaultBuckets t.
Proof.
  unfold defaultKeys. rewrite list_elem_of_fmap. split.
  - intros ([name' r'] & E & Hin). cbn [fst snd] in E. injection E as E ->.
    apply createTopicPeriod_inj in E. subst name'. exact Hin.
  - intros Hin. exists (name, r). auto.
Qed.

Lemma fixedWidth_bucket t name width r :
  (name, width) ∈ fixedWidths ->
  (name, r) ∈ defaultBuckets t <-> r = t / width * width.
Proof.
  unfold fixedWidths, defaultBuckets. intros Hin.
  apply elem_of_cons in Hin as [E|Hin]; [|apply elem_of_cons in Hin as [E|Hin];
    [|apply elem_of_cons in Hin as [E|Hin]; [|inversion Hin]]];
    injection E as -> ->; split.
  all: try (intros ->; repeat (first [left; reflexivity | right])).
  all: intros H;
    repeat (apply elem_of_cons in H as [H|H];
            [first [discriminate H | injection H as ->; reflexivity]|]);
    inversion H.
Qed.

Lemma same_bucket t1 t2 width :
  0 < width -> t1 / width * width = t2 / width * width <-> t1 / width = t2 / width.
Proof. intros Hw. split; [|congruence]. apply Z.mul_cancel_r. lia. Qed.

Lemma fixedWidths_pos name width : (name, width) ∈ fixedWidths -> 0 < width.
Proof.
  unfold fixedWidths. rewrite !elem_of_cons, elem_of_nil.
  intros [E|[E|[E|[]]]]; injection E as -> ->; lia.
Qed.

Lemma firstFault_replicate j error rest :
  firstFault (replicate j None ++ Some error :: rest) = Some (j, error).
Proof.
  induction j as [|j IH]; cbn [replicate app firstFault]; [reflexivity|].
  rewrite IH. reflexivity.
Qed.

Lemma firstFault_nil n : firstFault (take n []) = None.
Proof. rewrite take_nil. reflexivity. Qed.

End Buckets.

(** X16: under the default partitions and with a client that does not
    fail, two [addStatistic] calls add up: a cell gets the increment of
    each call whose timestamp falls in its bucket.  In particular the
    minute, hour and day cells of the first timestamp get both increments
    exactly when the second timestamp is in the same minute, hour or day
    (counted in milliseconds), and the first increment alone otherwise. *)
Theorem two_writes_add_up
    (m : TimeSeriesStatisticsManager.t) (topic : string) (t1 t2 : Z) (a1 a2 : option Z)
    (w : World) :
  state m = INITIALIZED ->
  timePartitions m = Defaults.timePartitions ->
  inFourDigitYears t1 ->
  inFourDigitYears t2 ->
  faults w = [] ->
  let w2 := (addStatistic m topic t2 a2 (addStatistic m topic t1 a1 w).2).2 in
  (forall k,
     countAt (items w2) k
     = countAt (items w) k
       + (if decide (k ∈ defaultKeys topic t1) then increment a1 else 0)
       + (if decide (k ∈ defaultKeys topic t2) then increment a2 else 0))
  /\ (forall name width,
        (name, width) ∈ fixedWidths ->
        let k := (createTopicPeriod topic name, t1 / width * width) in
        countAt (items w2) k
        = countAt (items w) k + increment a1
          + (if decide (t1 / width = t2 / width) then increment a2 else 0)).
Proof.
  intros Hstate Hparts Ht1 Ht2 Hf w2.
  assert (Hcount : forall k,
     countAt (items w2) k
     = countAt (items w) k
       + (if decide (k ∈ defaultKeys topic t1) then increment a1 else 0)
       + (if decide (k ∈ defaultKeys topic t2) then increment a2 else 0)).
  { intros k. subst w2.
    rewrite (addStatistic_defaults_faultFree m topic t1 a1 w Hstate Hparts Ht1)
      by (rewrite Hf; apply firstFault_nil).
    cbn [snd].
    rewrite (addStatistic_defaults_faultFree m topic t2 a2 _ Hstate Hparts Ht2)
      by (cbn [faults]; rewrite Hf, drop_nil; apply firstFault_nil).
    cbn [snd items].
    rewrite (countAt_applyUpdates (defaultUpdates (table m) topic t2 a2)).
    rewrite (countAt_applyUpdates (defaultUpdates (table m) topic t1 a1)).
    rewrite (incrementAt_defaultUpdates (table m) topic t1 a1 k).
    rewrite (incrementAt_defaultUpdates (table m) topic t2 a2 k).
    reflexivity. }
  split; [exact Hcount|]. intros name width Hin k. rewrite Hcount. subst k.
  pose proof (fixedWidths_pos name width Hin) as Hpos.
  assert (H1 : (createTopicPeriod topic name, t1 / width * width) ∈ defaultKeys topic t1).
  { apply (proj2 (elem_of_defaultKeys topic t1 name _)).
    apply (proj2 (fixedWidth_bucket t1 name width _ Hin)). reflexivity. }
  rewrite (decide_True _ _ H1).
  destruct (decide (t1 / width = t2 / width)) as [E|N].
  - rewrite decide_True; [reflexivity|].
    apply (proj2 (elem_of_defaultKeys topic t2 name _)).
    apply (proj2 (fixedWidth_bucket t2 name width _ Hin)). congruence.
  - rewrite decide_False; [reflexivity|].
    intros H. apply (proj1 (elem_of_defaultKeys topic t2 name _)) in H.
    apply (proj1 (fixedWidth_bucket t2 name width _ Hin)) in H.
    apply N, (proj1 (same_bucket t1 t2 width Hpos)). exact H.
Qed.

Lemma two_writes_add_up_witness :
  (forall k,
     countAt (items (addStatistic readyManager "t" 1700000030000 (Some 2)
                       (addStatistic readyManager "t" 1700000000000 None emptyWorld).2).2) k
     = countAt (items emptyWorld) k
       + (if decide (k ∈ defaultKeys "t" 1700000000000) then increment None else 0)
       + (if decide (k ∈ defaultKeys "t" 1700000030000) then increment (Some 2) else 0))
  /\ (forall name width,
        (name, width) ∈ fixedWidths ->
        countAt (items (addStatistic readyManager "t" 1700000030000 (Some 2)
                          (addStatistic readyManager "t" 1700000000000 None emptyWorld).2).2)
                (createTopicPeriod "t" name, 1700000000000 / width * width)
        = countAt (items emptyWorld)
                  (createTopicPeriod "t" name, 1700000000000 / width * width)
          + increment None
          + (if decide (1700000000000 / width = 1700000030000 / width)
             then increment (Some 2) else 0)).
Proof.
  apply (two_writes_add_up readyManager "t" 1700000000000 1700000030000 None (Some 2)
           emptyWorld).
  - reflexivity.
  - reflexivity.
  - unfold inFourDigitYears. lia.
  - unfold inFourDigitYears. lia.
  - reflexivity.
Defined.

(** X17: [addStatistic] is not atomic and keeps no record of what it has
    written.  Under the default partitions, when the client rejects the
    update of position [j] (the earlier ones having passed), the call
    rejects with that error; calling it again with the same arguments,
    now with success, leaves the cells before position [j] incremented
    twice and the others once. *)
Theorem retry_after_failure_counts_twice
    (m : TimeSeriesStatisticsManager.t) (topic : string) (t : Z) (amount : option Z)
    (w : World) (j : nat) (error : JsValue) :
  state m = INITIALIZED ->
  timePartitions m = Defaults.timePartitions ->
  inFourDigitYears t ->
  (j < 5)%nat ->
  faults w = replicate j None ++ [Some error] ->
  let w1 := (addStatistic m topic t amount w).2 in
  let w2 := (addStatistic m topic t amount w1).2 in
  (addStatistic m topic t amount w).1 = Threw error
  /\ (addStatistic m topic t amount w1).1 = Returned tt
  /\ forall i k,
       defaultKeys topic t !! i = Some k ->
       countAt (items w2) k
       = countAt (items w) k
         + (if decide (i < j)%nat then 2 * increment amount else increment amount).
Proof.
  intros Hstate Hparts Ht Hj Hf w1 w2.
  set (us := defaultUpdates (table m) topic t amount).
  assert (Hfirst : addStatistic m topic t amount w
                   = (Threw error,
                      mkWorld (applyUpdates (take j us) (items w))
                              (sent w ++ (UpdateCommand <$> take (S j) us)) [])).
  { rewrite (addStatistic_default_partitions m topic t amount w Hstate Hparts Ht).
    cbn zeta. rewrite Hf.
    rewrite take_ge by (rewrite length_app, length_replicate; cbn [length]; lia).
    rewrite firstFault_replicate.
    rewrite drop_ge by (rewrite length_app, length_replicate; cbn [length]; lia).
    reflexivity. }
  assert (Hsecond : addStatistic m topic t amount w1
                    = (Returned tt,
                       mkWorld (applyUpdates us (items w1))
                               (sent w1 ++ (UpdateCommand <$> us)) [])).
  { rewrite (addStatistic_defaults_faultFree m topic t amount w1 Hstate Hparts Ht).
    - subst w1. rewrite Hfirst. reflexivity.
    - subst w1. rewrite Hfirst. reflexivity. }
  split; [rewrite Hfirst; reflexivity|]. split; [rewrite Hsecond; reflexivity|].
  intros i k Hk. subst w2. rewrite Hsecond. cbn [snd items].
  subst w1. rewrite Hfirst. cbn [snd items].
  rewrite (countAt_applyUpdates us), (countAt_applyUpdates (take j us)).
  assert (Hin : k ∈ defaultKeys topic t) by (eapply list_elem_of_lookup_2; exact Hk).
  subst us. rewrite incrementAt_defaultUpdates, (decide_True _ _ Hin).
  rewrite (incrementAt_NoDup _ (increment amount)).
  - rewrite fmap_take, updateKey_defaultUpdates.
    destruct (decide (i < j)%nat) as [Hlt|Hge].
    + rewrite decide_True; [lia|].
      apply elem_of_take. exists i. auto.
    + rewrite decide_False; [lia|].
      intros (i' & Hk' & Hlt)%elem_of_take.
      pose proof (NoDup_lookup _ _ _ _ (NoDup_defaultKeys topic t) Hk Hk'). lia.
  - rewrite fmap_take, updateKey_defaultUpdates.
    eapply sublist_NoDup; [apply NoDup_defaultKeys | apply sublist_take].
  - apply Forall_take. eapply Forall_impl; [apply defaultUpdates_attrs|].
    intros u (H & _). exact H.
Qed.

Lemma retry_after_failure_counts_twice_witness :
  let w := mkWorld ∅ [] [None; None; Some throttled] in
  let w1 := (addStatistic readyManager "t" 1700000000000 None w).2 in
  let w2 := (addStatistic readyManager "t" 1700000000000 None w1).2 in
  (addStatistic readyManager "t" 1700000000000 None w).1 = Threw throttled
  /\ (addStatistic readyManager "t" 1700000000000 None w1).1 = Returned tt
  /\ forall i k,
       defaultKeys "t" 1700000000000 !! i = Some k ->
       countAt (items w2) k
       = countAt (items w) k
         + (if decide (i < 2)%nat then 2 * increment None else increment None).
Proof.
  apply (retry_after_failure_counts_twice readyManager "t" 1700000000000 None
           (mkWorld ∅ [] [None; None; Some throttled]) 2 throttled).
  - reflexivity.
  - reflexivity.
  - unfold inFourDigitYears. lia.
  - lia.
  - reflexivity.
Defined.

(** ** Reading back *)

Section ReadBack.

Lemma toStatistic_createTopicPeriod topic period r a :
  contains "#" topic = false ->
  contains "#" period = false ->
  toStatistic (mkItem (createTopicPeriod topic period) r a)
  = Statistic.mk (Some topic) (Some period) (count a) r.
Proof.
  intros Ht Hp. unfold toStatistic. cbn [topic_period attrs time_partition].
  rewrite (split_createTopicPeriod topic period Ht Hp). reflexivity.
Qed.

Lemma getStatisticsPeriodBody_result m topic period startTime endTime w result :
  (getStatisticsPeriodBody m topic period startTime endTime w).1 = Returned result ->
  exists q,
    periodQuery m topic startTime endTime period = Some q
    /\ result = toStatistic <$> firstPage (runQuery q (items w)).
Proof.
  unfold getStatisticsPeriodBody, periodQuery.
  destruct (getTimePartition m period) as [partition|]; [|discriminate].
  destruct (alignDown startTime _) as [lo|]; [|discriminate].
  destruct (alignDown endTime _) as [hi|]; [|discriminate].
  unfold sendQuery, nextFault, answer.
  destruct (faults w) as [|[error|] script]; cbn [fst snd]; try discriminate;
    destruct (_ <? _); cbn [fst snd Items items]; try discriminate;
    intros [= <-]; eauto.
Qed.

Lemma fixedWidth_partition m name width :
  timePartitions m = Defaults.timePartitions ->
  (name, width) ∈ fixedWidths ->
  exists partition,
    getTimePartition m name = Some partition
    /\ 0 < TimePartition.interval partition
    /\ (width | 1000 * TimePartition.interval partition)
    /\ (TimePartition.interval partition | width)
    /\ contains "#" name = false.
Proof.
  intros Hparts Hin. unfold getTimePartition. rewrite Hparts.
  unfold fixedWidths in Hin.
  apply elem_of_cons in Hin as [E|Hin]; [|apply elem_of_cons in Hin as [E|Hin];
    [|apply elem_of_cons in Hin as [E|Hin]; [|inversion Hin]]];
    injection E as -> ->; eexists; (split; [reflexivity|]);
    cbn [TimePartition.interval]; (split; [lia|]);
    (split; [eexists 1; reflexivity|]); (split; [|reflexivity]).
  - exists 1000. reflexivity.
  - exists 1000. reflexivity.
  - exists 1000. reflexivity.
Qed.

End ReadBack.

(** X18: under the default partitions and with a client that does not
    fail, a write is read back at its bucket: after [addStatistic] for a
    topic without [#], [getStatisticsPeriod] for the minute, hour or day
    partition over the range that starts and ends at the start of the
    timestamp's bucket (in milliseconds) returns exactly one Statistic,
    with that topic, that period, that bucket start, and the count the
    cell had before plus the increment. *)
Theorem write_is_read_back_at_its_bucket
    (m : TimeSeriesStatisticsManager.t) (topic : string) (t : Z) (amount : option Z)
    (w : World) (name : string) (width : Z) :
  (name, width) ∈ fixedWidths ->
  contains "#" topic = false ->
  state m = INITIALIZED ->
  timePartitions m = Defaults.timePartitions ->
  inFourDigitYears t ->
  faults w = [] ->
  let bucket := t / width * width in
  let w1 := (addStatistic m topic t amount w).2 in
  (getStatisticsPeriod m topic name bucket bucket w1).1
  = Returned
      [ Statistic.mk (Some topic) (Some name)
          (countAt (items w) (createTopicPeriod topic name, bucket) + increment amount)
          bucket ].
Proof.
  intros Hin Htopic Hstate Hparts Ht Hf bucket w1.
  destruct (fixedWidth_partition m name width Hparts Hin)
    as (partition & Hfound & Hpos & _ & [c Hc] & Hname).
  assert (Hw1 : w1 = mkWorld (applyUpdates (defaultUpdates (table m) topic t amount) (items w))
                       (sent w ++ (UpdateCommand <$> defaultUpdates (table m) topic t amount))
                       []).
  { subst w1.
    rewrite (addStatistic_defaults_faultFree m topic t amount w Hstate Hparts Ht)
      by (rewrite Hf; apply firstFault_nil).
    rewrite Hf. reflexivity. }
  assert (Halign : bucket / TimePartition.interval partition * TimePartition.interval partition
                   = bucket).
  { subst bucket. rewrite Hc.
    rewrite Z.mul_assoc, Z.div_mul by lia. reflexivity. }
  unfold getStatisticsPeriod, awaitReady, readiness. rewrite Hstate.
  unfold getStatisticsPeriodBody. rewrite Hfound.
  destruct (alignDown_pos bucket _ Hpos) as (-> & _). rewrite Halign.
  rewrite sendQuery_succeeds;
    [|intros error; rewrite Hw1; discriminate | cbn [q_startTime q_endTime]; lia].
  unfold answer. cbn [fst Items]. f_equal.
  set (k := (createTopicPeriod topic name, bucket)).
  assert (Hk : k ∈ defaultKeys topic t).
  { apply (proj2 (elem_of_defaultKeys topic t name _)).
    apply (proj2 (fixedWidth_bucket t name width _ Hin)). reflexivity. }
  rewrite (runQuery_singleton _ (items w1) k
             (mkAttrs (countAt (items w) k + increment amount) (JsDate.toISOString bucket))).
  - cbn [firstPage pageFrom fmap list_fmap]. subst k. cbn [fst snd].
    rewrite (toStatistic_createTopicPeriod topic name _ _ Htopic Hname). reflexivity.
  - intros k' a'. rewrite Hw1. cbn [items]. rewrite applyUpdates_defaults.
    unfold matches. cbn [q_topic_period q_startTime q_endTime]. split.
    + intros (Hlook & Hhash & Hrange). destruct k' as [h r]. cbn [fst snd] in *.
      assert (r = bucket) by lia. subst h r. fold k in Hlook.
      rewrite (decide_True _ _ Hk) in Hlook. injection Hlook as <-. auto.
    + intros [-> ->]. rewrite (decide_True _ _ Hk). subst k. cbn [fst snd].
      split; [reflexivity|]. split; [reflexivity | lia].
Qed.

Lemma write_is_read_back_at_its_bucket_witness :
  (getStatisticsPeriod readyManager "t" "hour" 1699999200000 1699999200000
     (addStatistic readyManager "t" 1700000000000 (Some 3) sampleWorld).2).1
  = Returned [Statistic.mk (Some "t") (Some "hour") 6 1699999200000].
Proof.
  apply (write_is_read_back_at_its_bucket readyManager "t" 1700000000000 (Some 3) sampleWorld
           "hour" 3600000).
  - apply (bool_decide_unpack _). vm_compute. exact I.
  - reflexivity.
  - reflexivity.
  - reflexivity.
  - unfold inFourDigitYears. lia.
  - reflexivity.
Defined.

(** X19: for a topic and a period name without [#], every Statistic that
    [getStatisticsPeriod] returns carries that topic and that period, and
    its [time_partition] lies between the aligned bounds, whatever the
    table holds. *)
Theorem returned_statistics_carry_topic_and_period
    (m : TimeSeriesStatisticsManager.t) (topic period : string) (startTime endTime : Z)
    (w : World) (result : list Statistic.t) :
  contains "#" topic = false ->
  contains "#" period = false ->
  (getStatisticsPeriod m topic period startTime endTime w).1 = Returned result ->
  exists partition,
    getTimePartition m period = Some partition
    /\ Forall (fun s =>
                 Statistic.topic s = Some topic
                 /\ Statistic.period s = Some period
                 /\ startTime / TimePartition.interval partition
                    * TimePartition.interval partition
                    <= Statistic.time_partition s
                    <= endTime / TimePartition.interval partition
                       * TimePartition.interval partition)
              result.
Proof.
  intros Htopic Hperiod Hres.
  unfold getStatisticsPeriod, awaitReady in Hres.
  destruct (readiness m); try discriminate Hres.
  apply getStatisticsPeriodBody_result in Hres as (q & Hq & ->).
  unfold periodQuery in Hq.
  destruct (getTimePartition m period) as [partition|]; [|discriminate].
  exists partition. split; [reflexivity|].
  unfold alignDown in Hq.
  destruct (TimePartition.interval partition =? 0); [discriminate|].
  injection Hq as <-.
  apply Forall_fmap, Forall_forall. intros [h r a] Hitem.
  apply elem_of_firstPage, elem_of_runQuery in Hitem as (_ & Hhash & Hrange).
  cbn [topic_period time_partition fst snd q_topic_period q_startTime q_endTime] in *.
  subst h. unfold compose.
  rewrite (toStatistic_createTopicPeriod topic period r a Htopic Hperiod).
  cbn [Statistic.topic Statistic.period Statistic.time_partition]. auto.
Qed.

Lemma returned_statistics_carry_topic_and_period_witness :
  exists partition,
    getTimePartition readyManager "minute" = Some partition
    /\ Forall (fun s =>
                 Statistic.topic s = Some "t"
                 /\ Statistic.period s = Some "minute"
                 /\ 1699999980000 / TimePartition.interval partition
                    * TimePartition.interval partition
                    <= Statistic.time_partition s
                    <= 1700000040000 / TimePartition.interval partition
                       * TimePartition.interval partition)
         [ Statistic.mk (Some "t") (Some "minute") 2 1699999980000;
           Statistic.mk (Some "t") (Some "minute") 1 1700000040000 ].
Proof.
  apply (returned_statistics_carry_topic_and_period readyManager "t" "minute"
           1699999980000 1700000040000 sampleWorld).
  - reflexivity.
  - reflexivity.
  - vm_compute. reflexivity.
Defined.

Section NoPartialResult.

Variable m : TimeSeriesStatisticsManager.t.
Variables (topic : string) (startTime endTime : Z).

(** One rejected query makes [Promise.all] reject. *)
Lemma promiseAll_rejects (partitions : list TimePartition.t) :
  state m = INITIALIZED ->
  forall w,
    let qs := omap (fun partition =>
                      periodQuery m topic startTime endTime (TimePartition.name partition))
                   partitions in
    firstFault (take (length qs) (faults w)) <> None ->
    exists error,
      (promiseAll
         ((fun partition =>
             getStatisticsPeriod m topic (TimePartition.name partition) startTime endTime)
            <$> partitions) w).1 = Threw error.
Proof.
  intros Hstate. induction partitions as [|partition rest IH]; intros w qs Hfault.
  - subst qs. cbn in Hfault. contradiction.
  - cbn [fmap list_fmap promiseAll].
    pose proof (getStatisticsPeriod_sent m topic startTime endTime
                  (TimePartition.name partition) w Hstate) as (_ & _ & Hfaults).
    assert (Hcall :
      (exists error, (getStatisticsPeriod m topic (TimePartition.name partition)
                        startTime endTime w).1 = Threw error)
      \/ firstFault (take (length (option_list (periodQuery m topic startTime endTime
                                                  (TimePartition.name partition))))
                          (faults w)) = None).
    { unfold getStatisticsPeriod, awaitReady, readiness. rewrite Hstate.
      unfold getStatisticsPeriodBody, periodQuery.
      destruct (getTimePartition m _) as [found|]; [|left; eauto].
      destruct (alignDown startTime _) as [lo|]; [|left; eauto].
      destruct (alignDown endTime _) as [hi|]; [|left; eauto].
      unfold sendQuery, nextFault.
      destruct (faults w) as [|[error|] script]; cbn [fst snd option_list length take firstFault];
        [right; reflexivity | left; eauto | right; reflexivity]. }
    specialize (IH (getStatisticsPeriod m topic (TimePartition.name partition)
                      startTime endTime w).2).
    destruct (getStatisticsPeriod m topic (TimePartition.name partition) startTime endTime w)
      as [r w1].
    cbn [fst snd] in *. cbn zeta in IH.
    destruct Hcall as [[error ->]|Hnone].
    + destruct (promiseAll _ w1) as [rs w2]. cbn [fst joinAll]. eauto.
    + destruct IH as [error Hrest].
      { subst qs. cbn [omap list_omap] in Hfault.
        rewrite Hfaults.
        destruct (periodQuery m topic startTime endTime (TimePartition.name partition))
          as [q|]; cbn [option_list length app] in *.
        - destruct (faults w) as [|[e|] script]; cbn [take firstFault drop] in *.
          + exfalso. apply Hfault. reflexivity.
          + discriminate Hnone.
          + intros Hn. apply Hfault.
            change (drop (length (option_list (Some q))) (None :: script)) with script in Hn.
            rewrite Hn. reflexivity.
        - rewrite drop_0. exact Hfault. }
      destruct (promiseAll _ w1) as [rs w2]. cbn [fst] in *. subst rs.
      destruct r; cbn [joinAll]; eauto.
Qed.

End NoPartialResult.

(** X20: on an initialized manager, [getStatistics] sends the query of
    every configured partition, in the order of the configuration, also
    when the client rejects some of them: unlike in [addStatistic], a
    failure stops nothing.  The table is not changed, and when the client
    rejects one of these queries the whole call rejects: it never returns
    a partial result. *)
Theorem getStatistics_queries_every_partition
    (m : TimeSeriesStatisticsManager.t) (topic : string) (startTime endTime : Z) (w : World) :
  state m = INITIALIZED ->
  Forall (fun partition => TimePartition.interval partition <> 0) (timePartitions m) ->
  let r := (getStatistics m topic startTime endTime w).1 in
  let w' := (getStatistics m topic startTime endTime w).2 in
  let qs := omap (fun partition =>
                    periodQuery m topic startTime endTime (TimePartition.name partition))
                 (timePartitions m) in
  length qs = length (timePartitions m)
  /\ items w' = items w
  /\ sent w' = sent w ++ (QueryCommand <$> qs)
  /\ faults w' = drop (length qs) (faults w)
  /\ (firstFault (take (length qs) (faults w)) <> None -> exists error, r = Threw error).
Proof.
  intros Hstate Hint r w' qs.
  pose proof (getStatistics_sent m topic startTime endTime w Hstate) as (Hitems & Hsent & Hf).
  split; [|split; [exact Hitems|split; [exact Hsent|split; [exact Hf|]]]].
  - subst qs. 
    assert (Hall : forall partitions : list TimePartition.t,
      Forall (fun p => exists found, getTimePartition m (TimePartition.name p) = Some found)
             partitions ->
      length (omap (fun partition =>
                      periodQuery m topic startTime endTime (TimePartition.name partition))
                   partitions) = length partitions).
    { induction 1 as [|p ps [found Hfound] _ IH]; [reflexivity|].
      cbn [omap list_omap]. unfold periodQuery at 1. rewrite Hfound.
      apply getTimePartition_Some in Hfound as [Hin _].
      rewrite Forall_forall in Hint. specialize (Hint found Hin).
      unfold alignDown. destruct (Z.eqb_spec (TimePartition.interval found) 0); [contradiction|].
      cbn [length]. f_equal. exact IH. }
    apply Hall. apply Forall_forall. intros p Hp. apply getTimePartition_configured. exact Hp.
  - intros Hfault. subst r. unfold getStatistics, awaitReady, readiness. rewrite Hstate.
    destruct (promiseAll_rejects m topic startTime endTime (timePartitions m) Hstate w Hfault)
      as [error Hrej].
    destruct (promiseAll _ w) as [rs w2]. cbn [fst] in *. subst rs. eauto.
Qed.

Lemma getStatistics_queries_every_partition_witness :
  let w := mkWorld ∅ [] [None; Some throttled] in
  let r := (getStatistics readyManager "t" 0 1 w).1 in
  let w' := (getStatistics readyManager "t" 0 1 w).2 in
  let qs := omap (fun partition =>
                    periodQuery readyManager "t" 0 1 (TimePartition.name partition))
                 (timePartitions readyManager) in
  length qs = length (timePartitions readyManager)
  /\ items w' = items w
  /\ sent w' = sent w ++ (QueryCommand <$> qs)
  /\ faults w' = drop (length qs) (faults w)
  /\ (firstFault (take (length qs) (faults w)) <> None -> exists error, r = Threw error).
Proof.
  apply (getStatistics_queries_every_partition readyManager "t" 0 1
           (mkWorld ∅ [] [None; Some throttled])).
  - reflexivity.
  - repeat (apply Forall_cons; split; [simpl; lia|]). apply Forall_nil_2.
Defined.
